(** * ai-album-finder: a shallow embedding of [app.py]

    The Flask backend of the album finder keeps a handful of process-wide
    stores (rate windows, search analytics, the liked/saved collection) and a
    "music intelligence" engine made of ordered string-containment rules.
    This development embeds those parts of [app.py] as Rocq functions and
    proves the properties the specification states about them.

    Modelling conventions:
    - Python [str] is [string]; [s.lower()] is [lower] (exact on ASCII text),
      [x in s] on strings is [py_in x s], [s.strip()] is [strip].
    - Python dictionaries used as maps are [gmap]; a [defaultdict] is read
      with the factory's default ([[]] or [0]); the id set is a [gset].
    - [time.time()] readings are integers (clock ticks); averages and ratios,
      floats in Python, are exact rationals ([Q], kept in lowest terms).
    - Handlers are state-passing functions [Globals -> Globals * Response];
      the clock, the random source and the catalog client are explicit
      arguments.
    - The handlers that read a JSON body are embedded twice: over requests
      whose entries are texts, and, in [Generic], over every value a body
      can carry, with the exceptions Python raises on the way; there the
      operations of Python on a value and the [str] methods are an
      interface ([Generic.Value], [Generic.Str]) instead of a definition. *)

From Stdlib Require Import String Ascii ZArith QArith List Lia.
From stdpp Require Import base numbers option list sorting gmap strings.

Local Open Scope string_scope.
Local Open Scope list_scope.
Local Open Scope Z_scope.

(** ** Python string primitives *)

Module PyStr.

Definition is_upper (c : ascii) : bool :=
  ((65 <=? nat_of_ascii c) && (nat_of_ascii c <=? 90))%nat.

Definition lower_char (c : ascii) : ascii :=
  if is_upper c then ascii_of_nat (nat_of_ascii c + 32) else c.

(** [s.lower()] *)
Fixpoint lower (s : string) : string :=
  match s with
  | EmptyString => EmptyString
  | String c s' => String (lower_char c) (lower s')
  end.

(** [sub in s] for two strings: [sub] occurs as a contiguous substring. *)
Fixpoint py_in (sub s : string) : bool :=
  String.prefix sub s ||
  match s with
  | EmptyString => false
  | String _ s' => py_in sub s'
  end.

(** [any(g in s for g in pats)] *)
Definition any_in (pats : list string) (s : string) : bool :=
  existsb (fun g => py_in g s) pats.

(** The characters [str.strip()] removes: space, \t, \n, \v, \f, \r and
    the separators 0x1c-0x1f. *)
Definition is_space (c : ascii) : bool :=
  let n := nat_of_ascii c in
  ((n =? 32) || ((9 <=? n) && (n <=? 13)) || ((28 <=? n) && (n <=? 31)))%nat.

Fixpoint lstrip (s : string) : string :=
  match s with
  | EmptyString => EmptyString
  | String c s' => if is_space c then lstrip s' else s
  end.

Fixpoint rstrip (s : string) : string :=
  match s with
  | EmptyString => EmptyString
  | String c s' =>
      match rstrip s' with
      | EmptyString => if is_space c then EmptyString else String c EmptyString
      | r => String c r
      end
  end.

(** [s.strip()] *)
Definition strip (s : string) : string := rstrip (lstrip s).

(** [sep.join(parts)] *)
Fixpoint join (sep : string) (parts : list string) : string :=
  match parts with
  | [] => EmptyString
  | [p] => p
  | p :: rest => String.append p (String.append sep (join sep rest))
  end.

(** Truthiness of a string: non-empty. *)
Definition truthy (s : string) : bool :=
  match s with EmptyString => false | _ => true end.

(** Truthiness of [d.get(key)] when the value, if present, is a string. *)
Definition truthy_opt (o : option string) : bool :=
  match o with Some s => truthy s | None => false end.

End PyStr.
Import PyStr.

(** ** Rate limiter: the [rate_limit] decorator *)

Module RateLimiter.

(** What the decorated function does before it reaches the wrapped
    handler: it lets the request through, answers 429 with a [retry_after]
    hint, or the subscript [rate_limit_tracker[client_ip][0]] raises. *)
Inductive outcome : Type :=
| Allowed
| Rejected (retry_after : Z)
| IndexError.

(** [rate_limit_tracker[client_ip]] on a [defaultdict(list)]. *)
Definition tracker_get (tracker : gmap string (list Z)) (client_ip : string)
  : list Z :=
  default [] (tracker !! client_ip).

(** The list comprehension that cleans old requests. *)
Definition clean (window now : Z) (timestamps : list Z) : list Z :=
  filter (fun timestamp => now - timestamp < window) timestamps.

(** The body of [decorated_function] up to the call of the handler. *)
Definition rate_limit_gate (max_requests window : Z) (client_ip : string)
    (now : Z) (tracker : gmap string (list Z))
  : gmap string (list Z) * outcome :=
  let kept := clean window now (tracker_get tracker client_ip) in
  let tracker1 := <[client_ip := kept]> tracker in
  if bool_decide (Z.of_nat (length kept) >= max_requests) then
    match kept with
    | [] => (tracker1, IndexError)
    | oldest :: _ => (tracker1, Rejected (window - (now - oldest)))
    end
  else
    (<[client_ip := kept ++ [now]]> tracker1, Allowed).

(** A run of requests, each a client address and the clock reading taken
    when it arrives, through one limiter configuration. *)
Fixpoint run (max_requests window : Z) (requests : list (string * Z))
    (tracker : gmap string (list Z)) : gmap string (list Z) :=
  match requests with
  | [] => tracker
  | (ip, t) :: rest =>
      run max_requests window rest
        (rate_limit_gate max_requests window ip t tracker).1
  end.

(** The clock readings at which the run let [client] through. *)
Fixpoint admitted_times (max_requests window : Z) (client : string)
    (requests : list (string * Z)) (tracker : gmap string (list Z))
  : list Z :=
  match requests with
  | [] => []
  | (ip, t) :: rest =>
      let r := rate_limit_gate max_requests window ip t tracker in
      (if bool_decide (ip = client) then
         match r.2 with Allowed => [t] | _ => [] end
       else [])
      ++ admitted_times max_requests window client rest r.1
  end.

End RateLimiter.


(** ** Numbers *)

Module PyNum.

(** [x > y] and [x < y] on numbers. *)
Definition Qgtb (x y : Q) : bool := negb (Qle_bool x y).
Definition Qltb (x y : Q) : bool := negb (Qle_bool y x).

(** [int(x)] on a number: truncation towards zero. *)
Definition py_trunc (x : Q) : Z := Z.quot (Qnum x) (Z.pos (Qden x)).

(** [sum(values) / len(values)], for a non-empty list. *)
Definition ratio (numerator : Z) (denominator : nat) : Q :=
  Qred (numerator # Pos.of_nat denominator).

Definition sum_list (values : list Z) : Z := foldr Z.add 0 values.

(** [sum(values) / len(values) if values else 0] *)
Definition mean (values : list Z) : Q :=
  match values with
  | [] => 0%Q
  | _ => ratio (sum_list values) (length values)
  end.

(** [max(values)] and [min(values)] of a list with head [x]. *)
Definition max_of (x : Z) (rest : list Z) : Z := foldr Z.max x rest.
Definition min_of (x : Z) (rest : list Z) : Z := foldr Z.min x rest.

Definition digit_of (c : ascii) : option Z :=
  let n := nat_of_ascii c in
  if ((48 <=? n) && (n <=? 57))%nat then Some (Z.of_nat (n - 48)) else None.

(** Decimal digits, single underscores allowed between two digits. *)
Fixpoint digits (s : string) (acc : Z) (after_digit : bool) : option Z :=
  match s with
  | EmptyString => if after_digit then Some acc else None
  | String c s' =>
      if Ascii.eqb c "_" then
        if after_digit then digits s' acc false else None
      else
        match digit_of c with
        | Some d => digits s' (10 * acc + d) true
        | None => None
        end
  end.

(** [int(s)] on a string; [None] stands for [ValueError]. *)
Definition py_int (s : string) : option Z :=
  match strip s with
  | String "+" r => digits r 0 false
  | String "-" r => Z.opp <$> digits r 0 false
  | r => digits r 0 false
  end.

(** [s.split('-')[0]] *)
Fixpoint before_dash (s : string) : string :=
  match s with
  | EmptyString => EmptyString
  | String c s' => if Ascii.eqb c "-" then EmptyString else String c (before_dash s')
  end.

End PyNum.
Import PyNum.

(** ** The random source *)

Module Random.

(** The state of Python's global generator: an unbounded supply of draws
    and the number of draws consumed so far. *)
Record RandomState : Type := {
  entropy : nat -> Z;
  position : nat
}.

(** Computations that may draw random numbers. *)
Definition Rand (A : Type) : Type := RandomState -> A * RandomState.

Definition ret {A : Type} (a : A) : Rand A := fun g => (a, g).

Definition bind {A B : Type} (m : Rand A) (k : A -> Rand B) : Rand B :=
  fun g => let '(a, g') := m g in k a g'.

(** [random.randint(a, b)]: an integer [N] with [a <= N <= b]. *)
Definition randint (a b : Z) : Rand Z :=
  fun g =>
    (a + entropy g (position g) mod (b - a + 1),
     {| entropy := entropy g; position := S (position g) |}).

End Random.
Import Random.

Notation "'draw' x <- m ; k" := (Random.bind m (fun x => k))
  (at level 10, x name, m at level 100, k at level 200).

(** ** The music intelligence engine *)

(** What the classifier returns: the ['mood'], ['complexity'] and
    ['recommendations'] entries of its result dictionary. *)
Record Profile : Type := {
  mood : string;
  complexity : Z;
  recommendations : list string
}.

(** [str(x)] as an f-string renders it, for a name that may be [None]. *)
Definition py_str (x : option string) : string :=
  match x with Some s => s | None => "None" end.

(** [_get_artist_persona]: the artist-name tier.  The first pattern
    contained in the lowercased artist name wins; [None] when none is. *)
Definition _get_artist_persona (artist_lower : string)
    (avg_popularity explicit_ratio : Q) : option Profile :=
  if py_in "michael jackson" artist_lower then
    Some
      {| mood := "Legendary & Timeless";
         complexity := 95;
         recommendations :=
           ["The undisputed King of Pop who redefined music, dance, and entertainment forever";
            "Revolutionary artistry that transcended racial barriers and cultural boundaries worldwide";
            "Every beat, every move, every note is pure musical history in motion"] |}
  else if py_in "taylor swift" artist_lower then
    Some
      {| mood := "Storytelling Mastermind";
         complexity := 85;
         recommendations :=
           ["Swift's songwriting genius transforms personal experiences into universal anthems";
            "From country roots to pop domination - a fearless evolution that redefined success";
            "Each album era represents a new chapter in the most compelling musical autobiography ever written"] |}
  else if (py_in "beyoncÃ©" artist_lower || py_in "beyonce" artist_lower) then
    Some
      {| mood := "Empowering Excellence";
         complexity := 90;
         recommendations :=
           ["Queen B's vocal powerhouse delivery combined with fierce independence and artistic vision";
            "From Destiny's Child to solo reign - every performance is a masterclass in pure talent";
            "BeyoncÃ© doesn't just make music; she creates cultural movements and empowers generations"] |}
  else if py_in "drake" artist_lower then
    Some
      {| mood := "Melodic Vulnerability";
         complexity := 70;
         recommendations :=
           ["The 6 God who popularized singing-rap and emotional transparency in hip-hop";
            "Drake's ability to be both tough and tender revolutionized what rap could express";
            "From Toronto to the world - every track feels like a personal conversation with greatness"] |}
  else if py_in "kendrick lamar" artist_lower then
    Some
      {| mood := "Conscious Genius";
         complexity := 95;
         recommendations :=
           ["Kendrick's lyrical complexity and social consciousness define modern hip-hop excellence";
            "Each album is a conceptual masterpiece that challenges listeners and society alike";
            "The poet laureate of rap who proves hip-hop can be both street-smart and intellectually profound"] |}
  else if (py_in "kanye west" artist_lower || py_in "ye " artist_lower) then
    Some
      {| mood := "Innovative Disruption";
         complexity := 88;
         recommendations :=
           ["Yeezy's production genius and boundary-pushing artistry changed hip-hop forever";
            "Love him or hate him, Kanye's influence on music and culture is undeniable";
            "Every album era represents a complete reinvention of sound and artistic vision"] |}
  else if py_in "yeat" artist_lower then
    Some
      {| mood := "Hypnotic Innovation";
         complexity := 60;
         recommendations :=
           ["Yeat's bell-laden beats and unique vocal style created a whole new wave in rap";
            "If you like the sound of success mixed with experimental trap, this is your artist";
            "The underground king who brought a fresh, addictive sound to mainstream attention"] |}
  else if py_in "travis scott" artist_lower then
    Some
      {| mood := "Psychedelic Energy";
         complexity := 75;
         recommendations :=
           ["La Flame's atmospheric production creates immersive sonic experiences like no other";
            "Travis Scott concerts aren't just shows - they're transcendent musical journeys";
            "Auto-tuned vocals meet orchestral grandeur in the most epic way possible"] |}
  else if py_in "the beatles" artist_lower then
    Some
      {| mood := "Revolutionary Harmony";
         complexity := 100;
         recommendations :=
           ["The Fab Four who invented modern pop music and changed the world forever";
            "Every song is a piece of musical DNA that influenced every artist who came after";
            "From 'Love Me Do' to 'Abbey Road' - the greatest musical journey in human history"] |}
  else if (py_in "queen" artist_lower && py_in "freddie" artist_lower) then
    Some
      {| mood := "Theatrical Majesty";
         complexity := 90;
         recommendations :=
           ["Freddie Mercury's operatic voice and Queen's genre-defying anthems are pure rock royalty";
            "Every song is a stadium-filling epic designed to make you feel invincible";
            "We Will Rock You, We Are The Champions - these aren't just songs, they're battle cries"] |}
  else if py_in "led zeppelin" artist_lower then
    Some
      {| mood := "Mystical Power";
         complexity := 85;
         recommendations :=
           ["Zeppelin's heavy blues and mystical lyrics created the blueprint for hard rock";
            "Jimmy Page's guitar wizardry meets Robert Plant's banshee wail in perfect harmony";
            "Stairway to Heaven isn't just a song - it's a spiritual experience through sound"] |}
  else if py_in "whitney houston" artist_lower then
    Some
      {| mood := "Vocal Perfection";
         complexity := 95;
         recommendations :=
           ["Whitney's voice was a force of nature that redefined what human vocals could achieve";
            "The gold standard for vocal excellence - every note was delivered with divine precision";
            "I Will Always Love You isn't just a cover - it's the definitive version that surpassed the original"] |}
  else if py_in "stevie wonder" artist_lower then
    Some
      {| mood := "Soulful Innovation";
         complexity := 90;
         recommendations :=
           ["Stevie's musical genius spans soul, funk, pop, and R&B with unmatched creativity";
            "A one-man orchestra who plays every instrument and writes timeless classics";
            "Superstition, Sir Duke, Isn't She Lovely - each song is a masterpiece of joy and innovation"] |}
  else if py_in "billie eilish" artist_lower then
    Some
      {| mood := "Dark Pop Innovation";
         complexity := 70;
         recommendations :=
           ["Billie's whispered vocals and dark aesthetics redefined what pop music could be";
            "A Gen Z icon who proves you don't need to be loud to make the biggest impact";
            "Bad Guy changed the game - minimalist production meets maximum artistic impact"] |}
  else if py_in "the weeknd" artist_lower then
    Some
      {| mood := "Nocturnal Seduction";
         complexity := 80;
         recommendations :=
           ["Abel's dark R&B and cinematic production create the perfect soundtrack for midnight drives";
            "From mysterious mixtapes to Super Bowl headliner - the ultimate artistic evolution";
            "Blinding Lights and Can't Feel My Face prove he's master of both darkness and light"] |}
  else if py_in "dua lipa" artist_lower then
    Some
      {| mood := "Disco Revival Queen";
         complexity := 65;
         recommendations :=
           ["Dua Lipa brought back disco-pop with modern sophistication and irresistible grooves";
            "Future Nostalgia wasn't just an album - it was a time machine to the dance floor";
            "Levitating, Don't Start Now - pure dancefloor euphoria with impeccable production"] |}
  else if py_in "daft punk" artist_lower then
    Some
      {| mood := "Robotic Perfection";
         complexity := 85;
         recommendations :=
           ["The French robots who made electronic music cool and brought house to the masses";
            "Get Lucky, One More Time - timeless electronic anthems that transcend genres";
            "Their helmets hid their faces but revealed the future of music production"] |}
  else if py_in "skrillex" artist_lower then
    Some
      {| mood := "Bass-Dropping Chaos";
         complexity := 70;
         recommendations :=
           ["Skrillex turned dubstep from underground noise into mainstream earthquake-inducing drops";
            "Scary Monsters brought the bass and changed electronic music forever";
            "When the beat drops, your soul ascends - this is organized musical chaos at its finest"] |}
  else if py_in "johnny cash" artist_lower then
    Some
      {| mood := "Outlaw Authenticity";
         complexity := 75;
         recommendations :=
           ["The Man in Black whose deep voice and outlaw spirit defined authentic country music";
            "Johnny Cash's covers of modern songs proved that great music transcends time and genre";
            "Ring of Fire, Hurt - whether original or cover, Cash made every song his own"] |}
  else if py_in "radiohead" artist_lower then
    Some
      {| mood := "Experimental Melancholy";
         complexity := 95;
         recommendations :=
           ["Radiohead's experimental genius challenges listeners while creating beautiful sonic landscapes";
            "OK Computer predicted our digital dystopia with haunting accuracy and gorgeous melodies";
            "Thom Yorke's falsetto paired with innovative production creates art that transcends music"] |}
  else if py_in "nirvana" artist_lower then
    Some
      {| mood := "Grunge Authenticity";
         complexity := 70;
         recommendations :=
           ["Kurt Cobain's raw emotion and Nirvana's grunge revolution spoke for a generation";
            "Smells Like Teen Spirit wasn't just a hit - it was a generational battle cry";
            "The band that proved three chords and the truth could change the world"] |}
  else
    None.

Module Shadowed.

(** The first definition of [_get_genre_based_analysis] in the class body
    (the one carrying a docstring).  The second definition of the same name
    rebinds the attribute, so no call reaches this one. *)
Definition _get_genre_based_analysis (genre_str : string)
    (avg_popularity explicit_ratio : Q) (artist_name : option string)
  : Profile :=
  if any_in ["r&b"; "rnb"; "soul"; "neo-soul"] genre_str then
    {| mood := "Smooth & Soulful";
       complexity := 70;
       recommendations :=
         [String.append (py_str artist_name) " crafts emotionally rich R&B with sophisticated vocal arrangements";
          "Expect smooth grooves and intimate storytelling that defines modern soul music";
          "Perfect for late-night listening with emphasis on vocal prowess and melodic depth"] |}
  else if any_in ["hip-hop"; "rap"; "trap"; "drill"] genre_str then
    let '(mood_desc, recs) :=
      if Qgtb explicit_ratio (7 # 10)%Q then
        ("Raw & Unfiltered",
         [String.append (py_str artist_name) " delivers hard-hitting rap with uncompromising lyrical content";
          "Authentic street narratives with aggressive production and powerful delivery";
          "Not for the faint-hearted - expect intense themes and bold artistic expression"])
      else
        ("Lyrical & Conscious",
         [String.append (py_str artist_name) " represents conscious rap with thoughtful wordplay and social commentary";
          "Intelligent hip-hop that balances mainstream appeal with lyrical substance";
          "Family-friendly rap that proves you can be profound without profanity"]) in
    {| mood := mood_desc;
       complexity := 65;
       recommendations := recs |}
  else if any_in ["rock"; "metal"; "punk"; "grunge"] genre_str then
    if (py_in "metal" genre_str || py_in "punk" genre_str) then
      {| mood := "Intense & Aggressive";
         complexity := 75;
         recommendations :=
           [String.append (py_str artist_name) " unleashes raw power through crushing riffs and aggressive vocals";
            "High-energy music that channels rebellion and emotional intensity";
            "Not background music - demands your full attention and respect"] |}
    else
      {| mood := "Energetic & Anthemic";
         complexity := 60;
         recommendations :=
           [String.append (py_str artist_name) " delivers classic rock energy with memorable hooks and guitar-driven sound";
            "Stadium-worthy anthems that blend technical skill with mass appeal";
            "Perfect for road trips and moments when you need to feel invincible"] |}
  else if any_in ["pop"; "dance-pop"; "electropop"] genre_str then
    if Qgtb avg_popularity (80 # 1)%Q then
      {| mood := "Infectious & Chart-Topping";
         complexity := 35;
         recommendations :=
           [String.append (py_str artist_name) " masters the art of irresistible pop hooks and mainstream appeal";
            "Expertly crafted singles designed to dominate charts and playlists worldwide";
            "The soundtrack to your best memories - instantly recognizable and eternally catchy"] |}
    else
      {| mood := "Quirky & Alternative";
         complexity := 50;
         recommendations :=
           [String.append (py_str artist_name) " offers refreshing pop sensibilities with unique artistic vision";
            "Accessible yet distinctive - pop music for listeners who crave something different";
            "Hidden gems that deserve more recognition in the mainstream landscape"] |}
  else if any_in ["electronic"; "edm"; "techno"; "house"; "dubstep"] genre_str then
    {| mood := "Euphoric & Atmospheric";
       complexity := 55;
       recommendations :=
         [String.append (py_str artist_name) " creates immersive electronic soundscapes perfect for both clubs and headphones";
          "Cutting-edge production with beats that make your pulse sync to the rhythm";
          "Digital artistry that transforms simple sounds into transcendent musical experiences"] |}
  else if any_in ["jazz"; "blues"; "swing"] genre_str then
    {| mood := "Sophisticated & Timeless";
       complexity := 85;
       recommendations :=
         [String.append (py_str artist_name) " upholds jazz tradition while pushing musical boundaries with technical excellence";
          "Complex harmonies and improvisation showcase decades of musical evolution";
          "For connoisseurs who appreciate the intersection of technical skill and emotional expression"] |}
  else if any_in ["country"; "folk"; "americana"] genre_str then
    {| mood := "Authentic & Storytelling";
       complexity := 45;
       recommendations :=
         [String.append (py_str artist_name) " weaves compelling narratives through authentic country musicianship";
          "Honest songwriting that captures the essence of human experience and rural life";
          "Traditional values meet modern production in music that speaks to the heart"] |}
  else if any_in ["indie"; "alternative"; "art"] genre_str then
    {| mood := "Creative & Unconventional";
       complexity := 65;
       recommendations :=
         [String.append (py_str artist_name) " challenges musical conventions with innovative indie artistry";
          "Experimental approach that prioritizes artistic integrity over commercial success";
          "For listeners who value creativity and authenticity above mainstream trends"] |}
  else if any_in ["classical"; "ambient"; "new age"; "instrumental"] genre_str then
    {| mood := "Meditative & Cinematic";
       complexity := 80;
       recommendations :=
         [String.append (py_str artist_name) " creates expansive soundscapes that transport listeners to otherworldly realms";
          "Atmospheric compositions perfect for meditation, focus, and emotional reflection";
          "Instrumental mastery that speaks without words and heals without medicine"] |}
  else
    {| mood := "Eclectic & Versatile";
       complexity := 55;
       recommendations :=
         [String.append (py_str artist_name) " defies easy categorization with a diverse and dynamic musical approach";
          "Genre-blending artistry that keeps listeners guessing and always engaged";
          "Musical chameleon who adapts styles while maintaining a distinctive artistic voice"] |}.

End Shadowed.

Module Live.

(** The second definition of [_get_genre_based_analysis]: the one the class
    ends up with, and the one [_analyze_genre_characteristics] calls. *)
Definition _get_genre_based_analysis (genre_str : string)
    (avg_popularity explicit_ratio : Q) (artist_name : option string)
  : Profile :=
  if any_in ["r&b"; "rnb"; "soul"; "neo-soul"] genre_str then
    {| mood := "Smooth & Soulful";
       complexity := 70;
       recommendations :=
         [String.append (py_str artist_name) " crafts emotionally rich R&B with sophisticated vocal arrangements";
          "Expect smooth grooves and intimate storytelling that defines modern soul music";
          "Perfect for late-night listening with emphasis on vocal prowess and melodic depth"] |}
  else if any_in ["hip-hop"; "rap"; "trap"; "drill"] genre_str then
    let '(mood_desc, recs) :=
      if Qgtb explicit_ratio (7 # 10)%Q then
        ("Raw & Unfiltered",
         [String.append (py_str artist_name) " delivers hard-hitting rap with uncompromising lyrical content";
          "Authentic street narratives with aggressive production and powerful delivery";
          "Not for the faint-hearted - expect intense themes and bold artistic expression"])
      else
        ("Lyrical & Conscious",
         [String.append (py_str artist_name) " represents conscious rap with thoughtful wordplay and social commentary";
          "Intelligent hip-hop that balances mainstream appeal with lyrical substance";
          "Family-friendly rap that proves you can be profound without profanity"]) in
    {| mood := mood_desc;
       complexity := 65;
       recommendations := recs |}
  else if any_in ["rock"; "metal"; "punk"; "grunge"] genre_str then
    if (py_in "metal" genre_str || py_in "punk" genre_str) then
      {| mood := "Intense & Aggressive";
         complexity := 75;
         recommendations :=
           [String.append (py_str artist_name) " unleashes raw power through crushing riffs and aggressive vocals";
            "High-energy music that channels rebellion and emotional intensity";
            "Not background music - demands your full attention and respect"] |}
    else
      {| mood := "Energetic & Anthemic";
         complexity := 60;
         recommendations :=
           [String.append (py_str artist_name) " delivers classic rock energy with memorable hooks and guitar-driven sound";
            "Stadium-worthy anthems that blend technical skill with mass appeal";
            "Perfect for road trips and moments when you need to feel invincible"] |}
  else if any_in ["pop"; "dance-pop"; "electropop"] genre_str then
    if Qgtb avg_popularity (80 # 1)%Q then
      {| mood := "Infectious & Chart-Topping";
         complexity := 35;
         recommendations :=
           [String.append (py_str artist_name) " masters the art of irresistible pop hooks and mainstream appeal";
            "Expertly crafted singles designed to dominate charts and playlists worldwide";
            "The soundtrack to your best memories - instantly recognizable and eternally catchy"] |}
    else
      {| mood := "Quirky & Alternative";
         complexity := 50;
         recommendations :=
           [String.append (py_str artist_name) " offers refreshing pop sensibilities with unique artistic vision";
            "Accessible yet distinctive - pop music for listeners who crave something different";
            "Hidden gems that deserve more recognition in the mainstream landscape"] |}
  else if any_in ["electronic"; "edm"; "techno"; "house"; "dubstep"] genre_str then
    {| mood := "Euphoric & Atmospheric";
       complexity := 55;
       recommendations :=
         [String.append (py_str artist_name) " creates immersive electronic soundscapes perfect for both clubs and headphones";
          "Cutting-edge production with beats that make your pulse sync to the rhythm";
          "Digital artistry that transforms simple sounds into transcendent musical experiences"] |}
  else if any_in ["jazz"; "blues"; "swing"] genre_str then
    {| mood := "Sophisticated & Timeless";
       complexity := 85;
       recommendations :=
         [String.append (py_str artist_name) " upholds jazz tradition while pushing musical boundaries with technical excellence";
          "Complex harmonies and improvisation showcase decades of musical evolution";
          "For connoisseurs who appreciate the intersection of technical skill and emotional expression"] |}
  else if any_in ["country"; "folk"; "americana"] genre_str then
    {| mood := "Authentic & Storytelling";
       complexity := 45;
       recommendations :=
         [String.append (py_str artist_name) " weaves compelling narratives through authentic country musicianship";
          "Honest songwriting that captures the essence of human experience and rural life";
          "Traditional values meet modern production in music that speaks to the heart"] |}
  else if any_in ["indie"; "alternative"; "art"] genre_str then
    {| mood := "Creative & Unconventional";
       complexity := 65;
       recommendations :=
         [String.append (py_str artist_name) " challenges musical conventions with innovative indie artistry";
          "Experimental approach that prioritizes artistic integrity over commercial success";
          "For listeners who value creativity and authenticity above mainstream trends"] |}
  else if any_in ["classical"; "ambient"; "new age"; "instrumental"] genre_str then
    {| mood := "Meditative & Cinematic";
       complexity := 80;
       recommendations :=
         [String.append (py_str artist_name) " creates expansive soundscapes that transport listeners to otherworldly realms";
          "Atmospheric compositions perfect for meditation, focus, and emotional reflection";
          "Instrumental mastery that speaks without words and heals without medicine"] |}
  else
    {| mood := "Eclectic & Versatile";
       complexity := 55;
       recommendations :=
         [String.append (py_str artist_name) " defies easy categorization with a diverse and dynamic musical approach";
          "Genre-blending artistry that keeps listeners guessing and always engaged";
          "Musical chameleon who adapts styles while maintaining a distinctive artistic voice"] |}.

End Live.

(** The entries of a track dictionary the analysis reads; [None] is a
    missing key or a [None] value. *)
Record Track : Type := {
  track_id : string;
  track_name : option string;
  popularity : option Z;
  duration_ms : option Z;
  explicit : option bool
}.

(** The entries of an album dictionary as [search_albums] builds them. *)
Record Album : Type := {
  album_id : string;
  album_name : string;
  album_artist : string;
  album_image : option string;
  release_date : option string;
  total_tracks : Z;
  spotify_url : string;
  album_type : string
}.

Record AudioFeatures : Type := {
  avg_popularity : Q;
  avg_duration_ms : Q;
  explicit_ratio : Q
}.

Record MoodProfile : Type := {
  primary_mood : string;
  confidence : Q
}.

(** The dictionary [analyze_audio_features] composes. *)
Record Analysis : Type := {
  audio_features : AudioFeatures;
  mood_profile : MoodProfile;
  complexity_score : Z;
  mainstream_appeal : Z;
  trend : string;
  track_count : nat;
  analysis_timestamp : string;
  analysis_recommendations : list string
}.

(** [_analyze_genre_characteristics]: the artist-name tier first, the genre
    tier only when no persona matched. *)
Definition _analyze_genre_characteristics (genre_str : string)
    (avg_popularity explicit_ratio : Q) (durations : list Z)
    (artist_name : option string) : Profile :=
  let avg_duration_min :=
    match durations with
    | [] => (35 # 10)%Q
    | _ => (ratio (sum_list durations) (length durations) / (60000 # 1))%Q
    end in
  let artist_lower :=
    match artist_name with
    | Some name => if truthy name then lower name else ""
    | None => ""
    end in
  let personalized_analysis :=
    _get_artist_persona artist_lower avg_popularity explicit_ratio in
  match personalized_analysis with
  | Some persona => persona
  | None =>
      Live._get_genre_based_analysis genre_str avg_popularity explicit_ratio
        artist_name
  end.

(** The years the album-trend loop collects: albums whose release date
    does not start with an integer are skipped. *)
Definition album_years_of (albums : list Album) : list Z :=
  omap (fun album => py_int (before_dash (default "" (release_date album))))
       albums.

(** [analyze_audio_features]; [None] is the empty dictionary [{}] returned
    for an empty track list, [now_iso] is [datetime.now().isoformat()]. *)
Definition analyze_audio_features (now_iso : string) (tracks : list Track)
    (genres : option (list string)) (albums : option (list Album))
    (artist_name : option string) : option Analysis :=
  match tracks with
  | [] => None
  | _ =>
      let popularities := omap popularity tracks in
      let durations := omap duration_ms tracks in
      let explicit_count :=
        length (filter (fun t => explicit t = Some true) tracks) in
      let total_tracks := length tracks in
      let avg_popularity := mean popularities in
      let avg_duration := mean durations in
      let explicit_ratio :=
        match total_tracks with
        | O => 0%Q
        | _ => ratio (Z.of_nat explicit_count) total_tracks
        end in
      let genres := default [] genres in
      let genre_str := lower (join ", " genres) in
      let genre_analysis :=
        _analyze_genre_characteristics genre_str avg_popularity
          explicit_ratio durations artist_name in
      let mainstream_appeal :=
        Z.min (py_trunc (avg_popularity * (12 # 10))%Q) 100 in
      let album_years := album_years_of (default [] albums) in
      let trend :=
        match album_years with
        | [] => "Stable"
        | y :: ys =>
            if bool_decide (max_of y ys - min_of y ys > 5)
            then "Evolving" else "Stable"
        end in
      Some {| audio_features :=
                {| avg_popularity := avg_popularity;
                   avg_duration_ms := avg_duration;
                   explicit_ratio := explicit_ratio |};
              mood_profile :=
                {| primary_mood := mood genre_analysis;
                   confidence := (8 # 10)%Q |};
              complexity_score := complexity genre_analysis;
              mainstream_appeal := mainstream_appeal;
              trend := trend;
              track_count := total_tracks;
              analysis_timestamp := now_iso;
              analysis_recommendations := recommendations genre_analysis |}
  end.

(** [features.get(key, {}).get('mean', dflt)] on the ['audio_features']
    dictionary of an analysis: that dictionary holds ['avg_popularity'],
    ['avg_duration_ms'] and ['explicit_ratio'] only, so for any other key
    the default is what comes back. *)
Definition feature_mean (features : AudioFeatures) (key : string) (dflt : Q)
  : Q := dflt.

(** [_calculate_discoverability]; the statements after its [return] cannot
    be reached and are left out. *)
Definition _calculate_discoverability (audio_analysis : option Analysis)
    (genres : list string) : Rand Z :=
  match audio_analysis with
  | None => randint 60 90
  | Some analysis =>
      let base_score := 50 in
      let popularity := avg_popularity (audio_features analysis) in
      let discovery_score := Z.min (py_trunc (popularity * (13 # 10))%Q) 95 in
      draw jitter <- randint (-10) 15;
      let discovery_score := discovery_score + jitter in
      ret (Z.max (Z.min discovery_score 100) 30)
  end.

(** [min(max(x, lo), hi)] *)
Definition Qclamp (lo hi x : Q) : Q :=
  let raised := if Qltb x lo then lo else x in
  if Qltb hi raised then hi else raised.

(** [_calculate_mainstream_appeal] *)
Definition _calculate_mainstream_appeal (audio_analysis : option Analysis)
  : Q :=
  match audio_analysis with
  | None => 50%Q
  | Some analysis =>
      let features := audio_features analysis in
      let danceability := feature_mean features "danceability" (1 # 2) in
      let energy := feature_mean features "energy" (1 # 2) in
      let valence := feature_mean features "valence" (1 # 2) in
      let appeal_score :=
        (danceability * 30 + energy * 25 + valence * 25 + 20)%Q in
      Qclamp 0 100 (Qred (appeal_score * 100))
  end.

(** [_calculate_uniqueness] *)
Definition _calculate_uniqueness (audio_analysis : option Analysis)
    (genres : list string) : Q :=
  let uniqueness :=
    match audio_analysis with
    | None => 50%Q
    | Some analysis =>
        let features := audio_features analysis in
        let instrumentalness := feature_mean features "instrumentalness" 0 in
        let uniqueness := Qred (50 + instrumentalness * 25) in
        let unique_genres := ["experimental"; "avant-garde"; "noise"; "drone"] in
        if existsb (fun genre => any_in unique_genres (lower genre)) genres
        then Qred (uniqueness + 20) else uniqueness
    end in
  Qclamp 0 100 uniqueness.

(** [_generate_recommendations] *)
Definition _generate_recommendations (audio_analysis : option Analysis)
    (genres : list string) : list string :=
  match audio_analysis with
  | None => ["Explore more music to get personalized recommendations!"]
  | Some analysis =>
      let features := audio_features analysis in
      let energy := feature_mean features "energy" (1 # 2) in
      let valence := feature_mean features "valence" (1 # 2) in
      let danceability := feature_mean features "danceability" (1 # 2) in
      let recommendations :=
        (if Qgtb energy (7 # 10) && Qgtb danceability (7 # 10)
         then ["Perfect for workout playlists and dance parties!"] else [])
        ++ (if Qgtb valence (8 # 10)
            then ["Great mood-boosting music for positive vibes!"] else [])
        ++ (if Qltb energy (3 # 10) && Qltb valence (5 # 10)
            then ["Ideal for introspective moments and late-night listening."]
            else [])
        ++ (if Qgtb (feature_mean features "acousticness" 0) (6 # 10)
            then ["Perfect acoustic sound for intimate settings."] else []) in
      match recommendations with
      | [] => ["Versatile music suitable for various listening contexts."]
      | _ => recommendations
      end
  end.

Record Insights : Type := {
  discoverability_score : Z;
  genre_diversity : nat;
  insights_mainstream_appeal : Q;
  uniqueness_factor : Q;
  insights_recommendations : list string
}.

(** [generate_discovery_insights] *)
Definition generate_discovery_insights (artist_name : string)
    (genres : list string) (audio_analysis : option Analysis)
  : Rand Insights :=
  draw score <- _calculate_discoverability audio_analysis genres;
  ret {| discoverability_score := score;
         genre_diversity := length (remove_dups genres);
         insights_mainstream_appeal :=
           _calculate_mainstream_appeal audio_analysis;
         uniqueness_factor := _calculate_uniqueness audio_analysis genres;
         insights_recommendations :=
           _generate_recommendations audio_analysis genres |}.

(** The [artist_titles] dictionary of [get_artist_title], in insertion order. *)
Definition artist_titles : list (string * string) :=
  [  ("michael jackson", "The King of Pop");
   ("elvis presley", "The King of Rock and Roll");
   ("taylor swift", "The Songwriting Mastermind");
   ("beyoncÃ©", "Queen B");
   ("beyonce", "Queen B");
   ("drake", "The 6 God");
   ("kendrick lamar", "The Rap Genius");
   ("kanye west", "Yeezy");
   ("ye", "Yeezy");
   ("yeat", "The Bell King");
   ("travis scott", "La Flame");
   ("the beatles", "The Fab Four");
   ("queen", "Rock Royalty");
   ("led zeppelin", "The Masters of Hard Rock");
   ("whitney houston", "The Voice");
   ("stevie wonder", "The Genius");
   ("billie eilish", "The Dark Pop Princess");
   ("the weeknd", "The Nocturnal King");
   ("dua lipa", "The Disco Revival Queen");
   ("daft punk", "The Robot Legends");
   ("skrillex", "The Bass Drop King");
   ("johnny cash", "The Man in Black");
   ("radiohead", "The Experimental Masters");
   ("nirvana", "The Grunge Pioneers");
   ("adele", "The Soul Powerhouse");
   ("bruno mars", "The Showman");
   ("ed sheeran", "The Loop Pedal Virtuoso");
   ("eminem", "Slim Shady");
   ("jay-z", "HOV");
   ("tupac", "The Prophet");
   ("biggie", "The Notorious B.I.G.");
   ("prince", "The Purple One");
   ("madonna", "The Queen of Pop");
   ("bob dylan", "The Voice of a Generation");
   ("aretha franklin", "The Queen of Soul");
   ("marvin gaye", "The Prince of Soul");
   ("frank sinatra", "Ol' Blue Eyes");
   ("david bowie", "The Starman");
   ("jimi hendrix", "The Guitar God");
   ("bob marley", "The Reggae Legend");
   ("john lennon", "The Dreamer");
   ("freddie mercury", "The Showman Supreme")].

(** [get_artist_title]: display title of an artist. *)
Definition get_artist_title (artist_name : string) (genres : list string)
  : string :=
  let artist_lower := if truthy artist_name then lower artist_name else "" in
  match find (fun entry => py_in entry.1 artist_lower) artist_titles with
  | Some (_, title) => title
  | None =>
      match genres with
      | [] => "Musical Artist"
      | first :: _ =>
          let primary_genre := lower first in
          if py_in "pop" primary_genre then "Pop Sensation"
          else if py_in "rap" primary_genre || py_in "hip-hop" primary_genre
          then "Hip-Hop Artist"
          else if py_in "rock" primary_genre then "Rock Legend"
          else if py_in "r&b" primary_genre || py_in "soul" primary_genre
          then "R&B Star"
          else if py_in "country" primary_genre then "Country Artist"
          else if py_in "electronic" primary_genre || py_in "edm" primary_genre
          then "Electronic Producer"
          else if py_in "jazz" primary_genre then "Jazz Virtuoso"
          else if py_in "indie" primary_genre
                  || py_in "alternative" primary_genre
          then "Indie Artist"
          else "Musical Artist"
      end
  end.

(** ** The process-wide stores *)

(** An entry of [user_preferences['liked_artists_data']]. *)
Module LikedArtist.
Record t : Type := {
  artist_id : string;
  artist_name : string;
  genres : list string;
  image : option string;
  liked_at : string
}.
End LikedArtist.

(** An entry of [user_preferences['saved_albums']]. *)
Module SavedAlbum.
Record t : Type := {
  album_id : string;
  album_name : string;
  artist_name : option string;
  artist_id : option string;
  release_date : option string;
  image : option string;
  total_tracks : Z;
  saved_at : string
}.
End SavedAlbum.

(** An entry of [user_preferences['listening_history']]; only a ['liked']
    event carries the genres. *)
Module HistoryEvent.
Record t : Type := {
  artist_id : string;
  artist_name : string;
  genres : option (list string);
  timestamp : string;
  action : string
}.
End HistoryEvent.

(** The [user_preferences] dictionary. *)
Record UserPreferences : Type := {
  liked_artists : gset string;
  liked_artists_data : list LikedArtist.t;
  saved_albums : list SavedAlbum.t;
  genre_preferences : gmap string Z;
  listening_history : list HistoryEvent.t
}.

(** A value of [music_insights_cache]. *)
Record CacheEntry : Type := {
  cached_analysis : option Analysis;
  cached_insights : Insights;
  cached_timestamp : string
}.

(** The module-level stores and the state of the random generator. *)
Record Globals : Type := {
  search_analytics : gmap string Z;
  music_insights_cache : gmap string CacheEntry;
  rate_limit_tracker : gmap string (list Z);
  user_preferences : UserPreferences;
  random_state : RandomState
}.

(** The stores as the module creates them. *)
Definition initial_preferences : UserPreferences :=
  {| liked_artists := ∅;
     liked_artists_data := [];
     saved_albums := [];
     genre_preferences := ∅;
     listening_history := [] |}.

Definition initial_globals (seed : RandomState) : Globals :=
  {| search_analytics := ∅;
     music_insights_cache := ∅;
     rate_limit_tracker := ∅;
     user_preferences := initial_preferences;
     random_state := seed |}.

Definition with_preferences (prefs : UserPreferences) (g : Globals)
  : Globals :=
  {| search_analytics := search_analytics g;
     music_insights_cache := music_insights_cache g;
     rate_limit_tracker := rate_limit_tracker g;
     user_preferences := prefs;
     random_state := random_state g |}.

Definition with_tracker (tracker : gmap string (list Z)) (g : Globals)
  : Globals :=
  {| search_analytics := search_analytics g;
     music_insights_cache := music_insights_cache g;
     rate_limit_tracker := tracker;
     user_preferences := user_preferences g;
     random_state := random_state g |}.

Definition with_analytics (analytics : gmap string Z) (g : Globals)
  : Globals :=
  {| search_analytics := analytics;
     music_insights_cache := music_insights_cache g;
     rate_limit_tracker := rate_limit_tracker g;
     user_preferences := user_preferences g;
     random_state := random_state g |}.

(** [counter[key] += 1] on a [defaultdict(int)]. *)
Definition increment (key : string) (counter : gmap string Z)
  : gmap string Z :=
  <[key := default 0 (counter !! key) + 1]> counter.

(** ** Responses *)

Record SearchArtist : Type := {
  sa_id : string;
  sa_name : string;
  sa_title : string;
  sa_genres : list string;
  sa_primary_genre : string;
  sa_followers : Z;
  sa_popularity : Z;
  sa_image : option string
}.

Record SearchResult : Type := {
  result_artist : SearchArtist;
  result_albums : list Album;
  music_analysis : option Analysis;
  discovery_insights : Insights;
  total_results : nat;
  search_timestamp : string
}.

(** The JSON documents the handlers answer with. *)
Inductive Body : Type :=
| ErrorBody (error : string)
| FailureBody (error : string) (message : option string)
| SuccessBody (message : string) (total : option nat)
| RateLimitBody (error : string) (retry_after : Z)
| SearchBody (result : SearchResult).

Record Response : Type := {
  body : Body;
  status : Z
}.

Definition error_response (status : Z) (error : string) : Response :=
  {| body := ErrorBody error; status := status |}.

(** ** Collection handlers *)

(** The entries the handlers read from the JSON body of a request; [None]
    is a key that is missing or [null].  A body that is missing, not JSON
    or empty is falsy, and is [None] where a handler takes an
    [option] of these records. *)
Module HeartRequest.
Record t : Type := {
  artist_id : option string;
  artist_name : option string;
  genres : list string;
  image : option string
}.
End HeartRequest.

Module UnlikeRequest.
Record t : Type := {
  artist_id : option string;
  artist_name : option string
}.
End UnlikeRequest.

Module AlbumRequest.
Record t : Type := {
  album_id : option string;
  album_name : option string;
  artist_name : option string;
  artist_id : option string;
  release_date : option string;
  image : option string;
  total_tracks : option Z
}.
End AlbumRequest.

(** [heart_artist]: like an artist. *)
Definition heart_artist (now_iso : string) (data : option HeartRequest.t)
    (g : Globals) : Globals * Response :=
  match data with
  | None => (g, error_response 400 "Invalid request data")
  | Some data =>
      let artist_id := HeartRequest.artist_id data in
      let artist_name := HeartRequest.artist_name data in
      let genres := HeartRequest.genres data in
      let image := HeartRequest.image data in
      if negb (truthy_opt artist_id) || negb (truthy_opt artist_name) then
        (g, error_response 400 "Artist ID and name required")
      else
        let artist_id := default "" artist_id in
        let artist_name := default "" artist_name in
        let prefs := user_preferences g in
        let existing :=
          find (fun a => bool_decide (LikedArtist.artist_id a = artist_id))
               (liked_artists_data prefs) in
        match existing with
        | Some _ =>
            (g, {| body := FailureBody "Artist already liked"
                     (Some "This artist is already in your favorites");
                   status := 409 |})
        | None =>
            let artist_data :=
              {| LikedArtist.artist_id := artist_id;
                 LikedArtist.artist_name := artist_name;
                 LikedArtist.genres := genres;
                 LikedArtist.image := image;
                 LikedArtist.liked_at := now_iso |} in
            let prefs' :=
              {| liked_artists := {[artist_id]} ∪ liked_artists prefs;
                 liked_artists_data := liked_artists_data prefs ++ [artist_data];
                 saved_albums := saved_albums prefs;
                 genre_preferences :=
                   foldl (fun counts genre => increment (lower genre) counts)
                         (genre_preferences prefs) genres;
                 listening_history :=
                   listening_history prefs
                   ++ [{| HistoryEvent.artist_id := artist_id;
                          HistoryEvent.artist_name := artist_name;
                          HistoryEvent.genres := Some genres;
                          HistoryEvent.timestamp := now_iso;
                          HistoryEvent.action := "liked" |}] |} in
            (with_preferences prefs' g,
             {| body := SuccessBody
                  (String.append artist_name " added to favorites")
                  (Some (size (liked_artists prefs')));
                status := 200 |})
        end
  end.

(** [unlike_artist]: remove an artist from the liked collection. *)
Definition unlike_artist (now_iso : string) (data : option UnlikeRequest.t)
    (g : Globals) : Globals * Response :=
  match data with
  | None => (g, error_response 400 "Invalid request data")
  | Some data =>
      let artist_id := UnlikeRequest.artist_id data in
      let artist_name :=
        default "Unknown Artist" (UnlikeRequest.artist_name data) in
      if negb (truthy_opt artist_id) then
        (g, error_response 400 "Artist ID required")
      else
        let artist_id := default "" artist_id in
        let prefs := user_preferences g in
        let original_count := length (liked_artists_data prefs) in
        let remaining :=
          filter (fun artist => LikedArtist.artist_id artist ≠ artist_id)
                 (liked_artists_data prefs) in
        let prefs1 :=
          {| liked_artists := liked_artists prefs ∖ {[artist_id]};
             liked_artists_data := remaining;
             saved_albums := saved_albums prefs;
             genre_preferences := genre_preferences prefs;
             listening_history := listening_history prefs |} in
        if bool_decide (length remaining = original_count) then
          (with_preferences prefs1 g,
           {| body := FailureBody "Artist not found in liked collection" None;
              status := 404 |})
        else
          let prefs2 :=
            {| liked_artists := liked_artists prefs1;
               liked_artists_data := liked_artists_data prefs1;
               saved_albums := saved_albums prefs1;
               genre_preferences := genre_preferences prefs1;
               listening_history :=
                 listening_history prefs1
                 ++ [{| HistoryEvent.artist_id := artist_id;
                        HistoryEvent.artist_name := artist_name;
                        HistoryEvent.genres := None;
                        HistoryEvent.timestamp := now_iso;
                        HistoryEvent.action := "unliked" |}] |} in
          (with_preferences prefs2 g,
           {| body := SuccessBody
                (String.append artist_name " removed from favorites")
                (Some (size (liked_artists prefs2)));
              status := 200 |})
  end.

(** The double quote character, for messages that quote a name. *)
Definition dquote : string := String (ascii_of_nat 34) EmptyString.

(** [save_album]: save an album for later. *)
Definition save_album (now_iso : string) (data : option AlbumRequest.t)
    (g : Globals) : Globals * Response :=
  match data with
  | None => (g, error_response 400 "Invalid request data")
  | Some data =>
      if negb (truthy_opt (AlbumRequest.album_id data))
         || negb (truthy_opt (AlbumRequest.album_name data)) then
        (g, error_response 400 "Album ID and name required")
      else
        let album_data :=
          {| SavedAlbum.album_id := default "" (AlbumRequest.album_id data);
             SavedAlbum.album_name := default "" (AlbumRequest.album_name data);
             SavedAlbum.artist_name := AlbumRequest.artist_name data;
             SavedAlbum.artist_id := AlbumRequest.artist_id data;
             SavedAlbum.release_date := AlbumRequest.release_date data;
             SavedAlbum.image := AlbumRequest.image data;
             SavedAlbum.total_tracks :=
               default 0 (AlbumRequest.total_tracks data);
             SavedAlbum.saved_at := now_iso |} in
        let prefs := user_preferences g in
        let existing :=
          find (fun a => bool_decide (SavedAlbum.album_id a
                                      = SavedAlbum.album_id album_data))
               (saved_albums prefs) in
        match existing with
        | Some _ =>
            (g, {| body := FailureBody "Album already saved"
                     (Some "This album is already in your collection");
                   status := 409 |})
        | None =>
            let prefs' :=
              {| liked_artists := liked_artists prefs;
                 liked_artists_data := liked_artists_data prefs;
                 saved_albums := saved_albums prefs ++ [album_data];
                 genre_preferences := genre_preferences prefs;
                 listening_history := listening_history prefs |} in
            (with_preferences prefs' g,
             {| body := SuccessBody
                  (String.append "Album "
                     (String.append dquote
                        (String.append (SavedAlbum.album_name album_data)
                           (String.append dquote
                              " saved to your collection"))))
                  (Some (length (saved_albums prefs')));
                status := 200 |})
        end
  end.

(** [unsave_album]: remove an album from the saved collection. *)
Definition unsave_album (data : option AlbumRequest.t) (g : Globals)
  : Globals * Response :=
  match data with
  | None => (g, error_response 400 "Invalid request data")
  | Some data =>
      let album_id := AlbumRequest.album_id data in
      if negb (truthy_opt album_id) then
        (g, error_response 400 "Album ID required")
      else
        let album_id := default "" album_id in
        let prefs := user_preferences g in
        let original_count := length (saved_albums prefs) in
        let remaining :=
          filter (fun album => SavedAlbum.album_id album ≠ album_id)
                 (saved_albums prefs) in
        let prefs' :=
          {| liked_artists := liked_artists prefs;
             liked_artists_data := liked_artists_data prefs;
             saved_albums := remaining;
             genre_preferences := genre_preferences prefs;
             listening_history := listening_history prefs |} in
        if bool_decide (length remaining = original_count) then
          (with_preferences prefs' g,
           {| body := FailureBody "Album not found in saved collection" None;
              status := 404 |})
        else
          (with_preferences prefs' g,
           {| body := SuccessBody "Album removed from your collection"
                (Some (length remaining));
              status := 200 |})
  end.

(** [clear_collection]: clear all user collection data. *)
Definition clear_collection (g : Globals) : Globals * Response :=
  (with_preferences initial_preferences g,
   {| body := SuccessBody "Collection cleared successfully" None;
      status := 200 |}).

(** ** The catalog client and the search handler *)

(** What a call of the catalog client can raise: the client's own
    [SpotifyException], or anything else (a missing key, an index out of
    range, a transport error). *)
Inductive exn : Type :=
| SpotifyException
| OtherException.

Module Catalog.

(** An item of [search_results['artists']['items']]. *)
Record Artist : Type := {
  id : string;
  name : string;
  genres : list string;
  followers : option Z;
  popularity : option Z;
  images : list string
}.

(** An item of [albums_result['items']]: artist names and image URLs in
    the order the catalog lists them. *)
Record AlbumItem : Type := {
  item_id : string;
  item_name : string;
  item_artists : list string;
  item_images : list string;
  item_release_date : string;
  item_total_tracks : Z;
  item_spotify_url : string;
  item_album_type : option string
}.

(** The [spotipy] client [sp], as what each of its calls answers during
    one request. *)
Record Client : Type := {
  search : string -> exn + list Artist;
  artist_albums : string -> exn + list AlbumItem;
  artist_top_tracks : string -> exn + list Track;
  audio_features : string -> exn + option Track
}.

End Catalog.

(** The readings of [datetime.now()] one search request takes. *)
Record Clock : Type := {
  analysis_now : string;
  cache_today : string;
  cache_now : string;
  search_now : string
}.

Module SearchRequest.
Record t : Type := {
  query : option string
}.
End SearchRequest.

(** The loop that builds [albums] for display. *)
Fixpoint process_albums (items : list Catalog.AlbumItem) : exn + list Album :=
  match items with
  | [] => inr []
  | album :: rest =>
      if bool_decide (Catalog.item_total_tracks album > 0) then
        match Catalog.item_artists album with
        | [] => inl OtherException
        | artist :: _ =>
            match process_albums rest with
            | inl e => inl e
            | inr albums =>
                inr ({| album_id := Catalog.item_id album;
                        album_name := Catalog.item_name album;
                        album_artist := artist;
                        album_image := head (Catalog.item_images album);
                        release_date := Some (Catalog.item_release_date album);
                        total_tracks := Catalog.item_total_tracks album;
                        spotify_url := Catalog.item_spotify_url album;
                        album_type :=
                          default "album" (Catalog.item_album_type album) |}
                     :: albums)
            end
        end
      else process_albums rest
  end.

(** The loop over [top_track_ids]: a track whose lookup raises
    [SpotifyException] is skipped, any other exception propagates. *)
Fixpoint fetch_audio_features (sp : Catalog.Client) (top_track_ids : list string)
  : exn + list Track :=
  match top_track_ids with
  | [] => inr []
  | track_id :: rest =>
      match Catalog.audio_features sp track_id with
      | inl SpotifyException => fetch_audio_features sp rest
      | inl OtherException => inl OtherException
      | inr None => fetch_audio_features sp rest
      | inr (Some features) =>
          match fetch_audio_features sp rest with
          | inl e => inl e
          | inr all_audio_features => inr (features :: all_audio_features)
          end
      end
  end.

(** [search_albums] from the catalog lookup on; [g] already holds the
    updated analytics.  Every store update of this part comes after its
    last call that can raise, so an exception leaves [g] as it is. *)
Definition search_lookup (sp : Catalog.Client) (md5_hexdigest : string -> string)
    (clock : Clock) (query : string) (g : Globals)
  : exn + (Globals * Response) :=
  match Catalog.search sp query with
  | inl e => inl e
  | inr [] => inr (g, error_response 404 "No artists found")
  | inr (artist :: _) =>
      let artist_id := Catalog.id artist in
      let artist_name := Catalog.name artist in
      match Catalog.artist_albums sp artist_id with
      | inl e => inl e
      | inr items =>
      match process_albums items with
      | inl e => inl e
      | inr albums =>
      match Catalog.artist_top_tracks sp artist_id with
      | inl e => inl e
      | inr tracks =>
      let top_tracks := filter (fun t => truthy (track_id t) = true)
                               (take 20 tracks) in
      match fetch_audio_features sp (track_id <$> top_tracks) with
      | inl e => inl e
      | inr fetched =>
      let all_audio_features :=
        match fetched with
        | [] => top_tracks
        | _ => fetched
        end in
      let artist_genres := Catalog.genres artist in
      let music_analysis :=
        analyze_audio_features (analysis_now clock) all_audio_features
          (Some artist_genres) (Some albums) (Some artist_name) in
      let '(discovery_insights, rng) :=
        generate_discovery_insights artist_name artist_genres music_analysis
          (random_state g) in
      let cache_key :=
        md5_hexdigest
          (String.append artist_id (String.append "_" (cache_today clock))) in
      let g' :=
        {| search_analytics := search_analytics g;
           music_insights_cache :=
             <[cache_key := {| cached_analysis := music_analysis;
                               cached_insights := discovery_insights;
                               cached_timestamp := cache_now clock |}]>
               (music_insights_cache g);
           rate_limit_tracker := rate_limit_tracker g;
           user_preferences := user_preferences g;
           random_state := rng |} in
      inr (g',
           {| body := SearchBody
                {| result_artist :=
                     {| sa_id := artist_id;
                        sa_name := artist_name;
                        sa_title := get_artist_title artist_name artist_genres;
                        sa_genres := artist_genres;
                        sa_primary_genre := default "Unknown" (head artist_genres);
                        sa_followers := default 0 (Catalog.followers artist);
                        sa_popularity := default 0 (Catalog.popularity artist);
                        sa_image := head (Catalog.images artist) |};
                   result_albums := albums;
                   music_analysis := music_analysis;
                   discovery_insights := discovery_insights;
                   total_results := length albums;
                   search_timestamp := search_now clock |};
              status := 200 |})
      end end end end
  end.

(** [search_albums]; [sp] is [None] when the client could not be set up. *)
Definition search_albums (sp : option Catalog.Client)
    (md5_hexdigest : string -> string) (clock : Clock)
    (data : option SearchRequest.t) (g : Globals) : Globals * Response :=
  match sp with
  | None => (g, error_response 503 "Spotify service unavailable")
  | Some sp =>
      match data with
      | None => (g, error_response 400 "Invalid request data")
      | Some data =>
          let query := strip (default "" (SearchRequest.query data)) in
          if negb (truthy query) then
            (g, error_response 400 "Search query is required")
          else if (100 <? String.length query)%nat then
            (g, error_response 400 "Search query too long")
          else
            let g1 :=
              with_analytics (increment (lower query) (search_analytics g)) g in
            match search_lookup sp md5_hexdigest clock query g1 with
            | inr answered => answered
            | inl SpotifyException =>
                (g1, error_response 502 "Music service error. Please try again.")
            | inl OtherException =>
                (g1, error_response 500 "Internal server error")
            end
      end
  end.

(** [rate_limit(max_requests, window)] applied to a handler [f]: the
    decorated function, for a request from [client_ip] arriving at [now].
    [None] is the uncaught [IndexError] of the gate. *)
Definition rate_limit (max_requests window : Z)
    (f : Globals -> Globals * Response) (client_ip : string) (now : Z)
    (g : Globals) : Globals * option Response :=
  let '(tracker, outcome) :=
    RateLimiter.rate_limit_gate max_requests window client_ip now
      (rate_limit_tracker g) in
  let g1 := with_tracker tracker g in
  match outcome with
  | RateLimiter.Allowed => let '(g2, response) := f g1 in (g2, Some response)
  | RateLimiter.Rejected retry_after =>
      (g1, Some {| body := RateLimitBody
                     "Rate limit exceeded. Try again later." retry_after;
                   status := 429 |})
  | RateLimiter.IndexError => (g1, None)
  end.

(** The [/api/search] route: [search_albums] behind its limiter. *)
Definition search_route (sp : option Catalog.Client)
    (md5_hexdigest : string -> string) (clock : Clock)
    (data : option SearchRequest.t) (client_ip : string) (now : Z)
    (g : Globals) : Globals * option Response :=
  rate_limit 30 3600 (search_albums sp md5_hexdigest clock data)
    client_ip now g.

(** ** Vocabulary of the properties *)

(** The persona the artist-name tier holds for Taylor Swift. *)
Definition taylor_swift_profile : Profile :=
  {| mood := "Storytelling Mastermind";
     complexity := 85;
     recommendations :=
       ["Swift's songwriting genius transforms personal experiences into universal anthems";
        "From country roots to pop domination - a fearless evolution that redefined success";
        "Each album era represents a new chapter in the most compelling musical autobiography ever written"] |}.

(** The same stores with another state of the random generator. *)
Definition with_random (rng : RandomState) (g : Globals) : Globals :=
  {| search_analytics := search_analytics g;
     music_insights_cache := music_insights_cache g;
     rate_limit_tracker := rate_limit_tracker g;
     user_preferences := user_preferences g;
     random_state := rng |}.

(** The classifier's share of an analysis: mood, complexity and
    recommendations. *)
Definition classification (analysis : Analysis) : Profile :=
  {| mood := primary_mood (mood_profile analysis);
     complexity := complexity_score analysis;
     recommendations := analysis_recommendations analysis |}.

(** The ['music_analysis'] entry of a search response. *)
Definition response_analysis (response : Response) : option (option Analysis) :=
  match body response with
  | SearchBody result => Some (music_analysis result)
  | _ => None
  end.

(** The ids of the records in the liked-artists data list. *)
Definition liked_ids (prefs : UserPreferences) : list string :=
  LikedArtist.artist_id <$> liked_artists_data prefs.

(** The ids of the records in the saved-albums list. *)
Definition saved_ids (prefs : UserPreferences) : list string :=
  SavedAlbum.album_id <$> saved_albums prefs.

(** The id set and the data list of the liked artists tell the same
    artists. *)
Definition liked_in_step (g : Globals) : Prop :=
  liked_artists (user_preferences g) = list_to_set (liked_ids (user_preferences g)).

(** One call of a collection operation on the liked artists. *)
Inductive collection_step : Globals -> Globals -> Prop :=
| step_heart_artist (now_iso : string) (data : option HeartRequest.t)
    (g : Globals) :
    collection_step g (heart_artist now_iso data g).1
| step_unlike_artist (now_iso : string) (data : option UnlikeRequest.t)
    (g : Globals) :
    collection_step g (unlike_artist now_iso data g).1
| step_clear_collection (g : Globals) :
    collection_step g (clear_collection g).1.

(** The states the collection operations reach from the stores as the
    module creates them. *)
Definition reachable (g : Globals) : Prop :=
  ∃ seed, rtc collection_step (initial_globals seed) g.

(** ** Reading the collection *)

(** The ['data'] object [get_my_collection] answers with. *)
Record CollectionView : Type := {
  view_liked_artists : list LikedArtist.t;
  view_saved_albums : list SavedAlbum.t;
  view_liked_count : nat;
  view_saved_albums_count : nat
}.

(** [get_my_collection].  Its loop over the liked ids only fills a local
    list that the answer does not use, with every exception caught inside
    the loop, so the answer is read off the stores; the status is 200. *)
Definition get_my_collection (g : Globals) : CollectionView * Z :=
  let prefs := user_preferences g in
  ({| view_liked_artists := liked_artists_data prefs;
      view_saved_albums := saved_albums prefs;
      view_liked_count := length (liked_artists_data prefs);
      view_saved_albums_count := length (saved_albums prefs) |},
   200).

(** ** Requests *)

(** One request served by one of the handlers. *)
Inductive request_step : Globals -> Globals -> Prop :=
| serve_heart_artist (now_iso : string) (data : option HeartRequest.t)
    (g : Globals) :
    request_step g (heart_artist now_iso data g).1
| serve_unlike_artist (now_iso : string) (data : option UnlikeRequest.t)
    (g : Globals) :
    request_step g (unlike_artist now_iso data g).1
| serve_save_album (now_iso : string) (data : option AlbumRequest.t)
    (g : Globals) :
    request_step g (save_album now_iso data g).1
| serve_unsave_album (data : option AlbumRequest.t) (g : Globals) :
    request_step g (unsave_album data g).1
| serve_clear_collection (g : Globals) :
    request_step g (clear_collection g).1
| serve_search (sp : option Catalog.Client)
    (md5_hexdigest : string -> string) (clock : Clock)
    (data : option SearchRequest.t) (client_ip : string) (now : Z)
    (g : Globals) :
    request_step g
      (search_route sp md5_hexdigest clock data client_ip now g).1.

(** The states the server can be in: those reached from the stores as
    the module creates them by serving requests. *)
Definition served (g : Globals) : Prop :=
  ∃ seed, rtc request_step (initial_globals seed) g.

(** Every count a store holds is at least one. *)
Definition counts_positive (counter : gmap string Z) : Prop :=
  ∀ key n, counter !! key = Some n → 1 <= n.

(** What every served state satisfies: the id set follows the data list,
    no artist or album is held twice, every stored count is positive and
    no rate window exceeds the search quota. *)
Definition consistent (g : Globals) : Prop :=
  liked_in_step g
  ∧ NoDup (liked_ids (user_preferences g))
  ∧ NoDup (saved_ids (user_preferences g))
  ∧ counts_positive (search_analytics g)
  ∧ counts_positive (genre_preferences (user_preferences g))
  ∧ ∀ client_ip,
      Z.of_nat (length (RateLimiter.tracker_get (rate_limit_tracker g)
                          client_ip)) <= 30.

(** What the audio-feature loop keeps of the lookup of one track. *)
Definition kept_features (sp : Catalog.Client) (track_id : string)
  : option Track :=
  match Catalog.audio_features sp track_id with
  | inr (Some features) => Some features
  | _ => None
  end.

(** ** The handlers over any request body *)

(** [request.get_json()] hands a handler whatever JSON document the client
    sent, and the handlers pass its entries on to Python's operations
    without looking at their types.  The handlers above follow a request
    whose entries are texts; [Generic] follows [app.py] over every
    request.  What Python does with a value or with a text is not code of
    this program and enters as an interface: the [str] methods in [Str],
    the operations on a parsed JSON value in [Value]. *)
Module Generic.

(** The [str] methods the code calls, on a text held as the bytes of its
    UTF-8 encoding: [s.lower()], [s.strip()] and [len(s)], the number of
    characters. *)
Class Str : Type := {
  py_lower : string -> string;
  py_strip : string -> string;
  py_len : string -> nat
}.

(** The values of a parsed JSON document, with the operations the handlers
    apply to them:
    - [py_none], [py_empty_list], [py_of_str s] and [py_of_int n] are
      [None], [[]], the [str] [s] and the [int] [n];
    - [py_bool v] is the truth value of [v] ([not v] is its negation);
    - [py_eq v w] is [v == w], and [v != w] its negation;
    - [py_hashable v] tells whether [hash(v)] returns; where it does not, a
      [set] raises [TypeError] when asked to add or to look up [v];
    - [py_text v] is the text of [v] when [v] is a [str]; no other value of
      a JSON document has the methods [lower] and [strip], and calling
      them raises [AttributeError];
    - [py_iter v] is the list of the values [for x in v] runs through, and
      [None] when [v] cannot be iterated ([TypeError]). *)
Class Value (value : Type) : Type := {
  py_none : value;
  py_empty_list : value;
  py_of_str : string -> value;
  py_of_int : Z -> value;
  py_bool : value -> bool;
  py_eq : value -> value -> bool;
  py_hashable : value -> bool;
  py_text : value -> option string;
  py_iter : value -> option (list value)
}.

(** What [request.get_json()] does: it raises (the body is not a JSON
    document), or it returns a dictionary, or it returns a value that is
    not a dictionary and has no method [get]: [None], a number, a text or
    a list, of which the handler tests the truth value only. *)
Inductive Json (value : Type) : Type :=
| Raises
| NoDict (truth : bool)
| Dict (entries : gmap string value).
Arguments Raises {value}.
Arguments NoDict {value} truth.
Arguments Dict {value} entries.

(** [_analyze_genre_characteristics], with [artist_name.lower()] as Python
    has it. *)
Definition _analyze_genre_characteristics `{Str} (genre_str : string)
    (avg_popularity explicit_ratio : Q) (durations : list Z)
    (artist_name : option string) : Profile :=
  let avg_duration_min :=
    match durations with
    | [] => (35 # 10)%Q
    | _ => (ratio (sum_list durations) (length durations) / (60000 # 1))%Q
    end in
  let artist_lower :=
    match artist_name with
    | Some name => if truthy name then py_lower name else ""
    | None => ""
    end in
  let personalized_analysis :=
    _get_artist_persona artist_lower avg_popularity explicit_ratio in
  match personalized_analysis with
  | Some persona => persona
  | None =>
      Live._get_genre_based_analysis genre_str avg_popularity explicit_ratio
        artist_name
  end.

(** [data.get('query', '').strip()]: the text to strip, [None] when the
    entry is not a text and has no method [strip]. *)
Definition query_text {value : Type} `{!Value value} (entries : gmap string value)
  : option string :=
  match entries !! "query" with
  | None => Some ""
  | Some query => py_text query
  end.

(** [search_albums], for every body a request can carry. *)
Definition search_albums `{Str} {value : Type} `{!Value value} (sp : option Catalog.Client)
    (md5_hexdigest : string -> string) (clock : Clock) (data : Json value)
    (g : Globals) : Globals * Response :=
  match sp with
  | None => (g, error_response 503 "Spotify service unavailable")
  | Some sp =>
      match data with
      | Raises => (g, error_response 500 "Internal server error")
      | NoDict false => (g, error_response 400 "Invalid request data")
      | NoDict true => (g, error_response 500 "Internal server error")
      | Dict entries =>
          if bool_decide (entries = ∅) then
            (g, error_response 400 "Invalid request data")
          else
            match query_text entries with
            | None => (g, error_response 500 "Internal server error")
            | Some text =>
                let query := py_strip text in
                if negb (truthy query) then
                  (g, error_response 400 "Search query is required")
                else if (100 <? py_len query)%nat then
                  (g, error_response 400 "Search query too long")
                else
                  let g1 :=
                    with_analytics
                      (increment (py_lower query) (search_analytics g)) g in
                  match search_lookup sp md5_hexdigest clock query g1 with
                  | inr answered => answered
                  | inl SpotifyException =>
                      (g1, error_response 502
                             "Music service error. Please try again.")
                  | inl OtherException =>
                      (g1, error_response 500 "Internal server error")
                  end
            end
      end
  end.

(** An entry of [user_preferences['liked_artists_data']]: the entries of
    the request as they came. *)
Module LikedArtist.
Record t (value : Type) : Type := {
  artist_id : value;
  artist_name : value;
  genres : value;
  image : value;
  liked_at : string
}.
Arguments Build_t {value}.
Arguments artist_id {value}.
Arguments artist_name {value}.
Arguments genres {value}.
Arguments image {value}.
Arguments liked_at {value}.
End LikedArtist.

(** An entry of [user_preferences['saved_albums']]. *)
Module SavedAlbum.
Record t (value : Type) : Type := {
  album_id : value;
  album_name : value;
  artist_name : value;
  artist_id : value;
  release_date : value;
  image : value;
  total_tracks : value;
  saved_at : string
}.
Arguments Build_t {value}.
Arguments album_id {value}.
Arguments album_name {value}.
Arguments artist_name {value}.
Arguments artist_id {value}.
Arguments release_date {value}.
Arguments image {value}.
Arguments total_tracks {value}.
Arguments saved_at {value}.
End SavedAlbum.

(** An entry of [user_preferences['listening_history']]; only a ['liked']
    event carries the genres. *)
Module HistoryEvent.
Record t (value : Type) : Type := {
  artist_id : value;
  artist_name : value;
  genres : option value;
  timestamp : string;
  action : string
}.
Arguments Build_t {value}.
Arguments artist_id {value}.
Arguments artist_name {value}.
Arguments genres {value}.
Arguments timestamp {value}.
Arguments action {value}.
End HistoryEvent.

(** The [user_preferences] dictionary, the one store the collection
    handlers read and write.  The id set is held as the list of its
    elements in the order they were added. *)
Record Preferences (value : Type) : Type := {
  liked_artists : list value;
  liked_artists_data : list (LikedArtist.t value);
  saved_albums : list (SavedAlbum.t value);
  genre_preferences : gmap string Z;
  listening_history : list (HistoryEvent.t value)
}.
Arguments Build_Preferences {value}.
Arguments liked_artists {value}.
Arguments liked_artists_data {value}.
Arguments saved_albums {value}.
Arguments genre_preferences {value}.
Arguments listening_history {value}.

Definition initial_preferences {value : Type} : Preferences value :=
  {| liked_artists := [];
     liked_artists_data := [];
     saved_albums := [];
     genre_preferences := ∅;
     listening_history := [] |}.

(** The JSON documents the collection handlers answer with.  A message
    that quotes an entry of the request, as
    [f'{artist_name} added to favorites'] does, is held as that entry. *)
Inductive Body (value : Type) : Type :=
| Error (error : string)
| Failure (error : string) (message : option string)
| Liked (artist_name : value) (total_likes : nat)
| Unliked (artist_name : value) (total_likes : nat)
| Saved (album_name : value) (total_saved : nat).
Arguments Error {value} error.
Arguments Failure {value} error message.
Arguments Liked {value} artist_name total_likes.
Arguments Unliked {value} artist_name total_likes.
Arguments Saved {value} album_name total_saved.

Record Answer (value : Type) : Type := {
  answer_body : Body value;
  answer_status : Z
}.
Arguments Build_Answer {value}.
Arguments answer_body {value}.
Arguments answer_status {value}.

Definition answer_error {value : Type} (status : Z) (error : string)
  : Answer value :=
  {| answer_body := Error error; answer_status := status |}.

(** [v in s] and [s.add(v)] on a [set]: both hash [v] first, and raise
    ([None]) when it cannot be hashed. *)
Definition set_contains {value : Type} `{!Value value} (v : value) (s : list value)
  : option bool :=
  if py_hashable v then Some (existsb (fun w => py_eq w v) s) else None.

Definition set_add {value : Type} `{!Value value} (v : value) (s : list value)
  : option (list value) :=
  match set_contains v s with
  | None => None
  | Some true => Some s
  | Some false => Some (s ++ [v])
  end.

(** [s.remove(v)], called for a [v] the set holds. *)
Definition set_remove {value : Type} `{!Value value} (v : value) (s : list value)
  : list value :=
  List.filter (fun w => negb (py_eq w v)) s.

(** The loop [for genre in genres: genre_preferences[genre.lower()] += 1]
    over the values [genres] runs through: the counts it reaches, and
    whether it came to its end; it stops at the first genre that is not a
    text, keeping the counts of the genres before it. *)
Fixpoint count_genres `{Str} {value : Type} `{!Value value} (items : list value)
    (counts : gmap string Z) : gmap string Z * bool :=
  match items with
  | [] => (counts, true)
  | genre :: rest =>
      match py_text genre with
      | None => (counts, false)
      | Some text => count_genres rest (increment (py_lower text) counts)
      end
  end.

(** [heart_artist].  [liked_at] and [timestamp] are the two readings of
    the clock.  Every exception is caught by the handler's own
    [except Exception], which answers 500 and leaves the stores as the
    statements before it have written them. *)
Definition heart_artist `{Str} {value : Type} `{!Value value} (liked_at timestamp : string)
    (data : Json value) (prefs : Preferences value)
  : Preferences value * Answer value :=
  match data with
  | Raises => (prefs, answer_error 500 "Failed to save artist")
  | NoDict false => (prefs, answer_error 400 "Invalid request data")
  | NoDict true => (prefs, answer_error 500 "Failed to save artist")
  | Dict entries =>
      if bool_decide (entries = ∅) then
        (prefs, answer_error 400 "Invalid request data")
      else
        let artist_id := default py_none (entries !! "artist_id") in
        let artist_name := default py_none (entries !! "artist_name") in
        let genres := default py_empty_list (entries !! "genres") in
        let image := default py_none (entries !! "image") in
        if negb (py_bool artist_id) || negb (py_bool artist_name) then
          (prefs, answer_error 400 "Artist ID and name required")
        else if existsb (fun a => py_eq (LikedArtist.artist_id a) artist_id)
                        (liked_artists_data prefs) then
          (prefs,
           {| answer_body :=
                Failure "Artist already liked"
                  (Some "This artist is already in your favorites");
              answer_status := 409 |})
        else
          let artist_data :=
            {| LikedArtist.artist_id := artist_id;
               LikedArtist.artist_name := artist_name;
               LikedArtist.genres := genres;
               LikedArtist.image := image;
               LikedArtist.liked_at := liked_at |} in
          let prefs1 :=
            {| liked_artists := liked_artists prefs;
               liked_artists_data := liked_artists_data prefs ++ [artist_data];
               saved_albums := saved_albums prefs;
               genre_preferences := genre_preferences prefs;
               listening_history := listening_history prefs |} in
          match set_add artist_id (liked_artists prefs1) with
          | None => (prefs1, answer_error 500 "Failed to save artist")
          | Some ids =>
              let prefs2 :=
                {| liked_artists := ids;
                   liked_artists_data := liked_artists_data prefs1;
                   saved_albums := saved_albums prefs1;
                   genre_preferences := genre_preferences prefs1;
                   listening_history := listening_history prefs1 |} in
              match py_iter genres with
              | None => (prefs2, answer_error 500 "Failed to save artist")
              | Some items =>
                  let '(counts, finished) :=
                    count_genres items (genre_preferences prefs2) in
                  let prefs3 :=
                    {| liked_artists := liked_artists prefs2;
                       liked_artists_data := liked_artists_data prefs2;
                       saved_albums := saved_albums prefs2;
                       genre_preferences := counts;
                       listening_history := listening_history prefs2 |} in
                  if finished then
                    ({| liked_artists := liked_artists prefs3;
                        liked_artists_data := liked_artists_data prefs3;
                        saved_albums := saved_albums prefs3;
                        genre_preferences := genre_preferences prefs3;
                        listening_history :=
                          listening_history prefs3
                          ++ [{| HistoryEvent.artist_id := artist_id;
                                 HistoryEvent.artist_name := artist_name;
                                 HistoryEvent.genres := Some genres;
                                 HistoryEvent.timestamp := timestamp;
                                 HistoryEvent.action := "liked" |}] |},
                     {| answer_body :=
                          Liked artist_name (length (liked_artists prefs3));
                        answer_status := 200 |})
                  else (prefs3, answer_error 500 "Failed to save artist")
              end
          end
  end.

(** [unlike_artist]. *)
Definition unlike_artist {value : Type} `{!Value value} (timestamp : string)
    (data : Json value) (prefs : Preferences value)
  : Preferences value * Answer value :=
  match data with
  | Raises => (prefs, answer_error 500 "Failed to unlike artist")
  | NoDict false => (prefs, answer_error 400 "Invalid request data")
  | NoDict true => (prefs, answer_error 500 "Failed to unlike artist")
  | Dict entries =>
      if bool_decide (entries = ∅) then
        (prefs, answer_error 400 "Invalid request data")
      else
        let artist_id := default py_none (entries !! "artist_id") in
        let artist_name :=
          default (py_of_str "Unknown Artist") (entries !! "artist_name") in
        if negb (py_bool artist_id) then
          (prefs, answer_error 400 "Artist ID required")
        else
          let original_count := length (liked_artists_data prefs) in
          let remaining :=
            List.filter
              (fun artist => negb (py_eq (LikedArtist.artist_id artist)
                                         artist_id))
              (liked_artists_data prefs) in
          let prefs1 :=
            {| liked_artists := liked_artists prefs;
               liked_artists_data := remaining;
               saved_albums := saved_albums prefs;
               genre_preferences := genre_preferences prefs;
               listening_history := listening_history prefs |} in
          match set_contains artist_id (liked_artists prefs1) with
          | None => (prefs1, answer_error 500 "Failed to unlike artist")
          | Some held =>
              let prefs2 :=
                {| liked_artists :=
                     if held then set_remove artist_id (liked_artists prefs1)
                     else liked_artists prefs1;
                   liked_artists_data := liked_artists_data prefs1;
                   saved_albums := saved_albums prefs1;
                   genre_preferences := genre_preferences prefs1;
                   listening_history := listening_history prefs1 |} in
              if (length remaining =? original_count)%nat then
                (prefs2,
                 {| answer_body :=
                      Failure "Artist not found in liked collection" None;
                    answer_status := 404 |})
              else
                ({| liked_artists := liked_artists prefs2;
                    liked_artists_data := liked_artists_data prefs2;
                    saved_albums := saved_albums prefs2;
                    genre_preferences := genre_preferences prefs2;
                    listening_history :=
                      listening_history prefs2
                      ++ [{| HistoryEvent.artist_id := artist_id;
                             HistoryEvent.artist_name := artist_name;
                             HistoryEvent.genres := None;
                             HistoryEvent.timestamp := timestamp;
                             HistoryEvent.action := "unliked" |}] |},
                 {| answer_body :=
                      Unliked artist_name (length (liked_artists prefs2));
                    answer_status := 200 |})
          end
  end.

(** [save_album]. *)
Definition save_album {value : Type} `{!Value value} (saved_at : string) (data : Json value)
    (prefs : Preferences value) : Preferences value * Answer value :=
  match data with
  | Raises => (prefs, answer_error 500 "Failed to save album")
  | NoDict false => (prefs, answer_error 400 "Invalid request data")
  | NoDict true => (prefs, answer_error 500 "Failed to save album")
  | Dict entries =>
      if bool_decide (entries = ∅) then
        (prefs, answer_error 400 "Invalid request data")
      else
        let album_data :=
          {| SavedAlbum.album_id := default py_none (entries !! "album_id");
             SavedAlbum.album_name :=
               default py_none (entries !! "album_name");
             SavedAlbum.artist_name :=
               default py_none (entries !! "artist_name");
             SavedAlbum.artist_id := default py_none (entries !! "artist_id");
             SavedAlbum.release_date :=
               default py_none (entries !! "release_date");
             SavedAlbum.image := default py_none (entries !! "image");
             SavedAlbum.total_tracks :=
               default (py_of_int 0) (entries !! "total_tracks");
             SavedAlbum.saved_at := saved_at |} in
        if negb (py_bool (SavedAlbum.album_id album_data))
           || negb (py_bool (SavedAlbum.album_name album_data)) then
          (prefs, answer_error 400 "Album ID and name required")
        else if existsb
                  (fun a => py_eq (SavedAlbum.album_id a)
                                  (SavedAlbum.album_id album_data))
                  (saved_albums prefs) then
          (prefs,
           {| answer_body :=
                Failure "Album already saved"
                  (Some "This album is already in your collection");
              answer_status := 409 |})
        else
          let prefs' :=
            {| liked_artists := liked_artists prefs;
               liked_artists_data := liked_artists_data prefs;
               saved_albums := saved_albums prefs ++ [album_data];
               genre_preferences := genre_preferences prefs;
               listening_history := listening_history prefs |} in
          (prefs',
           {| answer_body :=
                Saved (SavedAlbum.album_name album_data)
                      (length (saved_albums prefs'));
              answer_status := 200 |})
  end.

(** The id set and the data list of the liked artists tell the same
    artists: every record's id is in the set, and every id of the set is
    the id of a record. *)
Definition in_step {value : Type} `{!Value value} (prefs : Preferences value) : bool :=
  forallb (fun a => existsb (fun w => py_eq w (LikedArtist.artist_id a))
                            (liked_artists prefs))
          (liked_artists_data prefs)
  && forallb (fun w => existsb (fun a => py_eq (LikedArtist.artist_id a) w)
                               (liked_artists_data prefs))
             (liked_artists prefs).

(** How many of [texts] have the lowercase form [key]. *)
Definition occurrences `{Str} (key : string) (texts : list string) : nat :=
  length (List.filter (fun text => bool_decide (py_lower text = key)) texts).

End Generic.

(** A few Python values, enough to write requests down: [None], texts,
    integers and lists of texts. *)
Inductive sample : Type :=
| SNone
| SStr (text : string)
| SInt (n : Z)
| SList (items : list string).

(** The characters of a text held as UTF-8 bytes: a byte of the form
    [10xxxxxx] continues the character that the byte before it belongs
    to. *)
Definition is_continuation (c : ascii) : bool :=
  (128 <=? nat_of_ascii c)%nat && (nat_of_ascii c <? 192)%nat.

Fixpoint characters (s : string) : list string :=
  match s with
  | EmptyString => []
  | String c rest =>
      let others := characters rest in
      match rest with
      | String c' _ =>
          if is_continuation c' then
            match others with
            | first :: others' => String c first :: others'
            | [] => [String c EmptyString]
            end
          else String c EmptyString :: others
      | EmptyString => String c EmptyString :: others
      end
  end.

#[export] Instance sample_value : Generic.Value sample := {|
  Generic.py_none := SNone;
  Generic.py_empty_list := SList [];
  Generic.py_of_str := SStr;
  Generic.py_of_int := SInt;
  Generic.py_bool v :=
    match v with
    | SNone => false
    | SStr text => truthy text
    | SInt n => negb (n =? 0)
    | SList items => match items with [] => false | _ => true end
    end;
  Generic.py_eq v w :=
    match v, w with
    | SNone, SNone => true
    | SStr a, SStr b => bool_decide (a = b)
    | SInt a, SInt b => (a =? b)
    | SList a, SList b => bool_decide (a = b)
    | _, _ => false
    end;
  Generic.py_hashable v :=
    match v with SList _ => false | _ => true end;
  Generic.py_text v :=
    match v with SStr text => Some text | _ => None end;
  Generic.py_iter v :=
    match v with
    | SList items => Some (SStr <$> items)
    | SStr text => Some (SStr <$> characters text)
    | _ => None
    end
|}.

(** The [str] methods on ASCII text, where a character is a byte. *)
#[export] Instance ascii_text : Generic.Str := {|
  Generic.py_lower := lower;
  Generic.py_strip := strip;
  Generic.py_len := String.length
|}.

(** * Properties *)

(** ** Rate limiter *)

Section RateLimiterFacts.
Import RateLimiter.
Context (max_requests window : Z).

Lemma clean_elem (now t : Z) (l : list Z) :
  t ∈ clean window now l ↔ now - t < window ∧ t ∈ l.
Proof.
  unfold clean.
  apply (list_elem_of_filter (fun timestamp => now - timestamp < window)).
Qed.

Lemma clean_app (now : Z) (l1 l2 : list Z) :
  clean window now (l1 ++ l2) = clean window now l1 ++ clean window now l2.
Proof. unfold clean. apply filter_app. Qed.

(** Cleaning at an earlier clock reading never evicts a timestamp that is
    still inside the window at a later one. *)
Lemma clean_clean (t now : Z) (l : list Z) :
  t <= now → clean window now (clean window t l) = clean window now l.
Proof.
  intros Hle. unfold clean. induction l as [|x l IH]; [done|].
  rewrite !filter_cons.
  destruct (decide (t - x < window)) as [Ht|Ht];
    destruct (decide (now - x < window)) as [Hn|Hn];
    rewrite ?filter_cons; try rewrite decide_True by done;
    try rewrite decide_False by done; rewrite ?IH; try done.
  lia.
Qed.

Lemma gate_allowed (c : string) (now : Z) (tr : gmap string (list Z)) :
  Z.of_nat (length (clean window now (tracker_get tr c))) < max_requests →
  rate_limit_gate max_requests window c now tr
  = (<[c := clean window now (tracker_get tr c) ++ [now]]> tr, Allowed).
Proof.
  intros Hlt. unfold rate_limit_gate. cbv zeta.
  rewrite bool_decide_eq_false_2 by lia.
  by rewrite insert_insert_eq.
Qed.

Lemma gate_rejected (c : string) (now : Z) (tr : gmap string (list Z)) :
  1 <= max_requests →
  max_requests <= Z.of_nat (length (clean window now (tracker_get tr c))) →
  ∃ oldest rest,
    clean window now (tracker_get tr c) = oldest :: rest
    ∧ rate_limit_gate max_requests window c now tr
      = (<[c := oldest :: rest]> tr, Rejected (window - (now - oldest)))
    ∧ 0 < window - (now - oldest).
Proof.
  intros Hpos Hge. unfold rate_limit_gate. cbv zeta.
  rewrite bool_decide_eq_true_2 by lia.
  destruct (clean window now (tracker_get tr c)) as [|oldest rest] eqn:Hk.
  - simpl in Hge. lia.
  - exists oldest, rest. split_and!; [done..|].
    assert (oldest ∈ clean window now (tracker_get tr c)) as Hin
      by (rewrite Hk; left).
    apply clean_elem in Hin. lia.
Qed.

(** What one pass through the gate leaves in the rate window of [c]. *)
Lemma gate_tracker_get (ip c : string) (t : Z) (tr : gmap string (list Z)) :
  tracker_get (rate_limit_gate max_requests window ip t tr).1 c
  = if bool_decide (ip = c) then
      clean window t (tracker_get tr c)
      ++ match (rate_limit_gate max_requests window ip t tr).2 with
         | Allowed => [t]
         | _ => []
         end
    else tracker_get tr c.
Proof.
  unfold rate_limit_gate. cbv zeta.
  destruct (decide (ip = c)) as [->|Hne].
  - rewrite (bool_decide_eq_true_2 (c = c)) by done.
    remember (clean window t (tracker_get tr c)) as kept eqn:Hk.
    unfold tracker_get.
    case_bool_decide; [destruct kept|]; simpl;
      rewrite lookup_insert_eq; simpl; by rewrite ?app_nil_r.
  - rewrite (bool_decide_eq_false_2 (ip = c)) by done.
    remember (clean window t (tracker_get tr ip)) as kept eqn:Hk.
    unfold tracker_get.
    case_bool_decide; [destruct kept|]; simpl;
      by rewrite !lookup_insert_ne by done.
Qed.

(** The timestamps of [c] still inside the window at [now], after a run of
    requests none of which arrives later than [now]: those that were there
    before, followed by the admitted arrivals of [c]. *)
Lemma run_clean (c : string) (now : Z) (requests : list (string * Z))
    (tr : gmap string (list Z)) :
  Forall (fun r => r.2 <= now) requests →
  clean window now (tracker_get (run max_requests window requests tr) c)
  = clean window now (tracker_get tr c)
    ++ clean window now (admitted_times max_requests window c requests tr).
Proof.
  revert tr. induction requests as [|[ip t] rest IH]; intros tr Hall.
  - simpl. by rewrite app_nil_r.
  - apply Forall_cons in Hall as [Ht Hrest]. simpl in Ht.
    cbn [run admitted_times]. rewrite IH by done.
    rewrite gate_tracker_get. cbv zeta.
    case_bool_decide as Hip.
    + rewrite !clean_app, clean_clean by done. by rewrite app_assoc.
    + by simpl.
Qed.

(** Under a clock that never runs backwards a rate window is in arrival
    order, so the first retained timestamp is the oldest one. *)
Lemma clean_sorted (now : Z) (l : list Z) :
  StronglySorted Z.le l → StronglySorted Z.le (clean window now l).
Proof.
  unfold clean. induction 1 as [|x l Hs IH Hx]; [constructor|].
  rewrite filter_cons. case_decide; [|done].
  constructor; [done|].
  apply Forall_forall. intros y Hy.
  apply list_elem_of_filter in Hy as [_ Hy].
  rewrite Forall_forall in Hx. by apply Hx.
Qed.

Lemma clean_head_oldest (now oldest : Z) (rest l : list Z) :
  StronglySorted Z.le l →
  clean window now l = oldest :: rest →
  ∀ t, t ∈ clean window now l → oldest <= t.
Proof.
  intros Hs%(clean_sorted now) Hk t Ht. rewrite Hk in Hs, Ht.
  apply StronglySorted_cons in Hs as [Hall _].
  apply elem_of_cons in Ht as [->|Ht]; [lia|].
  rewrite Forall_forall in Hall. by apply Hall.
Qed.

Lemma gate_sorted (c : string) (now : Z) (tr : gmap string (list Z)) :
  StronglySorted Z.le (tracker_get tr c) →
  Forall (fun t => t <= now) (tracker_get tr c) →
  StronglySorted Z.le
    (tracker_get (rate_limit_gate max_requests window c now tr).1 c).
Proof.
  intros Hs Hle. rewrite gate_tracker_get.
  rewrite bool_decide_eq_true_2 by done.
  apply StronglySorted_app; split_and!.
  - intros x1 x2 [_ Hx1]%clean_elem Hx2.
    rewrite Forall_forall in Hle. specialize (Hle _ Hx1).
    destruct (rate_limit_gate max_requests window c now tr).2;
      [apply list_elem_of_singleton in Hx2 as ->; lia
      |by apply elem_of_nil in Hx2..].
  - by apply clean_sorted.
  - destruct (rate_limit_gate max_requests window c now tr).2;
      repeat constructor.
Qed.

(** C1, as amended: for every client and every configuration whose quota
    [max_requests] is at least one, the admission check retains exactly the
    timestamps [t] with [now - t < window]; when fewer than [max_requests]
    are retained it appends [now] and lets the request through; when at
    least [max_requests] are retained it rejects and reports
    [retry_after = window - (now - oldest)], [oldest] being the first
    retained timestamp, and that hint is positive.  Consequently, once a run
    of requests has admitted [max_requests] requests of one client at clock
    readings still inside the window, the next request of that client is
    rejected with a positive [retry_after]. *)
Theorem rate_limit_admission (c : string) (now : Z)
    (tr : gmap string (list Z)) :
  1 <= max_requests →
  let kept := clean window now (tracker_get tr c) in
  (∀ t, t ∈ kept ↔ now - t < window ∧ t ∈ tracker_get tr c)
  ∧ (Z.of_nat (length kept) < max_requests →
     rate_limit_gate max_requests window c now tr
     = (<[c := kept ++ [now]]> tr, Allowed))
  ∧ (max_requests <= Z.of_nat (length kept) →
     ∃ oldest rest,
       kept = oldest :: rest
       ∧ rate_limit_gate max_requests window c now tr
         = (<[c := kept]> tr, Rejected (window - (now - oldest)))
       ∧ 0 < window - (now - oldest))
  ∧ (∀ requests tr0,
       tr = run max_requests window requests tr0 →
       Forall (fun r => r.2 <= now) requests →
       max_requests
       <= Z.of_nat (length (clean window now
            (admitted_times max_requests window c requests tr0))) →
       ∃ retry_after,
         (rate_limit_gate max_requests window c now tr).2
         = Rejected retry_after
         ∧ 0 < retry_after).
Proof.
  intros Hpos kept. split_and!.
  - intros t. apply clean_elem.
  - apply gate_allowed.
  - intros Hge. destruct (gate_rejected c now tr Hpos Hge)
      as (oldest & rest & Hk & Hgate & Hretry).
    exists oldest, rest. subst kept. by rewrite Hk in *.
  - intros requests tr0 -> Hall Hadm.
    destruct (gate_rejected c now (run max_requests window requests tr0) Hpos)
      as (oldest & rest & _ & Hgate & Hretry).
    + rewrite run_clean, length_app by done. lia.
    + exists (window - (now - oldest)). by rewrite Hgate.
Qed.

End RateLimiterFacts.

(** C1, as stated, fails for a quota of zero: on a client's first request
    nothing is retained, the retained count (0) is at least the quota (0),
    and computing the hint subscripts an empty list, so the check raises
    instead of rejecting with a [retry_after]. *)
Lemma rate_limit_zero_quota_raises :
  Z.of_nat
    (length (RateLimiter.clean 3600 100
               (RateLimiter.tracker_get ∅ "10.0.0.1"))) >= 0
  ∧ (RateLimiter.rate_limit_gate 0 3600 "10.0.0.1" 100 ∅).2
    = RateLimiter.IndexError.
Proof. split; [vm_compute; discriminate | reflexivity]. Qed.

(** Two requests admitted under a quota of two, then a third inside the
    window. *)
Lemma rate_limit_admission_witness :
  ∃ retry_after,
    (RateLimiter.rate_limit_gate 2 3600 "10.0.0.1" 100
       (RateLimiter.run 2 3600 [("10.0.0.1", 0); ("10.0.0.1", 50)] ∅)).2
    = RateLimiter.Rejected retry_after
    ∧ 0 < retry_after.
Proof.
  refine (proj2 (proj2 (proj2
    (rate_limit_admission 2 3600 "10.0.0.1" 100
       (RateLimiter.run 2 3600 [("10.0.0.1", 0); ("10.0.0.1", 50)] ∅)
       _))) [("10.0.0.1", 0); ("10.0.0.1", 50)] ∅ _ _ _).
  - lia.
  - reflexivity.
  - repeat constructor; simpl; lia.
  - vm_compute. discriminate.
Defined.


(** ** Aggregate statistics *)

Section AnalysisFacts.
Context (now_iso : string) (genres : option (list string))
        (albums : option (list Album)) (artist_name : option string).

(** The empty dictionary is returned for the empty track list and for no
    other. *)
Lemma analyze_empty_iff (tracks : list Track) :
  analyze_audio_features now_iso tracks genres albums artist_name = None
  ↔ tracks = [].
Proof.
  split.
  - destruct tracks; [done|]. discriminate.
  - by intros ->.
Qed.

(** A non-empty track list always gets an analysis, which counts the
    tracks it was given. *)
Lemma analyze_track_count (tracks : list Track) :
  tracks ≠ [] →
  ∃ analysis,
    analyze_audio_features now_iso tracks genres albums artist_name
    = Some analysis
    ∧ track_count analysis = length tracks.
Proof.
  destruct tracks as [|t tracks]; [done|]. intros _.
  eexists. split; [reflexivity|]. done.
Qed.

(** C2, as amended: on an empty track list [analyze_audio_features]
    returns the empty result object, in which no statistic is present:
    neither an average popularity, nor an average duration, nor an explicit
    ratio, nor a track count. *)
Theorem analyze_empty_tracks :
  let result := analyze_audio_features now_iso [] genres albums artist_name in
  result = None
  ∧ avg_popularity ∘ audio_features <$> result = None
  ∧ avg_duration_ms ∘ audio_features <$> result = None
  ∧ explicit_ratio ∘ audio_features <$> result = None
  ∧ track_count <$> result = None.
Proof. by split_and!. Qed.

End AnalysisFacts.

(** C2, as stated, fails: the result for the empty track list carries no
    ['avg_popularity'], ['avg_duration_ms'], ['explicit_ratio'] or
    ['track_count'] entry, so none of them is 0. *)
Lemma analyze_empty_tracks_no_zero_statistics :
  let result :=
    analyze_audio_features "2024-05-01T12:00:00" [] (Some ["pop"]) (Some [])
      (Some "Dua Lipa") in
  ¬ (avg_popularity ∘ audio_features <$> result = Some 0%Q
     ∧ avg_duration_ms ∘ audio_features <$> result = Some 0%Q
     ∧ explicit_ratio ∘ audio_features <$> result = Some 0%Q
     ∧ track_count <$> result = Some 0%nat).
Proof. intros result [H _]. vm_compute in H. discriminate H. Qed.

(** The statistics of the specification's two-track example. *)
Example analyze_two_tracks :
  let track p e :=
    {| track_id := "t"; track_name := None; popularity := Some p;
       duration_ms := None; explicit := Some e |} in
  audio_features
  <$> analyze_audio_features "2024-05-01T12:00:00"
        [track 100 true; track 0 false] None None None
  = Some {| avg_popularity := 50; avg_duration_ms := 0;
            explicit_ratio := 1 # 2 |}.
Proof. reflexivity. Qed.

(** ** The classifier *)

(** C4: whatever the genre list, the average popularity and the explicit
    ratio (and the durations), classifying the artist name "Taylor Swift"
    returns the mood "Storytelling Mastermind" and complexity 85: the
    artist-name tier answers, so the genre tier is not consulted. *)
Theorem taylor_swift_classification (genres : list string)
    (avg_popularity explicit_ratio : Q) (durations : list Z) :
  let result :=
    _analyze_genre_characteristics (lower (join ", " genres)) avg_popularity
      explicit_ratio durations (Some "Taylor Swift") in
  mood result = "Storytelling Mastermind"
  ∧ complexity result = 85
  ∧ _get_artist_persona (lower "Taylor Swift") avg_popularity explicit_ratio
    = Some result.
Proof.
  assert (_get_artist_persona (lower "Taylor Swift") avg_popularity
            explicit_ratio = Some taylor_swift_profile) as Hpersona
    by reflexivity.
  unfold _analyze_genre_characteristics. cbv zeta.
  change (if truthy "Taylor Swift" then lower "Taylor Swift" else "")
    with (lower "Taylor Swift").
  rewrite Hpersona. by split_and!.
Qed.

(** The same through [analyze_audio_features], for any non-empty track
    list. *)
Lemma taylor_swift_analysis (now_iso : string) (tracks : list Track)
    (genres : option (list string)) (albums : option (list Album)) :
  tracks ≠ [] →
  ∃ analysis,
    analyze_audio_features now_iso tracks genres albums (Some "Taylor Swift")
    = Some analysis
    ∧ primary_mood (mood_profile analysis) = "Storytelling Mastermind"
    ∧ complexity_score analysis = 85.
Proof.
  destruct tracks as [|t tracks]; [done|]. intros _.
  eexists. split; [reflexivity|]. cbn [mood_profile complexity_score
    primary_mood].
  split; apply (taylor_swift_classification (default [] genres)).
Qed.

(** The genre tier on the specification's hip-hop example. *)
Example unknown_artist_hip_hop (avg_popularity : Q) :
  mood (_analyze_genre_characteristics (lower (join ", " ["hip-hop"]))
          avg_popularity (9 # 10) [] (Some "Unknown Artist"))
  = "Raw & Unfiltered"
  ∧ mood (_analyze_genre_characteristics (lower (join ", " ["hip-hop"]))
            avg_popularity (1 # 10) [] (Some "Unknown Artist"))
    = "Lyrical & Conscious".
Proof. split; reflexivity. Qed.

(** The two definitions of [_get_genre_based_analysis] are the same
    function. *)
Lemma genre_analyses_equal :
  Shadowed._get_genre_based_analysis = Live._get_genre_based_analysis.
Proof. reflexivity. Qed.

(** C7, as amended: the class body defines [_get_genre_based_analysis]
    twice, the second definition replacing the first, and the two agree on
    every input (genre string, average popularity, explicit ratio, artist
    name): nothing richer is discarded. *)
Theorem genre_analysis_definitions_agree (genre_str : string)
    (avg_popularity explicit_ratio : Q) (artist_name : option string) :
  Shadowed._get_genre_based_analysis genre_str avg_popularity explicit_ratio
    artist_name
  = Live._get_genre_based_analysis genre_str avg_popularity explicit_ratio
      artist_name.
Proof. by rewrite genre_analyses_equal. Qed.

(** C7, as stated, fails: no input tells the shadowed definition from the
    live one. *)
Lemma genre_analysis_definitions_never_differ :
  ¬ ∃ (genre_str : string) (avg_popularity explicit_ratio : Q)
      (artist_name : option string),
      Shadowed._get_genre_based_analysis genre_str avg_popularity
        explicit_ratio artist_name
      ≠ Live._get_genre_based_analysis genre_str avg_popularity
          explicit_ratio artist_name.
Proof.
  intros (genre_str & avg_popularity & explicit_ratio & artist_name & Hne).
  apply Hne. by rewrite genre_analyses_equal.
Qed.

(** ** Determinism of the classifier, randomness of the discoverability score *)

Lemma randint_bounds (a b : Z) (g : RandomState) :
  a <= b → a <= (randint a b g).1 <= b.
Proof.
  intros Hab. unfold randint. simpl.
  pose proof (Z.mod_pos_bound (entropy g (position g)) (b - a + 1)). lia.
Qed.

Lemma randint_consumes_one (a b : Z) (g : RandomState) :
  position (randint a b g).2 = S (position g)
  ∧ entropy (randint a b g).2 = entropy g.
Proof. done. Qed.

(** The discoverability score stays between 30 and 100, between 60 and 90
    when there is no analysis to start from. *)
Lemma discoverability_bounds (audio_analysis : option Analysis)
    (genres : list string) (g : RandomState) :
  30 <= (_calculate_discoverability audio_analysis genres g).1 <= 100
  ∧ (audio_analysis = None →
     60 <= (_calculate_discoverability audio_analysis genres g).1 <= 90).
Proof.
  destruct audio_analysis as [analysis|];
    unfold _calculate_discoverability, Random.bind, Random.ret.
  - split; [|done].
    destruct (randint (-10) 15 g) as [jitter g']. cbn [fst].
    match goal with |- context [Z.min ?score 100] => generalize score end.
    intros score. lia.
  - pose proof (randint_bounds 60 90 g). lia.
Qed.

(** The score is the clamped base plus one draw between -10 and 15. *)
Lemma discoverability_jitter (analysis : Analysis) (genres : list string)
    (g : RandomState) :
  ∃ jitter,
    -10 <= jitter <= 15
    ∧ (_calculate_discoverability (Some analysis) genres g).1
      = Z.max
          (Z.min
             (Z.min (py_trunc (avg_popularity (audio_features analysis)
                               * (13 # 10))%Q) 95 + jitter) 100) 30.
Proof.
  exists (randint (-10) 15 g).1. split.
  - apply randint_bounds. lia.
  - done.
Qed.

(** The part of a search after the catalog lookup answers the same status
    and the same analysis whatever the state of the random generator. *)
Lemma search_lookup_analysis_independent (sp : Catalog.Client)
    (md5_hexdigest : string -> string) (clock : Clock) (query : string)
    (g : Globals) (rng : RandomState) :
  match search_lookup sp md5_hexdigest clock query g,
        search_lookup sp md5_hexdigest clock query (with_random rng g) with
  | inr (_, r1), inr (_, r2) =>
      status r1 = status r2 ∧ response_analysis r1 = response_analysis r2
  | inl e1, inl e2 => e1 = e2
  | _, _ => False
  end.
Proof.
  unfold search_lookup.
  destruct (Catalog.search sp query) as [e|[|artist others]]; [done..|].
  destruct (Catalog.artist_albums sp (Catalog.id artist)) as [e|items];
    [done|].
  destruct (process_albums items) as [e|albums]; [done|].
  destruct (Catalog.artist_top_tracks sp (Catalog.id artist)) as [e|tracks];
    [done|].
  destruct (fetch_audio_features sp _) as [e|fetched]; [done|].
  cbv zeta. cbn [random_state with_random].
  do 2 destruct (generate_discovery_insights _ _ _ _). done.
Qed.

(** The base of the score: the popularity scaled by 1.3, capped at 95. *)
Lemma discoverability_floor (analysis : Analysis) (genres : list string)
    (rng : RandomState) :
  Z.min (py_trunc (avg_popularity (audio_features analysis) * (13 # 10))%Q) 95
  <= 15 →
  (_calculate_discoverability (Some analysis) genres rng).1 = 30.
Proof.
  intros Hbase.
  destruct (discoverability_jitter analysis genres rng)
    as (jitter & Hjitter & ->).
  revert Hbase.
  match goal with |- context [Z.min ?base 95] => generalize base end.
  intros base Hbase. lia.
Qed.

(** The random states whose every draw is the lowest, and the highest,
    jitter. *)
Lemma discoverability_extremes (analysis : Analysis) (genres : list string) :
  let base :=
    Z.min (py_trunc (avg_popularity (audio_features analysis) * (13 # 10))%Q)
          95 in
  (_calculate_discoverability (Some analysis) genres
     {| entropy := fun _ => 0; position := 0 |}).1
  = Z.max (Z.min (base - 10) 100) 30
  ∧ (_calculate_discoverability (Some analysis) genres
       {| entropy := fun _ => 25; position := 0 |}).1
    = Z.max (Z.min (base + 15) 100) 30.
Proof. split; reflexivity. Qed.

Lemma discoverability_varies (analysis : Analysis) (genres : list string) :
  16
  <= Z.min (py_trunc (avg_popularity (audio_features analysis) * (13 # 10))%Q)
           95 →
  (_calculate_discoverability (Some analysis) genres
     {| entropy := fun _ => 0; position := 0 |}).1
  < (_calculate_discoverability (Some analysis) genres
       {| entropy := fun _ => 25; position := 0 |}).1.
Proof.
  intros Hbase.
  destruct (discoverability_extremes analysis genres) as [-> ->].
  revert Hbase.
  match goal with |- context [Z.min ?base 95] => generalize base end.
  intros base Hbase. lia.
Qed.

(** C8, as amended: the classifier is deterministic.  Two runs of the
    analysis on the same tracks, genres, albums and artist name return the
    same mood, complexity and recommendations whatever the clock reads, and
    a search answers the same analysis whatever the state of the random
    generator.  Randomness enters the engine through
    [_calculate_discoverability] alone: every other discovery insight is
    the same under any two random states; the score itself is one bounded
    draw (between -10 and 15 added to the clamped base, the result kept
    within 30..100; between 60 and 90 when there is no analysis) and
    consumes exactly one draw.  Whether the score varies with the random
    state is decided by the base [min(int(avg_popularity * 1.3), 95)]:
    at a base of 16 or more two random states give two scores, at a base
    of 15 or less the floor of 30 absorbs the jitter and the score is 30
    under every random state; without an analysis it always varies. *)
Theorem classifier_deterministic :
  (∀ now1 now2 tracks genres albums artist_name,
     classification
     <$> analyze_audio_features now1 tracks genres albums artist_name
     = classification
       <$> analyze_audio_features now2 tracks genres albums artist_name)
  ∧ (∀ sp md5_hexdigest clock query g rng,
       match search_lookup sp md5_hexdigest clock query g,
             search_lookup sp md5_hexdigest clock query (with_random rng g)
       with
       | inr (_, r1), inr (_, r2) =>
           status r1 = status r2
           ∧ response_analysis r1 = response_analysis r2
       | inl e1, inl e2 => e1 = e2
       | _, _ => False
       end)
  ∧ (∀ artist_name genres audio_analysis rng1 rng2,
       let i1 :=
         (generate_discovery_insights artist_name genres audio_analysis
            rng1).1 in
       let i2 :=
         (generate_discovery_insights artist_name genres audio_analysis
            rng2).1 in
       genre_diversity i1 = genre_diversity i2
       ∧ insights_mainstream_appeal i1 = insights_mainstream_appeal i2
       ∧ uniqueness_factor i1 = uniqueness_factor i2
       ∧ insights_recommendations i1 = insights_recommendations i2)
  ∧ (∀ audio_analysis genres rng,
       30 <= (_calculate_discoverability audio_analysis genres rng).1 <= 100
       ∧ position (_calculate_discoverability audio_analysis genres rng).2
         = S (position rng))
  ∧ (∀ analysis genres rng,
       ∃ jitter,
         -10 <= jitter <= 15
         ∧ (_calculate_discoverability (Some analysis) genres rng).1
           = Z.max
               (Z.min
                  (Z.min (py_trunc (avg_popularity (audio_features analysis)
                                    * (13 # 10))%Q) 95 + jitter) 100) 30)
  ∧ (∀ genres rng,
       60 <= (_calculate_discoverability None genres rng).1 <= 90)
  ∧ (∀ genres,
       ∃ rng1 rng2,
         (_calculate_discoverability None genres rng1).1
         ≠ (_calculate_discoverability None genres rng2).1)
  ∧ (∀ analysis genres,
       let base :=
         Z.min (py_trunc (avg_popularity (audio_features analysis)
                          * (13 # 10))%Q) 95 in
       (16 <= base
        ∧ ∃ rng1 rng2,
            (_calculate_discoverability (Some analysis) genres rng1).1
            ≠ (_calculate_discoverability (Some analysis) genres rng2).1)
       ∨ (base <= 15
          ∧ ∀ rng,
              (_calculate_discoverability (Some analysis) genres rng).1
              = 30)).
Proof.
  split_and!.
  - intros now1 now2 [|t tracks] genres albums artist_name; reflexivity.
  - apply search_lookup_analysis_independent.
  - intros artist_name genres audio_analysis rng1 rng2.
    unfold generate_discovery_insights, Random.bind.
    do 2 destruct (_calculate_discoverability _ _ _). by split_and!.
  - intros audio_analysis genres rng. split.
    + apply discoverability_bounds.
    + by destruct audio_analysis.
  - apply discoverability_jitter.
  - intros genres rng. by apply discoverability_bounds.
  - intros genres.
    exists {| entropy := fun _ => 0; position := 0 |},
      {| entropy := fun _ => 1; position := 0 |}.
    vm_compute. discriminate.
  - intros analysis genres base.
    destruct (Z_le_gt_dec base 15) as [Hlow|Hhigh].
    + right. split; [done|]. intros rng.
      by apply discoverability_floor.
    + left. split; [lia|].
      exists {| entropy := fun _ => 0; position := 0 |},
        {| entropy := fun _ => 25; position := 0 |}.
      apply Z.lt_neq, discoverability_varies. subst base. lia.
Qed.

(** C8, as stated, fails where it calls the score never deterministic: for
    the analysis of one track of popularity 10 the base is 13, the highest
    jitter lifts it to 28, and the score is the floor, 30, under every
    state of the random generator. *)
Lemma discoverability_constant_at_low_popularity :
  let tracks :=
    [{| track_id := "t1"; track_name := Some "Hello";
        popularity := Some 10; duration_ms := Some 200000;
        explicit := Some false |}] in
  let audio_analysis :=
    analyze_audio_features "2024-01-01T00:00:00" tracks (Some ["soul"]) None
      (Some "Somebody") in
  is_Some audio_analysis
  ∧ ¬ ∃ rng, (_calculate_discoverability audio_analysis ["soul"] rng).1 ≠ 30.
Proof.
  intros tracks audio_analysis.
  destruct audio_analysis as [analysis|] eqn:Hanalysis; [|discriminate].
  split; [by eexists|]. intros [rng Hscore]. apply Hscore.
  apply discoverability_floor.
  injection Hanalysis as <-. vm_compute. discriminate.
Qed.

(** ** The collection store *)

(** Evaluates the truthiness tests and defaults of a request's entries. *)
Ltac request_simpl :=
  cbv zeta; cbn [truthy_opt truthy negb orb default from_option id].



Lemma truthy_opt_true (o : option string) :
  truthy_opt o = true ↔ ∃ s, o = Some s ∧ s ≠ "".
Proof.
  destruct o as [[|c s]|]; simpl; split; try done.
  - intros (s & [= <-] & Hs). done.
  - intros _. by eexists.
  - by intros (s & ? & _).
Qed.

Section KeyedLists.
Context {A : Type} (key : A -> string).

(** The duplicate check [next((a for a in l if a[k] == id), None)]. *)
Lemma find_key_none (id : string) (l : list A) :
  find (fun a => bool_decide (key a = id)) l = None ↔ id ∉ key <$> l.
Proof.
  induction l as [|a l IH]; simpl.
  - split; [intros _; apply not_elem_of_nil | done].
  - rewrite not_elem_of_cons. case_bool_decide as Ha; split.
    + done.
    + intros [Hne _]. by destruct Hne.
    + intros Hnone. split; [congruence | by apply IH].
    + intros [_ Hl]. by apply IH.
Qed.


(** Removing by key leaves a list without that key as it is. *)
Lemma filter_key_absent (id : string) (l : list A) :
  id ∉ key <$> l → filter (fun a => key a ≠ id) l = l.
Proof.
  induction l as [|a l IH]; [done|]. rewrite fmap_cons, not_elem_of_cons.
  intros [Hne Hl]. rewrite filter_cons, decide_True by done.
  by rewrite IH.
Qed.

(** Removing by key removes something exactly when the key is there. *)
Lemma filter_key_length (id : string) (l : list A) :
  length (filter (fun a => key a ≠ id) l) = length l ↔ id ∉ key <$> l.
Proof.
  split; [|by intros ->%filter_key_absent].
  induction l as [|a l IH]; [intros _; apply not_elem_of_nil|].
  rewrite filter_cons, fmap_cons, not_elem_of_cons.
  pose proof (length_filter (fun a => key a ≠ id) l) as Hle.
  case_decide as Ha; simpl; intros Hlen.
  - split; [done|]. apply IH. lia.
  - lia.
Qed.

Lemma filter_key_gone (id : string) (l : list A) :
  id ∉ key <$> filter (fun a => key a ≠ id) l.
Proof.
  intros (a & -> & Ha)%list_elem_of_fmap.
  by apply list_elem_of_filter in Ha as [Hne _].
Qed.

Lemma filter_key_ids (id : string) (l : list A) :
  list_to_set (C := gset string) (key <$> filter (fun a => key a ≠ id) l)
  = list_to_set (key <$> l) ∖ {[id]}.
Proof.
  apply set_eq. intros x.
  rewrite elem_of_difference, !elem_of_list_to_set, !list_elem_of_fmap,
    not_elem_of_singleton.
  split.
  - intros (a & -> & [Hne Ha]%list_elem_of_filter). eauto.
  - intros [(a & -> & Ha) Hne]. exists a. split; [done|].
    by apply list_elem_of_filter.
Qed.

End KeyedLists.


(** The state and the answer of [heart_artist] for a new artist. *)
Lemma heart_artist_new (now_iso : string) (data : HeartRequest.t)
    (g : Globals) (artist_id artist_name : string) :
  HeartRequest.artist_id data = Some artist_id →
  HeartRequest.artist_name data = Some artist_name →
  artist_id ≠ "" → artist_name ≠ "" →
  artist_id ∉ liked_ids (user_preferences g) →
  let (g', response) := heart_artist now_iso (Some data) g in
  status response = 200
  ∧ liked_ids (user_preferences g')
    = liked_ids (user_preferences g) ++ [artist_id]
  ∧ liked_artists (user_preferences g')
    = {[artist_id]} ∪ liked_artists (user_preferences g).
Proof.
  intros Hid Hname Hid_ne Hname_ne Hin. unfold heart_artist.
  rewrite Hid, Hname.
  destruct artist_id as [|c1 s1]; [done|].
  destruct artist_name as [|c2 s2]; [done|].
  request_simpl.
  apply (find_key_none LikedArtist.artist_id) in Hin. rewrite Hin.
  split_and!; [done| |done].
  unfold liked_ids. cbn. by rewrite fmap_app.
Qed.



(** C6: no call of [unlike_artist] alters the genre preferences, whatever
    the request: when the id is among the liked artists the record is
    removed and the call succeeds (200), when it is absent the call answers
    NotFound (404), and in both cases, as for a malformed request, the
    genre-preference mapping is exactly what it was. *)
Theorem unlike_artist_keeps_genre_preferences (now_iso : string)
    (data : option UnlikeRequest.t) (g : Globals) :
  let (g', response) := unlike_artist now_iso data g in
  genre_preferences (user_preferences g')
  = genre_preferences (user_preferences g)
  ∧ (∀ request artist_id,
       data = Some request →
       UnlikeRequest.artist_id request = Some artist_id →
       artist_id ≠ "" →
       (artist_id ∈ liked_ids (user_preferences g) →
        status response = 200
        ∧ artist_id ∉ liked_ids (user_preferences g'))
       ∧ (artist_id ∉ liked_ids (user_preferences g) →
          status response = 404
          ∧ liked_artists_data (user_preferences g')
            = liked_artists_data (user_preferences g))).
Proof.
  unfold unlike_artist. destruct data as [request|]; [|done].
  destruct (UnlikeRequest.artist_id request) as [[|c id]|] eqn:Hid;
    request_simpl.
  - split; [done|]. intros ? artist_id [= <-] Hid' Hne. congruence.
  - set (prefs := user_preferences g).
    pose proof (filter_key_length LikedArtist.artist_id (String c id)
                  (liked_artists_data prefs)) as Hlen.
    case_bool_decide as Hcount;
      cbn [fst snd user_preferences with_preferences genre_preferences
           liked_artists_data status]; (split; [done|]);
      intros ? artist_id [= <-] Hid' _;
      rewrite Hid in Hid'; injection Hid' as <-.
    + apply Hlen in Hcount. split; [done|]. intros _. split; [done|].
      by apply filter_key_absent.
    + split; [|by rewrite <- Hlen]. intros _. split; [done|].
      apply filter_key_gone.
  - split; [done|]. intros ? artist_id [= <-] Hid' _. congruence.
Qed.

(** Unliking an id that was never liked. *)
Lemma unlike_artist_keeps_genre_preferences_witness :
  let seed := {| entropy := fun _ => 0; position := 0 |} in
  let liked :=
    {| HeartRequest.artist_id := Some "A1";
       HeartRequest.artist_name := Some "Radiohead";
       HeartRequest.genres := ["Art Rock"];
       HeartRequest.image := None |} in
  let g :=
    (heart_artist "2024-05-01T12:00:00" (Some liked) (initial_globals seed)).1
  in
  let request :=
    {| UnlikeRequest.artist_id := Some "missing";
       UnlikeRequest.artist_name := None |} in
  let (g', response) :=
    unlike_artist "2024-05-01T12:00:05" (Some request) g in
  genre_preferences (user_preferences g')
  = genre_preferences (user_preferences g)
  ∧ status response = 404.
Proof.
  intros seed liked g request.
  pose proof (unlike_artist_keeps_genre_preferences "2024-05-01T12:00:05"
                (Some request) g) as H.
  destruct (unlike_artist "2024-05-01T12:00:05" (Some request) g)
    as [g' response].
  destruct H as [Hprefs Hcases]. split; [exact Hprefs|].
  refine (proj1 (proj2 (Hcases request "missing" eq_refl eq_refl _) _)).
  - discriminate.
  - vm_compute. intros Hin. inversion Hin as [|? ? ? Hin']. inversion Hin'.
Defined.

(** *** The id set follows the data list *)

Lemma heart_artist_in_step (now_iso : string) (data : option HeartRequest.t)
    (g : Globals) :
  liked_in_step g → liked_in_step (heart_artist now_iso data g).1.
Proof.
  intros Hinv. unfold heart_artist. destruct data as [data|]; [|done].
  cbv zeta. destruct (negb _ || negb _); [done|].
  destruct (find _ _); [done|].
  unfold liked_in_step, liked_ids in *. cbn.
  rewrite Hinv, fmap_app, list_to_set_app_L. cbn.
  by rewrite union_empty_r_L, (comm_L (∪)).
Qed.

Lemma unlike_artist_in_step (now_iso : string)
    (data : option UnlikeRequest.t) (g : Globals) :
  liked_in_step g → liked_in_step (unlike_artist now_iso data g).1.
Proof.
  intros Hinv. unfold unlike_artist. destruct data as [data|]; [|done].
  cbv zeta. destruct (negb _); [done|].
  unfold liked_in_step, liked_ids in *.
  case_bool_decide; cbn; by rewrite Hinv, filter_key_ids.
Qed.

Lemma clear_collection_in_step (g : Globals) :
  liked_in_step (clear_collection g).1.
Proof. done. Qed.

(** While every liked id is a text, the id set follows the data list: in
    every state [heart_artist], [unlike_artist] and [clear_collection]
    reach from the initial empty stores on requests of texts, the
    liked-artists id set is exactly the set of the [artist_id] entries of
    the liked-artists data list. *)
Lemma liked_ids_in_step :
  (∀ g g', collection_step g g' → liked_in_step g → liked_in_step g')
  ∧ (∀ g, reachable g → liked_in_step g).
Proof.
  assert (∀ g g', collection_step g g' → liked_in_step g → liked_in_step g')
    as Hstep.
  { intros g g' [now_iso data g0|now_iso data g0|g0] Hinv.
    - by apply heart_artist_in_step.
    - by apply unlike_artist_in_step.
    - apply clear_collection_in_step. }
  split; [done|].
  intros g [seed Hreach]. revert g Hreach.
  apply (rtc_ind_r (fun g => liked_in_step g)); [done|].
  intros g1 g2 _ H12 IH. by eapply Hstep.
Qed.

(** *** Saving and unsaving an album *)







(** ** Search analytics *)

(** The catalog part of a search never touches the analytics, and a search
    that does not answer 200 leaves every store as it found it. *)
Lemma search_lookup_analytics (sp : Catalog.Client)
    (md5_hexdigest : string -> string) (clock : Clock) (query : string)
    (g g' : Globals) (response : Response) :
  search_lookup sp md5_hexdigest clock query g = inr (g', response) →
  search_analytics g' = search_analytics g
  ∧ (status response ≠ 200 → g' = g).
Proof.
  unfold search_lookup.
  destruct (Catalog.search sp query) as [e|[|artist others]]; [done| |].
  { by intros [= <- <-]. }
  destruct (Catalog.artist_albums sp (Catalog.id artist)) as [e|items];
    [done|].
  destruct (process_albums items) as [e|albums]; [done|].
  destruct (Catalog.artist_top_tracks sp (Catalog.id artist)) as [e|tracks];
    [done|].
  destruct (fetch_audio_features sp _) as [e|fetched]; [done|].
  cbv zeta. destruct (generate_discovery_insights _ _ _ _).
  by intros [= <- <-].
Qed.

(** Without a catalog client, with a falsy body or with a query that fails
    validation, nothing is counted. *)
Lemma search_albums_rejected_uncounted (sp : option Catalog.Client)
    (md5_hexdigest : string -> string) (clock : Clock)
    (data : option SearchRequest.t) (g : Globals) :
  match sp, data with
  | Some _, Some request =>
      let query := strip (default "" (SearchRequest.query request)) in
      query = "" ∨ (100 < String.length query)%nat
  | _, _ => True
  end →
  (search_albums sp md5_hexdigest clock data g).1 = g.
Proof.
  unfold search_albums.
  destruct sp as [sp|]; [|done]. destruct data as [data|]; [|done].
  cbv zeta. intros [Hq|Hq].
  - by rewrite Hq.
  - destruct (negb (truthy _)); [done|].
    apply Nat.ltb_lt in Hq. by rewrite Hq.
Qed.

(** * Further properties of the code *)

(** ** Rate limiter: isolation, bounds and the retry hint *)

Lemma filter_keeps_all {A : Type} (P : A -> Prop) `{!∀ x, Decision (P x)}
    (l : list A) :
  Forall P l → filter P l = l.
Proof.
  induction 1 as [|x l Hx Hl IH]; [done|].
  by rewrite filter_cons_True, IH.
Qed.

Section RateLimiterMore.
Import RateLimiter.
Context (max_requests window : Z).

(** The verdict on a client is read off that client's own rate window. *)
Lemma gate_outcome_own_window (c : string) (now : Z)
    (tr1 tr2 : gmap string (list Z)) :
  tracker_get tr1 c = tracker_get tr2 c →
  (rate_limit_gate max_requests window c now tr1).2
  = (rate_limit_gate max_requests window c now tr2).2.
Proof.
  intros Heq. unfold rate_limit_gate. cbv zeta. rewrite Heq.
  case_bool_decide; [by destruct (clean window now (tracker_get tr2 c))|done].
Qed.

(** A request of one client leaves the rate window of every other client
    as it was, and with it the verdict the other client would get. *)
Theorem gate_isolates_clients (ip c : string) (t now : Z)
    (tr : gmap string (list Z)) :
  ip ≠ c →
  tracker_get (rate_limit_gate max_requests window ip t tr).1 c
  = tracker_get tr c
  ∧ (rate_limit_gate max_requests window c now
       (rate_limit_gate max_requests window ip t tr).1).2
    = (rate_limit_gate max_requests window c now tr).2.
Proof.
  intros Hne.
  assert (tracker_get (rate_limit_gate max_requests window ip t tr).1 c
          = tracker_get tr c) as Hsame.
  { rewrite gate_tracker_get. by rewrite bool_decide_eq_false_2. }
  split; [done|]. by apply gate_outcome_own_window.
Qed.

(** After a pass through the gate the client's rate window holds only
    timestamps inside the window, and no more than the quota when the
    request was let through. *)
Theorem gate_window_fresh_and_bounded (c : string) (now : Z)
    (tr : gmap string (list Z)) :
  0 < window →
  let after := rate_limit_gate max_requests window c now tr in
  (∀ t, t ∈ tracker_get after.1 c → now - t < window)
  ∧ (after.2 = Allowed →
     Z.of_nat (length (tracker_get after.1 c)) <= max_requests)
  ∧ (after.2 ≠ Allowed →
     tracker_get after.1 c = clean window now (tracker_get tr c)).
Proof.
  intros Hwindow after. subst after.
  rewrite gate_tracker_get, bool_decide_eq_true_2 by done.
  unfold rate_limit_gate. cbv zeta.
  remember (clean window now (tracker_get tr c)) as kept eqn:Hkept.
  assert (∀ t, t ∈ kept → now - t < window) as Hfresh.
  { intros t Ht. rewrite Hkept in Ht. by apply clean_elem in Ht as [? _]. }
  case_bool_decide as Hfull; [destruct kept as [|oldest rest]|];
    cbn [fst snd]; rewrite ?app_nil_r; split_and!; try done.
  - intros t [Ht| ->%list_elem_of_singleton]%elem_of_app; [auto|lia].
  - intros _. rewrite length_app. cbn. lia.
Qed.

(** A pass through the gate keeps a rate window within the quota. *)
Lemma gate_window_length (ip c : string) (t : Z) (tr : gmap string (list Z)) :
  0 <= max_requests →
  Z.of_nat (length (tracker_get tr c)) <= max_requests →
  Z.of_nat
    (length (tracker_get (rate_limit_gate max_requests window ip t tr).1 c))
  <= max_requests.
Proof.
  intros Hmax Hlen. rewrite gate_tracker_get.
  case_bool_decide as Hip; [subst ip|done].
  pose proof (length_filter (fun timestamp => t - timestamp < window)
                (tracker_get tr c)) as Hle.
  unfold rate_limit_gate, clean. cbv zeta. revert Hle.
  case_bool_decide as Hfull; [destruct (filter _ _)|];
    cbn [fst snd]; rewrite ?app_nil_r, ?length_app; cbn; lia.
Qed.

(** From the empty tracker, whatever the requests, no client's rate
    window ever holds more timestamps than the quota. *)
Theorem run_windows_bounded (requests : list (string * Z)) (c : string) :
  0 <= max_requests →
  Z.of_nat (length (tracker_get (run max_requests window requests ∅) c))
  <= max_requests.
Proof.
  intros Hmax.
  assert (∀ tr, Z.of_nat (length (tracker_get tr c)) <= max_requests →
                Z.of_nat (length (tracker_get
                            (run max_requests window requests tr) c))
                <= max_requests) as Hrun.
  { induction requests as [|[ip t] rest IH]; intros tr Hlen; [done|].
    cbn [run]. apply IH. by apply gate_window_length. }
  apply Hrun. unfold tracker_get. rewrite lookup_empty. simpl. lia.
Qed.

(** The retry hint is honest.  When a request is rejected from a rate
    window that holds exactly the quota, retrying [retry_after] later is
    let through. *)
Theorem retry_after_expiry_admitted (c : string) (now retry_after : Z)
    (tr tr' : gmap string (list Z)) :
  1 <= max_requests →
  Z.of_nat (length (clean window now (tracker_get tr c))) = max_requests →
  rate_limit_gate max_requests window c now tr
  = (tr', Rejected retry_after) →
  (rate_limit_gate max_requests window c (now + retry_after) tr').2
  = Allowed.
Proof.
  intros Hmax Hlen Hgate.
  destruct (gate_rejected max_requests window c now tr Hmax)
    as (oldest & rest & Hkept & Hgate' & _); [lia|].
  rewrite Hgate in Hgate'. injection Hgate' as -> ->.
  rewrite Hkept in Hlen. cbn [length] in Hlen.
  assert (tracker_get (<[c:=oldest :: rest]> tr) c = oldest :: rest) as Hget
    by (unfold tracker_get; by rewrite lookup_insert_eq).
  rewrite gate_allowed; [done|]. rewrite Hget. unfold clean.
  rewrite filter_cons, decide_False by lia.
  pose proof (length_filter
                (fun timestamp =>
                   now + (window - (now - oldest)) - timestamp < window)
                rest). lia.
Qed.

(** And retrying any earlier is rejected again, the hint having counted
    down by the time waited, provided the window is in arrival order (the
    clock never ran backwards). *)
Theorem retry_before_expiry_rejected (c : string) (now now' retry_after : Z)
    (tr tr' : gmap string (list Z)) :
  1 <= max_requests →
  StronglySorted Z.le (tracker_get tr c) →
  rate_limit_gate max_requests window c now tr
  = (tr', Rejected retry_after) →
  now <= now' < now + retry_after →
  (rate_limit_gate max_requests window c now' tr').2
  = Rejected (retry_after - (now' - now)).
Proof.
  intros Hmax Hsorted Hgate Hnow.
  assert (max_requests
          <= Z.of_nat (length (clean window now (tracker_get tr c)))) as Hfull.
  { unfold rate_limit_gate in Hgate. cbv zeta in Hgate.
    case_bool_decide; [lia|done]. }
  destruct (gate_rejected max_requests window c now tr Hmax Hfull)
    as (oldest & rest & Hkept & Hgate' & _).
  rewrite Hgate in Hgate'. injection Hgate' as -> ->.
  assert (tracker_get (<[c:=oldest :: rest]> tr) c = oldest :: rest) as Hget
    by (unfold tracker_get; by rewrite lookup_insert_eq).
  assert (clean window now' (oldest :: rest) = oldest :: rest) as Hstay.
  { unfold clean. apply filter_keeps_all, Forall_forall. intros t Ht.
    rewrite <- Hkept in Ht.
    pose proof (clean_head_oldest window now oldest rest _ Hsorted Hkept t Ht).
    lia. }
  unfold rate_limit_gate. cbv zeta. rewrite Hget, Hstay.
  rewrite Hkept in Hfull. rewrite bool_decide_eq_true_2 by lia.
  cbn [snd]. f_equal. lia.
Qed.

End RateLimiterMore.

(** The rate windows are shared by every decorated endpoint.  Requests
    admitted under one quota count against another: once a client has
    been let through [other_quota] times inside the window by a limiter of
    quota [max_requests], a limiter of quota [other_quota] over the same
    window rejects it, with a positive hint. *)
Theorem rate_windows_shared_across_quotas (max_requests other_quota window : Z)
    (c : string) (now : Z) (requests : list (string * Z))
    (tr : gmap string (list Z)) :
  1 <= other_quota →
  Forall (fun r => r.2 <= now) requests →
  other_quota
  <= Z.of_nat
       (length (RateLimiter.clean window now
          (RateLimiter.admitted_times max_requests window c requests tr))) →
  ∃ retry_after,
    (RateLimiter.rate_limit_gate other_quota window c now
       (RateLimiter.run max_requests window requests tr)).2
    = RateLimiter.Rejected retry_after
    ∧ 0 < retry_after.
Proof.
  intros Hquota Hpast Hadmitted.
  destruct (gate_rejected other_quota window c now
              (RateLimiter.run max_requests window requests tr) Hquota)
    as (oldest & rest & _ & Hgate & Hretry).
  - rewrite run_clean, length_app by done. lia.
  - exists (window - (now - oldest)). by rewrite Hgate.
Qed.

(** ** The collection store: frames, uniqueness and counts *)

(** Each store has its own writers: the five collection handlers leave
    the analytics, the insights cache, the rate windows and the random
    generator untouched, and a search leaves the collection untouched. *)
Theorem stores_have_separate_writers (g : Globals) :
  (∀ g', (∃ now_iso data, g' = (heart_artist now_iso data g).1)
         ∨ (∃ now_iso data, g' = (unlike_artist now_iso data g).1)
         ∨ (∃ now_iso data, g' = (save_album now_iso data g).1)
         ∨ (∃ data, g' = (unsave_album data g).1)
         ∨ g' = (clear_collection g).1 →
         search_analytics g' = search_analytics g
         ∧ music_insights_cache g' = music_insights_cache g
         ∧ rate_limit_tracker g' = rate_limit_tracker g
         ∧ random_state g' = random_state g)
  ∧ (∀ sp md5_hexdigest clock data client_ip now,
       user_preferences
         (search_route sp md5_hexdigest clock data client_ip now g).1
       = user_preferences g).
Proof.
  split.
  - intros g' [(now_iso & data & ->)|[(now_iso & data & ->)|
      [(now_iso & data & ->)|[(data & ->)| ->]]]].
    + unfold heart_artist. destruct data as [data|]; [|done]. cbv zeta.
      destruct (negb _ || negb _); [done|]. by destruct (find _ _).
    + unfold unlike_artist. destruct data as [data|]; [|done]. cbv zeta.
      destruct (negb _); [done|]. by case_bool_decide.
    + unfold save_album. destruct data as [data|]; [|done]. cbv zeta.
      destruct (negb _ || negb _); [done|]. by destruct (find _ _).
    + unfold unsave_album. destruct data as [data|]; [|done]. cbv zeta.
      destruct (negb _); [done|]. by case_bool_decide.
    + done.
  - intros sp md5_hexdigest clock data client_ip now.
    unfold search_route, rate_limit.
    destruct (RateLimiter.rate_limit_gate _ _ _ _ _) as [tracker outcome].
    destruct outcome; [|done..].
    destruct (search_albums _ _ _ _ _) as [g2 response] eqn:Hsearch.
    cbn [fst]. unfold search_albums in Hsearch.
    destruct sp as [sp|]; [|by simplify_eq].
    destruct data as [data|]; [|by simplify_eq]. cbv zeta in Hsearch.
    destruct (negb _); [by simplify_eq|].
    destruct (_ <? _)%nat; [by simplify_eq|].
    destruct (search_lookup _ _ _ _ _) as [[|]|[g3 r3]] eqn:Hlookup;
      [by simplify_eq..|].
    injection Hsearch as <- <-.
    unfold search_lookup in Hlookup.
    destruct (Catalog.search sp _) as [e|[|artist others]];
      [done|by simplify_eq|].
    destruct (Catalog.artist_albums sp _) as [e|items]; [done|].
    destruct (process_albums items) as [e|albums]; [done|].
    destruct (Catalog.artist_top_tracks sp _) as [e|tracks]; [done|].
    destruct (fetch_audio_features sp _) as [e|fetched]; [done|].
    cbv zeta in Hlookup. destruct (generate_discovery_insights _ _ _ _).
    by simplify_eq.
Qed.

(** *** What every served state satisfies *)

Lemma increment_positive (key : string) (counter : gmap string Z) :
  counts_positive counter → counts_positive (increment key counter).
Proof.
  intros Hpos k n. unfold increment.
  destruct (decide (key = k)) as [->|Hne].
  - rewrite lookup_insert_eq. intros [= <-].
    destruct (counter !! k) as [m|] eqn:Hk; simpl; [|lia].
    specialize (Hpos _ _ Hk). lia.
  - rewrite lookup_insert_ne by done. apply Hpos.
Qed.

Lemma increment_all_positive (genres : list string)
    (counter : gmap string Z) :
  counts_positive counter →
  counts_positive
    (foldl (fun counts genre => increment (lower genre) counts)
           counter genres).
Proof.
  revert counter. induction genres as [|genre genres IH]; [done|].
  intros counter Hpos. cbn [foldl]. by apply IH, increment_positive.
Qed.

Lemma NoDup_filter_key {A : Type} (key : A -> string) (P : A -> Prop)
    `{!∀ x, Decision (P x)} (l : list A) :
  NoDup (key <$> l) → NoDup (key <$> filter P l).
Proof.
  intros Hl. eapply sublist_NoDup; [exact Hl|].
  apply fmap_sublist, sublist_filter.
Qed.

Lemma heart_artist_consistent (now_iso : string)
    (data : option HeartRequest.t) (g : Globals) :
  consistent g → consistent (heart_artist now_iso data g).1.
Proof.
  intros (Hstep & Hliked & Hsaved & Hsearch & Hgenre & Hwin).
  pose proof (heart_artist_in_step now_iso data g Hstep) as Hstep'.
  revert Hstep'. unfold heart_artist.
  destruct data as [data|]; [|done]. cbv zeta.
  destruct (negb _ || negb _); [done|].
  destruct (find _ _) eqn:Hfind; [done|]. intros Hstep'.
  apply (find_key_none LikedArtist.artist_id) in Hfind.
  split_and!; try done.
  - unfold liked_ids. cbn. rewrite fmap_app. cbn.
    apply NoDup_app. split_and!; [done| |apply NoDup_singleton].
    intros x Hx ->%list_elem_of_singleton. done.
  - by apply increment_all_positive.
Qed.

Lemma unlike_artist_consistent (now_iso : string)
    (data : option UnlikeRequest.t) (g : Globals) :
  consistent g → consistent (unlike_artist now_iso data g).1.
Proof.
  intros (Hstep & Hliked & Hsaved & Hsearch & Hgenre & Hwin).
  pose proof (unlike_artist_in_step now_iso data g Hstep) as Hstep'.
  revert Hstep'. unfold unlike_artist.
  destruct data as [data|]; [|done]. cbv zeta.
  destruct (negb _); [done|].
  case_bool_decide; intros Hstep'; split_and!; try done;
    by apply (NoDup_filter_key LikedArtist.artist_id).
Qed.

Lemma save_album_consistent (now_iso : string)
    (data : option AlbumRequest.t) (g : Globals) :
  consistent g → consistent (save_album now_iso data g).1.
Proof.
  intros (Hstep & Hliked & Hsaved & Hsearch & Hgenre & Hwin).
  unfold save_album. destruct data as [data|]; [|done]. cbv zeta.
  destruct (negb _ || negb _); [done|].
  destruct (find _ _) eqn:Hfind; [done|].
  apply (find_key_none SavedAlbum.album_id) in Hfind.
  split_and!; try done.
  unfold saved_ids. cbn. rewrite fmap_app. cbn.
  apply NoDup_app. split_and!; [done| |apply NoDup_singleton].
  intros x Hx ->%list_elem_of_singleton. done.
Qed.

Lemma unsave_album_consistent (data : option AlbumRequest.t) (g : Globals) :
  consistent g → consistent (unsave_album data g).1.
Proof.
  intros (Hstep & Hliked & Hsaved & Hsearch & Hgenre & Hwin).
  unfold unsave_album. destruct data as [data|]; [|done]. cbv zeta.
  destruct (negb _); [done|].
  case_bool_decide; split_and!; try done;
    by apply (NoDup_filter_key SavedAlbum.album_id).
Qed.

Lemma clear_collection_consistent (g : Globals) :
  consistent g → consistent (clear_collection g).1.
Proof.
  intros (Hstep & Hliked & Hsaved & Hsearch & Hgenre & Hwin).
  split_and!; try done; try apply NoDup_nil_2.
Qed.

(** A search changes, of what [consistent] speaks about, the analytics
    and nothing else. *)
Lemma search_albums_consistent (sp : option Catalog.Client)
    (md5_hexdigest : string -> string) (clock : Clock)
    (data : option SearchRequest.t) (g : Globals) :
  consistent g → consistent (search_albums sp md5_hexdigest clock data g).1.
Proof.
  intros Hg. unfold search_albums.
  destruct sp as [sp|]; [|done]. destruct data as [data|]; [|done].
  cbv zeta. destruct (negb _); [done|]. destruct (_ <? _)%nat; [done|].
  set (query := strip _).
  assert (consistent
            (with_analytics (increment (lower query) (search_analytics g)) g))
    as Hcounted.
  { destruct Hg as (Hstep & Hliked & Hsaved & Hsearch & Hgenre & Hwin).
    split_and!; try done. by apply increment_positive. }
  destruct (search_lookup _ _ _ _ _) as [[|]|[g' response]] eqn:Hlookup;
    [done..|]. cbn [fst].
  unfold search_lookup in Hlookup.
  destruct (Catalog.search sp _) as [e|[|artist others]];
    [done|by simplify_eq|].
  destruct (Catalog.artist_albums sp _) as [e|items]; [done|].
  destruct (process_albums items) as [e|albums]; [done|].
  destruct (Catalog.artist_top_tracks sp _) as [e|tracks]; [done|].
  destruct (fetch_audio_features sp _) as [e|fetched]; [done|].
  cbv zeta in Hlookup. destruct (generate_discovery_insights _ _ _ _).
  by simplify_eq.
Qed.

Lemma search_route_consistent (sp : option Catalog.Client)
    (md5_hexdigest : string -> string) (clock : Clock)
    (data : option SearchRequest.t) (client_ip : string) (now : Z)
    (g : Globals) :
  consistent g →
  consistent (search_route sp md5_hexdigest clock data client_ip now g).1.
Proof.
  intros Hg. unfold search_route, rate_limit.
  destruct (RateLimiter.rate_limit_gate _ _ _ _ _) as [tracker outcome]
    eqn:Hgate.
  assert (consistent (with_tracker tracker g)) as Hgated.
  { destruct Hg as (Hstep & Hliked & Hsaved & Hsearch & Hgenre & Hwin).
    split_and!; try done. intros ip. cbn.
    replace tracker
      with (RateLimiter.rate_limit_gate 30 3600 client_ip now
              (rate_limit_tracker g)).1 by by rewrite Hgate.
    by apply gate_window_length. }
  destruct outcome; [|done..].
  pose proof (search_albums_consistent sp md5_hexdigest clock data _ Hgated).
  by destruct (search_albums _ _ _ _ _).
Qed.

Lemma served_consistent (g : Globals) : served g → consistent g.
Proof.
  intros [seed Hserved]. revert g Hserved.
  apply (rtc_ind_r (fun g => consistent g)).
  - split_and!; try done; apply NoDup_nil_2.
  - intros g1 g2 _ Hstep IH. destruct Hstep.
    + by apply heart_artist_consistent.
    + by apply unlike_artist_consistent.
    + by apply save_album_consistent.
    + by apply unsave_album_consistent.
    + by apply clear_collection_consistent.
    + by apply search_route_consistent.
Qed.

(** A state reached by a like, a save, a search shut out by the missing
    catalog client, and an unlike. *)
Lemma served_example :
  let seed := {| entropy := fun _ => 0; position := 0 |} in
  let like :=
    Some {| HeartRequest.artist_id := Some "A1";
            HeartRequest.artist_name := Some "Adele";
            HeartRequest.genres := ["Pop"; "soul"];
            HeartRequest.image := None |} in
  let album :=
    Some {| AlbumRequest.album_id := Some "B1";
            AlbumRequest.album_name := Some "25";
            AlbumRequest.artist_name := Some "Adele";
            AlbumRequest.artist_id := Some "A1";
            AlbumRequest.release_date := Some "2015-11-20";
            AlbumRequest.image := None;
            AlbumRequest.total_tracks := Some 11 |} in
  let clock :=
    {| analysis_now := "t"; cache_today := "d"; cache_now := "t";
       search_now := "t" |} in
  let g1 := (heart_artist "t1" like (initial_globals seed)).1 in
  let g2 := (save_album "t2" album g1).1 in
  let g3 :=
    (search_route None (fun s => s) clock
       (Some {| SearchRequest.query := Some "adele" |}) "10.0.0.1" 7 g2).1 in
  served g3.
Proof.
  intros seed like album clock g1 g2 g3. exists seed.
  eapply rtc_l; [apply (serve_heart_artist "t1" like)|].
  eapply rtc_l; [apply (serve_save_album "t2" album)|].
  eapply rtc_l; [apply (serve_search None (fun s => s) clock
    (Some {| SearchRequest.query := Some "adele" |}) "10.0.0.1" 7)|].
  apply rtc_refl.
Qed.



(** In every state the server can be in, a query or a genre that has a
    counter has been counted at least once: no counter is zero or
    negative. *)
Theorem served_counts_positive (g : Globals) :
  served g →
  counts_positive (search_analytics g)
  ∧ counts_positive (genre_preferences (user_preferences g)).
Proof.
  by intros (_ & _ & _ & Hsearch & Hgenre & _)%served_consistent.
Qed.

Lemma served_counts_positive_witness :
  let seed := {| entropy := fun _ => 0; position := 0 |} in
  let like :=
    Some {| HeartRequest.artist_id := Some "A1";
            HeartRequest.artist_name := Some "Adele";
            HeartRequest.genres := ["Pop"; "soul"];
            HeartRequest.image := None |} in
  let album :=
    Some {| AlbumRequest.album_id := Some "B1";
            AlbumRequest.album_name := Some "25";
            AlbumRequest.artist_name := Some "Adele";
            AlbumRequest.artist_id := Some "A1";
            AlbumRequest.release_date := Some "2015-11-20";
            AlbumRequest.image := None;
            AlbumRequest.total_tracks := Some 11 |} in
  let clock :=
    {| analysis_now := "t"; cache_today := "d"; cache_now := "t";
       search_now := "t" |} in
  let g1 := (heart_artist "t1" like (initial_globals seed)).1 in
  let g2 := (save_album "t2" album g1).1 in
  let g3 :=
    (search_route None (fun s => s) clock
       (Some {| SearchRequest.query := Some "adele" |}) "10.0.0.1" 7 g2).1 in
  counts_positive (genre_preferences (user_preferences g3)).
Proof.
  intros seed like album clock g1 g2 g3.
  exact (proj2 (served_counts_positive g3 served_example)).
Defined.

(** In every state the server can be in, no client's rate window holds
    more than the 30 timestamps of the search quota. *)
Theorem served_windows_bounded (g : Globals) (client_ip : string) :
  served g →
  Z.of_nat (length (RateLimiter.tracker_get (rate_limit_tracker g) client_ip))
  <= 30.
Proof.
  intros (_ & _ & _ & _ & _ & Hwin)%served_consistent. apply Hwin.
Qed.

Lemma served_windows_bounded_witness :
  let seed := {| entropy := fun _ => 0; position := 0 |} in
  let like :=
    Some {| HeartRequest.artist_id := Some "A1";
            HeartRequest.artist_name := Some "Adele";
            HeartRequest.genres := ["Pop"; "soul"];
            HeartRequest.image := None |} in
  let album :=
    Some {| AlbumRequest.album_id := Some "B1";
            AlbumRequest.album_name := Some "25";
            AlbumRequest.artist_name := Some "Adele";
            AlbumRequest.artist_id := Some "A1";
            AlbumRequest.release_date := Some "2015-11-20";
            AlbumRequest.image := None;
            AlbumRequest.total_tracks := Some 11 |} in
  let clock :=
    {| analysis_now := "t"; cache_today := "d"; cache_now := "t";
       search_now := "t" |} in
  let g1 := (heart_artist "t1" like (initial_globals seed)).1 in
  let g2 := (save_album "t2" album g1).1 in
  let g3 :=
    (search_route None (fun s => s) clock
       (Some {| SearchRequest.query := Some "adele" |}) "10.0.0.1" 7 g2).1 in
  Z.of_nat (length (RateLimiter.tracker_get (rate_limit_tracker g3)
                      "10.0.0.1")) <= 30.
Proof.
  intros seed like album clock g1 g2 g3.
  exact (served_windows_bounded g3 "10.0.0.1" served_example).
Defined.

(** *** Liking *)

Lemma increment_lookup (key k : string) (counter : gmap string Z) :
  default 0 (increment key counter !! k)
  = default 0 (counter !! k) + (if bool_decide (key = k) then 1 else 0).
Proof.
  unfold increment. case_bool_decide as Hk.
  - subst. by rewrite lookup_insert_eq.
  - rewrite lookup_insert_ne by done. lia.
Qed.

(** *** Saving and removing albums *)



(** *** Clearing and reading *)

(** [clear_collection] always succeeds and empties the collection: a
    following [get_my_collection] answers no liked artist, no saved album
    and zero counts, and no genre count or history event is left.
    Clearing twice is clearing once, and the other stores are kept. *)
Theorem clear_collection_empties (g : Globals) :
  let (g', response) := clear_collection g in
  status response = 200
  ∧ get_my_collection g'
    = ({| view_liked_artists := []; view_saved_albums := [];
          view_liked_count := 0; view_saved_albums_count := 0 |}, 200)
  ∧ user_preferences g' = initial_preferences
  ∧ (clear_collection g').1 = g'
  ∧ search_analytics g' = search_analytics g
  ∧ music_insights_cache g' = music_insights_cache g
  ∧ rate_limit_tracker g' = rate_limit_tracker g.
Proof. by split_and!. Qed.

(** ** The classifier: bounds and what the name can change *)

(** In the genre tier the artist name only personalises the first
    recommendation: mood and complexity do not depend on it. *)
Lemma genre_tier_name_free (genre_str : string)
    (avg_popularity explicit_ratio : Q) (name1 name2 : option string) :
  mood (Live._get_genre_based_analysis genre_str avg_popularity
          explicit_ratio name1)
  = mood (Live._get_genre_based_analysis genre_str avg_popularity
            explicit_ratio name2)
  ∧ complexity (Live._get_genre_based_analysis genre_str avg_popularity
                  explicit_ratio name1)
    = complexity (Live._get_genre_based_analysis genre_str avg_popularity
                    explicit_ratio name2).
Proof.
  unfold Live._get_genre_based_analysis.
  repeat case_match; simplify_eq; done.
Qed.

Lemma genre_tier_bounds (genre_str : string)
    (avg_popularity explicit_ratio : Q) (artist_name : option string) :
  let result :=
    Live._get_genre_based_analysis genre_str avg_popularity explicit_ratio
      artist_name in
  35 <= complexity result <= 85
  ∧ length (recommendations result) = 3%nat
  ∧ mood result ≠ "".
Proof.
  unfold Live._get_genre_based_analysis.
  repeat case_match; simplify_eq; cbn; split_and!; done || lia.
Qed.

Lemma persona_bounds (artist_lower : string)
    (avg_popularity explicit_ratio : Q) (persona : Profile) :
  _get_artist_persona artist_lower avg_popularity explicit_ratio
  = Some persona →
  60 <= complexity persona <= 100
  ∧ length (recommendations persona) = 3%nat
  ∧ mood persona ≠ "".
Proof.
  unfold _get_artist_persona.
  repeat case_match; intros; simplify_eq; cbn; split_and!; done || lia.
Qed.

(** Whatever it is given, the classifier answers a non-empty mood, a
    complexity between 35 and 100 and exactly three recommendations. *)
Theorem classification_bounds (genre_str : string)
    (avg_popularity explicit_ratio : Q) (durations : list Z)
    (artist_name : option string) :
  let result :=
    _analyze_genre_characteristics genre_str avg_popularity explicit_ratio
      durations artist_name in
  35 <= complexity result <= 100
  ∧ length (recommendations result) = 3%nat
  ∧ mood result ≠ "".
Proof.
  unfold _analyze_genre_characteristics. cbv zeta.
  destruct (_get_artist_persona _ _ _) as [persona|] eqn:Hpersona.
  - apply persona_bounds in Hpersona as (Hc & Hr & Hm).
    split; [lia|done].
  - destruct (genre_tier_bounds genre_str avg_popularity explicit_ratio
                artist_name) as (Hc & Hr & Hm).
    split; [lia|done].
Qed.

(** In the genre tier the artist name enters the result only as the
    beginning of the first recommendation, rendered as an f-string renders
    it (a missing name reads "None"); the rest of that sentence, the two
    other recommendations, the mood and the complexity are the same for
    every name. *)
Theorem genre_tier_personalises_first_recommendation (genre_str : string)
    (avg_popularity explicit_ratio : Q) :
  ∃ sentence second third,
    ∀ artist_name,
      recommendations
        (Live._get_genre_based_analysis genre_str avg_popularity
           explicit_ratio artist_name)
      = [String.append (py_str artist_name) sentence; second; third]
      ∧ mood (Live._get_genre_based_analysis genre_str avg_popularity
                explicit_ratio artist_name)
        = mood (Live._get_genre_based_analysis genre_str avg_popularity
                  explicit_ratio None)
      ∧ complexity (Live._get_genre_based_analysis genre_str avg_popularity
                      explicit_ratio artist_name)
        = complexity (Live._get_genre_based_analysis genre_str avg_popularity
                        explicit_ratio None).
Proof.
  unfold Live._get_genre_based_analysis.
  repeat case_match; eexists _, _, _; intros artist_name; cbn;
    split_and!; reflexivity.
Qed.

(** ** The analysis: numbers within bounds, missing entries *)

Lemma pos_of_nat_Z (n : nat) : n ≠ 0%nat → Z.pos (Pos.of_nat n) = Z.of_nat n.
Proof. intros Hn. destruct n as [|n]; [done|]. lia. Qed.

Lemma ratio_bounds (lo hi numerator : Z) (denominator : nat) :
  denominator ≠ 0%nat →
  lo * Z.of_nat denominator <= numerator <= hi * Z.of_nat denominator →
  (inject_Z lo <= ratio numerator denominator <= inject_Z hi)%Q.
Proof.
  intros Hd Hn. unfold ratio. rewrite Qred_correct.
  unfold Qle, inject_Z. cbn [Qnum Qden].
  rewrite pos_of_nat_Z by done. lia.
Qed.

Lemma sum_list_bounds (lo hi : Z) (values : list Z) :
  Forall (fun v => lo <= v <= hi) values →
  lo * Z.of_nat (length values) <= sum_list values
  <= hi * Z.of_nat (length values).
Proof.
  induction 1 as [|v values Hv Hvalues IH]; [cbn; lia|].
  cbn [sum_list foldr length]. fold (sum_list values). lia.
Qed.

Lemma mean_bounds (lo hi : Z) (values : list Z) :
  lo <= 0 <= hi →
  Forall (fun v => lo <= v <= hi) values →
  (inject_Z lo <= mean values <= inject_Z hi)%Q.
Proof.
  intros H0 Hvalues. unfold mean. destruct values as [|v rest] eqn:Hl.
  - unfold Qle, inject_Z. cbn. lia.
  - apply ratio_bounds; [done|]. by apply sum_list_bounds.
Qed.

Lemma py_trunc_nonneg (x : Q) : (0 <= x)%Q → 0 <= py_trunc x.
Proof.
  unfold Qle, py_trunc. cbn. intros Hx. apply Z.quot_pos; lia.
Qed.

(** The entries of the analysis of a non-empty track list. *)
Lemma analyze_nonempty_fields (now_iso : string) (tracks : list Track)
    (genres : option (list string)) (albums : option (list Album))
    (artist_name : option string) :
  tracks ≠ [] →
  ∃ analysis,
    analyze_audio_features now_iso tracks genres albums artist_name
    = Some analysis
    ∧ avg_popularity (audio_features analysis)
      = mean (omap popularity tracks)
    ∧ avg_duration_ms (audio_features analysis)
      = mean (omap duration_ms tracks)
    ∧ explicit_ratio (audio_features analysis)
      = ratio (Z.of_nat (length (filter (fun t => explicit t = Some true)
                                        tracks)))
              (length tracks)
    ∧ mainstream_appeal analysis
      = Z.min (py_trunc (mean (omap popularity tracks) * (12 # 10))%Q) 100
    ∧ track_count analysis = length tracks
    ∧ (trend analysis = "Stable" ∨ trend analysis = "Evolving")
    ∧ classification analysis
      = _analyze_genre_characteristics
          (lower (join ", " (default [] genres)))
          (mean (omap popularity tracks))
          (ratio (Z.of_nat (length (filter (fun t => explicit t = Some true)
                                           tracks)))
                 (length tracks))
          (omap duration_ms tracks) artist_name.
Proof.
  destruct tracks as [|t0 rest]; [done|]. intros _.
  eexists. split; [reflexivity|].
  cbn [audio_features avg_popularity avg_duration_ms explicit_ratio
       mainstream_appeal track_count trend classification mood_profile
       primary_mood complexity_score analysis_recommendations].
  split_and!; try done.
  - destruct (album_years_of _); [by left|]. case_bool_decide; auto.
  - by destruct (_analyze_genre_characteristics _ _ _ _ _).
Qed.

(** For a non-empty track list whose popularity entries lie within
    0..100, the analysis is there and its numbers are within bounds: the
    average popularity within 0..100, the explicit ratio within 0..1, the
    mainstream appeal within 0..100; it counts every track, and the trend
    is ['Stable'] or ['Evolving']. *)
Theorem analysis_within_bounds (now_iso : string) (tracks : list Track)
    (genres : option (list string)) (albums : option (list Album))
    (artist_name : option string) :
  tracks ≠ [] →
  Forall (fun t => ∀ p, popularity t = Some p → 0 <= p <= 100) tracks →
  ∃ analysis,
    analyze_audio_features now_iso tracks genres albums artist_name
    = Some analysis
    ∧ (0 <= avg_popularity (audio_features analysis) <= 100)%Q
    ∧ (0 <= explicit_ratio (audio_features analysis) <= 1)%Q
    ∧ 0 <= mainstream_appeal analysis <= 100
    ∧ track_count analysis = length tracks
    ∧ (trend analysis = "Stable" ∨ trend analysis = "Evolving").
Proof.
  intros Hne Hpop.
  destruct (analyze_nonempty_fields now_iso tracks genres albums artist_name
              Hne)
    as (analysis & Hsome & Havg & _ & Hratio & Happeal & Hcount & Htrend & _).
  exists analysis. rewrite Havg, Hratio, Happeal.
  assert (0 <= mean (omap popularity tracks) <= 100)%Q as Hmean.
  { apply (mean_bounds 0 100); [lia|].
    apply Forall_forall. intros p (t0 & Ht0 & Hp)%list_elem_of_omap.
    rewrite Forall_forall in Hpop. by apply (Hpop t0). }
  split; [done|]. split; [exact Hmean|]. split; [|split; [split|done]].
  - apply (ratio_bounds 0 1); [by destruct tracks|].
    pose proof (length_filter (fun t0 => explicit t0 = Some true) tracks).
    lia.
  - apply Z.min_glb; [|lia]. apply py_trunc_nonneg.
    apply Qmult_le_0_compat; [apply Hmean|done].
  - apply Z.le_min_r.
Qed.

Lemma analysis_within_bounds_witness :
  let track p e :=
    {| track_id := "t"; track_name := None; popularity := Some p;
       duration_ms := Some 200000; explicit := Some e |} in
  ∃ analysis,
    analyze_audio_features "now" [track 90 true; track 70 false]
      (Some ["pop"]) None (Some "Somebody")
    = Some analysis
    ∧ 0 <= mainstream_appeal analysis <= 100.
Proof.
  intros track.
  destruct (analysis_within_bounds "now" [track 90 true; track 70 false]
              (Some ["pop"]) None (Some "Somebody"))
    as (analysis & Hsome & _ & _ & Happeal & _).
  - discriminate.
  - repeat constructor; cbn in *; simplify_eq; lia.
  - by exists analysis.
Defined.

Lemma omap_all_none {A B : Type} (f : A -> option B) (l : list A) :
  Forall (fun x => f x = None) l → omap f l = [].
Proof.
  induction 1 as [|x l Hx Hl IH]; [done|]. cbn. by rewrite Hx.
Qed.

Lemma omap_cons_none {A B : Type} (f : A -> option B) (x : A) (l : list A) :
  f x = None → omap f (x :: l) = omap f l.
Proof. intros Hx. cbn. by rewrite Hx. Qed.

Lemma filter_none {A : Type} (P : A -> Prop) `{!∀ x, Decision (P x)}
    (l : list A) :
  Forall (fun x => ¬ P x) l → filter P l = [].
Proof.
  induction 1 as [|x l Hx Hl IH]; [done|]. by rewrite filter_cons_False.
Qed.

(** Entries that are missing count for nothing rather than for zero.  A
    track without a popularity entry is left out of the average, so adding
    one changes the track count and not the average; and when no track
    has the entry at all (as for the catalog's audio-feature records) the
    average popularity and the mainstream appeal are 0, as are the explicit
    ratio when no track is marked explicit and the average duration when no
    track has a duration. *)
Theorem analysis_missing_entries (now_iso : string) (tracks : list Track)
    (genres : option (list string)) (albums : option (list Album))
    (artist_name : option string) :
  tracks ≠ [] →
  ∃ analysis,
    analyze_audio_features now_iso tracks genres albums artist_name
    = Some analysis
    ∧ (Forall (fun t => popularity t = None) tracks →
       avg_popularity (audio_features analysis) = 0%Q
       ∧ mainstream_appeal analysis = 0)
    ∧ (Forall (fun t => explicit t ≠ Some true) tracks →
       explicit_ratio (audio_features analysis) = 0%Q)
    ∧ (Forall (fun t => duration_ms t = None) tracks →
       avg_duration_ms (audio_features analysis) = 0%Q)
    ∧ (∀ t, popularity t = None →
         ∃ analysis',
           analyze_audio_features now_iso (t :: tracks) genres albums
             artist_name = Some analysis'
           ∧ avg_popularity (audio_features analysis')
             = avg_popularity (audio_features analysis)
           ∧ mainstream_appeal analysis' = mainstream_appeal analysis
           ∧ track_count analysis' = S (track_count analysis)).
Proof.
  intros Hne.
  destruct (analyze_nonempty_fields now_iso tracks genres albums artist_name
              Hne)
    as (analysis & Hsome & Havg & Hduration & Hratio & Happeal & Hcount & _).
  exists analysis. rewrite Havg, Hduration, Hratio, Happeal, Hcount.
  split_and!; [done|..].
  - intros Hnone. by rewrite omap_all_none.
  - intros Hnone. by rewrite filter_none.
  - intros Hnone. by rewrite omap_all_none.
  - intros t Ht.
    destruct (analyze_nonempty_fields now_iso (t :: tracks) genres albums
                artist_name)
      as (analysis' & Hsome' & Havg' & _ & _ & Happeal' & Hcount' & _);
      [done|].
    exists analysis'.
    rewrite Havg', Happeal', Hcount', (omap_cons_none popularity) by done.
    by split_and!.
Qed.

Lemma analysis_missing_entries_witness :
  let features id :=
    {| track_id := id; track_name := None; popularity := None;
       duration_ms := Some 215000; explicit := None |} in
  ∃ analysis,
    analyze_audio_features "now" [features "t1"; features "t2"]
      (Some ["pop"]) None (Some "Somebody")
    = Some analysis
    ∧ avg_popularity (audio_features analysis) = 0%Q
    ∧ mainstream_appeal analysis = 0
    ∧ explicit_ratio (audio_features analysis) = 0%Q.
Proof.
  intros features.
  destruct (analysis_missing_entries "now" [features "t1"; features "t2"]
              (Some ["pop"]) None (Some "Somebody"))
    as (analysis & Hsome & Hpop & Hexplicit & _).
  - discriminate.
  - exists analysis. split; [exact Hsome|].
    destruct Hpop as [Havg Happeal]; [by repeat constructor|].
    split_and!; [exact Havg|exact Happeal|].
    apply Hexplicit. by repeat constructor.
Defined.

(** ** Discovery insights *)

(** Of an analysis the discovery insights use the average popularity and
    nothing else: two analyses with the same average popularity get the
    same insights under the same random state.  With an analysis at hand
    the mainstream appeal is always 100, the recommendation always the
    fallback sentence, and the uniqueness factor 70 when a genre contains
    "experimental", "avant-garde", "noise" or "drone" and 50 otherwise. *)
Theorem discovery_insights_use_popularity_only (artist_name : string)
    (genres : list string) (analysis : Analysis) (rng : RandomState) :
  let insights :=
    (generate_discovery_insights artist_name genres (Some analysis) rng).1 in
  (∀ other_name other,
     avg_popularity (audio_features other)
     = avg_popularity (audio_features analysis) →
     generate_discovery_insights other_name genres (Some other) rng
     = generate_discovery_insights artist_name genres (Some analysis) rng)
  ∧ insights_mainstream_appeal insights = 100%Q
  ∧ insights_recommendations insights
    = ["Versatile music suitable for various listening contexts."]
  ∧ uniqueness_factor insights
    = (if existsb
            (fun genre =>
               any_in ["experimental"; "avant-garde"; "noise"; "drone"]
                      (lower genre)) genres
       then 70%Q else 50%Q)
  ∧ genre_diversity insights = length (remove_dups genres)
  ∧ 30 <= discoverability_score insights <= 100.
Proof.
  cbv zeta. split_and!.
  - intros other_name other Hsame.
    unfold generate_discovery_insights, _calculate_discoverability,
      _calculate_mainstream_appeal, _calculate_uniqueness,
      _generate_recommendations, feature_mean. by rewrite Hsame.
  - unfold generate_discovery_insights, Random.bind.
    by destruct (_calculate_discoverability _ _ _).
  - unfold generate_discovery_insights, Random.bind.
    by destruct (_calculate_discoverability _ _ _).
  - unfold generate_discovery_insights, Random.bind.
    destruct (_calculate_discoverability _ _ _). cbn [fst uniqueness_factor].
    unfold _calculate_uniqueness, feature_mean. by destruct (existsb _ _).
  - unfold generate_discovery_insights, Random.bind.
    by destruct (_calculate_discoverability _ _ _).
  - pose proof (discoverability_bounds (Some analysis) genres rng) as [H _].
    revert H. unfold generate_discovery_insights, Random.bind.
    destruct (_calculate_discoverability _ _ _). cbn. lia.
  - pose proof (discoverability_bounds (Some analysis) genres rng) as [H _].
    revert H. unfold generate_discovery_insights, Random.bind.
    destruct (_calculate_discoverability _ _ _). cbn. lia.
Qed.

(** ** Display titles *)

Lemma prefix_app_l (a b s : string) :
  String.prefix (String.append a b) s = true → String.prefix a s = true.
Proof.
  revert s. induction a as [|c a IH]; intros s; [by destruct s|].
  destruct s as [|d s]; [done|]. simpl.
  destruct (ascii_dec c d); [apply IH|done].
Qed.

(** A string that contains [a ++ b] contains [a]. *)
Lemma py_in_app_l (a b s : string) :
  py_in (String.append a b) s = true → py_in a s = true.
Proof.
  induction s as [|d s IH]; cbn [py_in].
  - rewrite !orb_false_r. apply prefix_app_l.
  - intros [H|H]%orb_true_iff; apply orb_true_iff;
      [left; by eapply prefix_app_l | right; by apply IH].
Qed.

Lemma find_app_some {A : Type} (f : A -> bool) (l1 l2 : list A) (x : A) :
  find f l1 = Some x → find f (l1 ++ l2) = Some x.
Proof.
  induction l1 as [|y l1 IH]; [done|]. cbn. by destruct (f y).
Qed.

(** The title "The Bell King" is never answered: its key "yeat" comes
    after the key "ye" in [artist_titles], and whatever contains "yeat"
    contains "ye", so such a name gets "Yeezy", or the title of one of
    the eight keys before "ye". *)
Theorem bell_king_title_unreachable (artist_name : string)
    (genres : list string) :
  get_artist_title artist_name genres ≠ "The Bell King"
  ∧ (py_in "yeat" (lower artist_name) = true →
     ∃ key, (key, get_artist_title artist_name genres)
            ∈ take 9 artist_titles).
Proof.
  assert ((if truthy artist_name then lower artist_name else "")
          = lower artist_name) as Hlower by by destruct artist_name.
  unfold get_artist_title. cbv zeta. rewrite Hlower. clear Hlower.
  generalize (lower artist_name). intros artist_lower.
  pose proof (py_in_app_l "ye" "at" artist_lower) as Hyeat.
  change (String.append "ye" "at") with "yeat" in Hyeat.
  split.
  - unfold artist_titles. cbn [find fst].
    repeat case_match; simplify_eq; try discriminate.
    all: by specialize (Hyeat eq_refl).
  - intros Hin. specialize (Hyeat Hin).
    change artist_titles
      with (take 9 artist_titles ++ drop 9 artist_titles) at 1.
    destruct (find (fun entry => py_in entry.1 artist_lower)
                (take 9 artist_titles)) as [[key title]|] eqn:Hfind.
    + rewrite (find_app_some _ _ _ _ Hfind).
      apply find_some in Hfind as [Hentry _].
      exists key. by apply list_elem_of_In.
    + pose proof (find_none _ _ Hfind ("ye", "Yeezy")) as Hnone.
      cbn [fst] in Hnone. rewrite Hnone in Hyeat; [done|].
      cbn. tauto.
Qed.

Lemma bell_king_title_unreachable_witness :
  ∃ key, (key, get_artist_title "Yeat" ["rage"]) ∈ take 9 artist_titles.
Proof.
  exact (proj2 (bell_king_title_unreachable "Yeat" ["rage"]) eq_refl).
Defined.

(** ** The search handler *)

Lemma process_albums_positive (items : list Catalog.AlbumItem)
    (albums : list Album) :
  process_albums items = inr albums →
  Forall (fun album => total_tracks album > 0) albums.
Proof.
  revert albums. induction items as [|item items IH]; intros albums.
  - by intros [= <-].
  - cbn [process_albums]. case_bool_decide as Htracks; [|apply IH].
    destruct (Catalog.item_artists item); [done|].
    destruct (process_albums items) as [e|rest]; [done|].
    intros [= <-]. constructor; [done|by apply IH].
Qed.

Lemma fetch_audio_features_length (sp : Catalog.Client)
    (top_track_ids : list string) (features : list Track) :
  fetch_audio_features sp top_track_ids = inr features →
  (length features <= length top_track_ids)%nat.
Proof.
  revert features.
  induction top_track_ids as [|track_id rest IH]; intros features.
  - by intros [= <-].
  - cbn [fetch_audio_features].
    destruct (Catalog.audio_features sp track_id) as [[|]|[found|]];
      [|done| |].
    + intros H%IH. cbn. lia.
    + destruct (fetch_audio_features sp rest) as [e|fetched]; [done|].
      intros [= <-]. specialize (IH _ eq_refl). cbn. lia.
    + intros H%IH. cbn. lia.
Qed.

(** The albums of a search are the catalog's albums that have tracks, in
    the catalog's order, each with its first artist; the loop raises
    exactly when one of them lists no artist. *)
Theorem process_albums_result (items : list Catalog.AlbumItem) :
  let kept :=
    filter (fun item => Catalog.item_total_tracks item > 0) items in
  match process_albums items with
  | inr albums =>
      album_id <$> albums = Catalog.item_id <$> kept
      ∧ total_tracks <$> albums = Catalog.item_total_tracks <$> kept
      ∧ Some ∘ album_artist <$> albums
        = head ∘ Catalog.item_artists <$> kept
      ∧ Forall (fun album => total_tracks album > 0) albums
      ∧ (length albums <= length items)%nat
  | inl e =>
      e = OtherException
      ∧ Exists (fun item => Catalog.item_artists item = []) kept
  end.
Proof.
  induction items as [|item items IH]; [by split_and!; try constructor|].
  cbv zeta in *. cbn [process_albums]. rewrite filter_cons.
  case_bool_decide as Htracks;
    [rewrite decide_True by done|rewrite decide_False by done].
  - destruct (Catalog.item_artists item) as [|artist others] eqn:Hartists.
    { split; [done|]. by left. }
    destruct (process_albums items) as [e|albums].
    + destruct IH as [-> Hbad]. split; [done|]. by right.
    + destruct IH as (Hids & Htotals & Hnames & Hpositive & Hlen).
      rewrite !fmap_cons, Hids, Htotals, Hnames. cbn. rewrite Hartists.
      split_and!; try done; [by constructor|lia].
  - destruct (process_albums items) as [e|albums]; [done|].
    destruct IH as (Hids & Htotals & Hnames & Hpositive & Hlen).
    split_and!; try done. cbn. lia.
Qed.

(** The audio-feature loop skips a track whose lookup raises
    [SpotifyException] or finds nothing, keeps the features of the others
    in order, and fails only when a lookup raises something else. *)
Theorem fetch_audio_features_result (sp : Catalog.Client)
    (top_track_ids : list string) :
  match fetch_audio_features sp top_track_ids with
  | inr features =>
      features = omap (kept_features sp) top_track_ids
      ∧ Forall (fun track_id =>
                  Catalog.audio_features sp track_id ≠ inl OtherException)
               top_track_ids
      ∧ (length features <= length top_track_ids)%nat
  | inl e =>
      e = OtherException
      ∧ Exists (fun track_id =>
                  Catalog.audio_features sp track_id = inl OtherException)
               top_track_ids
  end.
Proof.
  induction top_track_ids as [|track_id rest IH];
    [by split_and!; try constructor|].
  cbn [fetch_audio_features omap list_omap]. unfold kept_features at 1.
  destruct (Catalog.audio_features sp track_id) as [[|]|[features|]]
    eqn:Hlookup.
  - destruct (fetch_audio_features sp rest) as [e|fetched].
    + destruct IH as [-> Hbad]. split; [done|]. by right.
    + destruct IH as (-> & Hgood & Hlen).
      split_and!; [done|constructor; [congruence|done]|cbn; lia].
  - split; [done|]. by left.
  - destruct (fetch_audio_features sp rest) as [e|fetched].
    + destruct IH as [-> Hbad]. split; [done|]. by right.
    + destruct IH as (-> & Hgood & Hlen).
      split_and!; [done|constructor; [congruence|done]|cbn in *; lia].
  - destruct (fetch_audio_features sp rest) as [e|fetched].
    + destruct IH as [-> Hbad]. split; [done|]. by right.
    + destruct IH as (-> & Hgood & Hlen).
      split_and!; [done|constructor; [congruence|done]|cbn; lia].
Qed.

(** A search that got through the catalog calls, step by step. *)
Lemma search_lookup_success (sp : Catalog.Client)
    (md5_hexdigest : string -> string) (clock : Clock) (query : string)
    (g g' : Globals) (response : Response) :
  search_lookup sp md5_hexdigest clock query g = inr (g', response) →
  status response = 200 →
  ∃ artist others albums analysed result,
    Catalog.search sp query = inr (artist :: others)
    ∧ (∃ items, Catalog.artist_albums sp (Catalog.id artist) = inr items
                ∧ process_albums items = inr albums)
    ∧ (length analysed <= 20)%nat
    ∧ body response = SearchBody result
    ∧ result_albums result = albums
    ∧ total_results result = length albums
    ∧ sa_id (result_artist result) = Catalog.id artist
    ∧ sa_name (result_artist result) = Catalog.name artist
    ∧ sa_genres (result_artist result) = Catalog.genres artist
    ∧ sa_title (result_artist result)
      = get_artist_title (Catalog.name artist) (Catalog.genres artist)
    ∧ music_analysis result
      = analyze_audio_features (analysis_now clock) analysed
          (Some (Catalog.genres artist)) (Some albums)
          (Some (Catalog.name artist))
    ∧ (discovery_insights result, random_state g')
      = generate_discovery_insights (Catalog.name artist)
          (Catalog.genres artist) (music_analysis result) (random_state g)
    ∧ music_insights_cache g'
      = <[md5_hexdigest
            (String.append (Catalog.id artist)
               (String.append "_" (cache_today clock)))
          := {| cached_analysis := music_analysis result;
                cached_insights := discovery_insights result;
                cached_timestamp := cache_now clock |}]>
          (music_insights_cache g).
Proof.
  unfold search_lookup.
  destruct (Catalog.search sp query) as [e|[|artist others]]; [done| |].
  { intros [= <- <-]. done. }
  destruct (Catalog.artist_albums sp (Catalog.id artist)) as [e|items]
    eqn:Hitems; [done|].
  destruct (process_albums items) as [e|albums] eqn:Halbums; [done|].
  destruct (Catalog.artist_top_tracks sp (Catalog.id artist)) as [e|tracks];
    [done|].
  set (top_tracks := filter (fun t => truthy (track_id t) = true)
                            (take 20 tracks)).
  assert (length top_tracks <= 20)%nat as Htop.
  { unfold top_tracks.
    pose proof (length_filter (fun t => truthy (track_id t) = true)
                  (take 20 tracks)).
    rewrite length_take in *. lia. }
  destruct (fetch_audio_features sp (track_id <$> top_tracks))
    as [e|fetched] eqn:Hfetch; [done|].
  apply fetch_audio_features_length in Hfetch as Hlen.
  rewrite length_fmap in Hlen.
  cbv zeta.
  destruct (generate_discovery_insights _ _ _ _) as [insights rng] eqn:Hgen.
  intros [= <- <-] _.
  exists artist, others, albums,
    (match fetched with [] => top_tracks | _ => fetched end).
  eexists. split_and!; try reflexivity.
  - by exists items.
  - destruct fetched; [done|lia].
  - cbn. by rewrite Hgen.
Qed.

(** A search that answers 200 echoes the first artist the catalog found,
    reports as ['total_results'] the number of albums it lists, lists only
    albums that have tracks, and analyses at most 20 tracks. *)
Theorem search_success_response (sp : Catalog.Client)
    (md5_hexdigest : string -> string) (clock : Clock) (query : string)
    (g g' : Globals) (response : Response) :
  search_lookup sp md5_hexdigest clock query g = inr (g', response) →
  status response = 200 →
  ∃ artist others result,
    Catalog.search sp query = inr (artist :: others)
    ∧ body response = SearchBody result
    ∧ sa_id (result_artist result) = Catalog.id artist
    ∧ sa_name (result_artist result) = Catalog.name artist
    ∧ total_results result = length (result_albums result)
    ∧ Forall (fun album => total_tracks album > 0) (result_albums result)
    ∧ (∀ analysis, music_analysis result = Some analysis →
                   (1 <= track_count analysis <= 20)%nat).
Proof.
  intros Hlookup Hstatus.
  destruct (search_lookup_success _ _ _ _ _ _ _ Hlookup Hstatus)
    as (artist & others & albums & analysed & result & Hsearch
        & (items & _ & Halbums) & Hlen & Hbody & Hlisted & Htotal & Hid & Hname
        & _ & _ & Hanalysis & _).
  exists artist, others, result. rewrite Hlisted.
  split_and!; try done.
  - by apply (process_albums_positive items).
  - intros analysis Hsome. rewrite Hanalysis in Hsome.
    destruct analysed as [|t rest] eqn:Hlist; [done|].
    rewrite <- Hlist in *.
    destruct (analyze_nonempty_fields (analysis_now clock) analysed
                (Some (Catalog.genres artist)) (Some albums)
                (Some (Catalog.name artist)))
      as (analysis' & Hsome' & _ & _ & _ & _ & Hcount & _);
      [by rewrite Hlist|].
    rewrite Hsome' in Hsome. injection Hsome as <-.
    rewrite Hcount, Hlist in *. cbn in *. lia.
Qed.

(** After a search that answers 200, the insights cache holds, under the
    hash of the artist id and the day, exactly the analysis and the
    insights that were answered; every other cache entry is as before, and
    the random generator has advanced by one draw. *)
Theorem search_success_cached (sp : Catalog.Client)
    (md5_hexdigest : string -> string) (clock : Clock) (query : string)
    (g g' : Globals) (response : Response) :
  search_lookup sp md5_hexdigest clock query g = inr (g', response) →
  status response = 200 →
  ∃ artist others result,
    Catalog.search sp query = inr (artist :: others)
    ∧ body response = SearchBody result
    ∧ let cache_key :=
        md5_hexdigest
          (String.append (Catalog.id artist)
             (String.append "_" (cache_today clock))) in
      music_insights_cache g' !! cache_key
      = Some {| cached_analysis := music_analysis result;
                cached_insights := discovery_insights result;
                cached_timestamp := cache_now clock |}
      ∧ (∀ key, key ≠ cache_key →
                music_insights_cache g' !! key
                = music_insights_cache g !! key)
      ∧ position (random_state g') = S (position (random_state g))
      ∧ entropy (random_state g') = entropy (random_state g).
Proof.
  intros Hlookup Hstatus.
  destruct (search_lookup_success _ _ _ _ _ _ _ Hlookup Hstatus)
    as (artist & others & albums & analysed & result & Hsearch & _ & _ & Hbody
        & _ & _ & _ & _ & _ & _ & _ & Hinsights & Hcache).
  exists artist, others, result. cbv zeta. rewrite Hcache.
  split_and!; try done.
  - apply lookup_insert_eq.
  - intros key Hkey. by apply lookup_insert_ne.
  - unfold generate_discovery_insights, Random.bind in Hinsights.
    destruct (music_analysis result);
      unfold _calculate_discoverability, Random.bind, Random.ret, randint
        in Hinsights; cbn in Hinsights; by injection Hinsights as _ ->.
  - unfold generate_discovery_insights, Random.bind in Hinsights.
    destruct (music_analysis result);
      unfold _calculate_discoverability, Random.bind, Random.ret, randint
        in Hinsights; cbn in Hinsights; by injection Hinsights as _ ->.
Qed.

(** One artist with two albums, one of them without tracks, and two top
    tracks whose audio features the catalog does not have. *)
Lemma search_example :
  let seed := {| entropy := fun _ => 4; position := 0 |} in
  let artist :=
    {| Catalog.id := "A1"; Catalog.name := "Adele";
       Catalog.genres := ["british soul"; "pop"];
       Catalog.followers := Some 100; Catalog.popularity := Some 90;
       Catalog.images := [] |} in
  let item id tracks :=
    {| Catalog.item_id := id; Catalog.item_name := id;
       Catalog.item_artists := ["Adele"]; Catalog.item_images := [];
       Catalog.item_release_date := "2015-11-20";
       Catalog.item_total_tracks := tracks;
       Catalog.item_spotify_url := "u"; Catalog.item_album_type := None |} in
  let track id :=
    {| track_id := id; track_name := None; popularity := Some 80;
       duration_ms := Some 200000; explicit := Some false |} in
  let sp :=
    {| Catalog.search := fun _ => inr [artist];
       Catalog.artist_albums := fun _ => inr [item "B1" 11; item "B2" 0];
       Catalog.artist_top_tracks := fun _ => inr [track "t1"; track "t2"];
       Catalog.audio_features := fun _ => inl SpotifyException |} in
  let clock :=
    {| analysis_now := "t"; cache_today := "2024-05-01"; cache_now := "t";
       search_now := "t" |} in
  ∃ g' response,
    search_lookup sp (fun s => s) clock "adele" (initial_globals seed)
    = inr (g', response)
    ∧ status response = 200.
Proof. intros seed artist item track sp clock. by eexists _, _. Qed.

Lemma search_success_response_witness :
  let seed := {| entropy := fun _ => 4; position := 0 |} in
  let artist :=
    {| Catalog.id := "A1"; Catalog.name := "Adele";
       Catalog.genres := ["british soul"; "pop"];
       Catalog.followers := Some 100; Catalog.popularity := Some 90;
       Catalog.images := [] |} in
  let item id tracks :=
    {| Catalog.item_id := id; Catalog.item_name := id;
       Catalog.item_artists := ["Adele"]; Catalog.item_images := [];
       Catalog.item_release_date := "2015-11-20";
       Catalog.item_total_tracks := tracks;
       Catalog.item_spotify_url := "u"; Catalog.item_album_type := None |} in
  let track id :=
    {| track_id := id; track_name := None; popularity := Some 80;
       duration_ms := Some 200000; explicit := Some false |} in
  let sp :=
    {| Catalog.search := fun _ => inr [artist];
       Catalog.artist_albums := fun _ => inr [item "B1" 11; item "B2" 0];
       Catalog.artist_top_tracks := fun _ => inr [track "t1"; track "t2"];
       Catalog.audio_features := fun _ => inl SpotifyException |} in
  let clock :=
    {| analysis_now := "t"; cache_today := "2024-05-01"; cache_now := "t";
       search_now := "t" |} in
  ∃ g' response result,
    search_lookup sp (fun s => s) clock "adele" (initial_globals seed)
    = inr (g', response)
    ∧ body response = SearchBody result
    ∧ total_results result = length (result_albums result)
    ∧ Forall (fun album => total_tracks album > 0) (result_albums result).
Proof.
  intros seed artist item track sp clock.
  destruct search_example as (g' & response & Hrun & Hstatus).
  destruct (search_success_response _ _ _ _ _ _ _ Hrun Hstatus)
    as (found & others & result & _ & Hbody & _ & _ & Htotal & Hlisted & _).
  by exists g', response, result.
Defined.

Lemma search_success_cached_witness :
  let seed := {| entropy := fun _ => 4; position := 0 |} in
  let artist :=
    {| Catalog.id := "A1"; Catalog.name := "Adele";
       Catalog.genres := ["british soul"; "pop"];
       Catalog.followers := Some 100; Catalog.popularity := Some 90;
       Catalog.images := [] |} in
  let item id tracks :=
    {| Catalog.item_id := id; Catalog.item_name := id;
       Catalog.item_artists := ["Adele"]; Catalog.item_images := [];
       Catalog.item_release_date := "2015-11-20";
       Catalog.item_total_tracks := tracks;
       Catalog.item_spotify_url := "u"; Catalog.item_album_type := None |} in
  let track id :=
    {| track_id := id; track_name := None; popularity := Some 80;
       duration_ms := Some 200000; explicit := Some false |} in
  let sp :=
    {| Catalog.search := fun _ => inr [artist];
       Catalog.artist_albums := fun _ => inr [item "B1" 11; item "B2" 0];
       Catalog.artist_top_tracks := fun _ => inr [track "t1"; track "t2"];
       Catalog.audio_features := fun _ => inl SpotifyException |} in
  let clock :=
    {| analysis_now := "t"; cache_today := "2024-05-01"; cache_now := "t";
       search_now := "t" |} in
  ∃ g' response,
    search_lookup sp (fun s => s) clock "adele" (initial_globals seed)
    = inr (g', response)
    ∧ position (random_state g') = 1%nat.
Proof.
  intros seed artist item track sp clock.
  destruct search_example as (g' & response & Hrun & Hstatus).
  destruct (search_success_cached _ _ _ _ _ _ _ Hrun Hstatus)
    as (found & others & result & _ & _ & _ & _ & Hposition & _).
  by exists g', response.
Defined.

(** *** Status codes and the limiter in front of the search *)

Lemma search_albums_statuses (sp : option Catalog.Client)
    (md5_hexdigest : string -> string) (clock : Clock)
    (data : option SearchRequest.t) (g : Globals) :
  status (search_albums sp md5_hexdigest clock data g).2
  ∈ [200; 400; 404; 500; 502; 503].
Proof.
  unfold search_albums.
  destruct sp as [sp|]; [|repeat constructor]. destruct data as [data|]; [|repeat constructor].
  cbv zeta. destruct (negb _); [repeat constructor|].
  destruct (_ <? _)%nat; [repeat constructor|].
  destruct (search_lookup _ _ _ _ _) as [[|]|[g' response]] eqn:Hlookup;
    [repeat constructor..|].
  cbn [snd]. unfold search_lookup in Hlookup.
  destruct (Catalog.search sp _) as [e|[|artist others]]; [done| |].
  { injection Hlookup as <- <-. repeat constructor. }
  destruct (Catalog.artist_albums sp _) as [e|items]; [done|].
  destruct (process_albums items) as [e|albums]; [done|].
  destruct (Catalog.artist_top_tracks sp _) as [e|tracks]; [done|].
  destruct (fetch_audio_features sp _) as [e|fetched]; [done|].
  cbv zeta in Hlookup. destruct (generate_discovery_insights _ _ _ _).
  injection Hlookup as <- <-. repeat constructor.
Qed.

(** The search route always answers: with its quota of 30 the limiter
    never raises, and the status is one of 200, 400, 404, 429, 500, 502,
    503.  A request answered 429 has not reached the handler: it is not
    counted in the analytics, nothing is cached and no random number is
    drawn; only its client's rate window has been cleaned, and the hint
    it carries is positive. *)
Theorem search_route_answers (sp : option Catalog.Client)
    (md5_hexdigest : string -> string) (clock : Clock)
    (data : option SearchRequest.t) (client_ip : string) (now : Z)
    (g : Globals) :
  let (g', answer) :=
    search_route sp md5_hexdigest clock data client_ip now g in
  ∃ response,
    answer = Some response
    ∧ status response ∈ [200; 400; 404; 429; 500; 502; 503]
    ∧ (status response = 429 →
       (∃ message retry_after,
          body response = RateLimitBody message retry_after
          ∧ 0 < retry_after)
       ∧ search_analytics g' = search_analytics g
       ∧ music_insights_cache g' = music_insights_cache g
       ∧ user_preferences g' = user_preferences g
       ∧ random_state g' = random_state g
       ∧ rate_limit_tracker g'
         = <[client_ip :=
               RateLimiter.clean 3600 now
                 (RateLimiter.tracker_get (rate_limit_tracker g) client_ip)]>
             (rate_limit_tracker g)).
Proof.
  unfold search_route, rate_limit.
  destruct (Z_lt_le_dec
              (Z.of_nat (length (RateLimiter.clean 3600 now
                 (RateLimiter.tracker_get (rate_limit_tracker g) client_ip))))
              30) as [Hroom|Hfull].
  - rewrite (gate_allowed 30 3600 client_ip now _ Hroom).
    pose proof (search_albums_statuses sp md5_hexdigest clock data
                  (with_tracker
                     (<[client_ip :=
                          RateLimiter.clean 3600 now
                            (RateLimiter.tracker_get (rate_limit_tracker g)
                               client_ip) ++ [now]]>
                        (rate_limit_tracker g)) g)) as Hstatus.
    destruct (search_albums _ _ _ _ _) as [g2 response].
    exists response. cbn [snd] in Hstatus. split_and!; [done| |].
    + apply list_elem_of_In. apply list_elem_of_In in Hstatus.
      cbn in *. tauto.
    + intros H429. rewrite H429 in Hstatus.
      apply list_elem_of_In in Hstatus. cbn in Hstatus.
      repeat (destruct Hstatus as [Hstatus|Hstatus]; [discriminate|]).
      done.
  - destruct (gate_rejected 30 3600 client_ip now (rate_limit_tracker g))
      as (oldest & rest & Hkept & -> & Hretry); [lia|done|].
    eexists. split; [done|]. cbn. split; [repeat constructor|].
    intros _. rewrite Hkept. split_and!; try done. by eexists _, _.
Qed.

(** * The handlers over any request body: properties *)

Section GenericFacts.
Context `{Generic.Str} {value : Type} `{!Generic.Value value}.

Lemma dict_not_empty (entries : gmap string value) (key : string) (v : value) :
  entries !! key = Some v → bool_decide (entries = ∅) = false.
Proof.
  intros Hkey. apply bool_decide_eq_false. intros ->.
  by rewrite lookup_empty in Hkey.
Qed.

(** A like whose id cannot be hashed: the record is appended, [set.add]
    raises, and the handler answers 500 with the record kept. *)
Lemma heart_artist_unhashable (liked_at timestamp : string)
    (entries : gmap string value) (artist_id artist_name : value)
    (prefs : Generic.Preferences value) :
  entries !! "artist_id" = Some artist_id →
  entries !! "artist_name" = Some artist_name →
  Generic.py_bool artist_id = true →
  Generic.py_bool artist_name = true →
  Generic.py_hashable artist_id = false →
  existsb (fun a => Generic.py_eq (Generic.LikedArtist.artist_id a) artist_id)
          (Generic.liked_artists_data prefs) = false →
  Generic.heart_artist liked_at timestamp (Generic.Dict entries) prefs
  = ({| Generic.liked_artists := Generic.liked_artists prefs;
        Generic.liked_artists_data :=
          Generic.liked_artists_data prefs
          ++ [{| Generic.LikedArtist.artist_id := artist_id;
                 Generic.LikedArtist.artist_name := artist_name;
                 Generic.LikedArtist.genres :=
                   default Generic.py_empty_list (entries !! "genres");
                 Generic.LikedArtist.image :=
                   default Generic.py_none (entries !! "image");
                 Generic.LikedArtist.liked_at := liked_at |}];
        Generic.saved_albums := Generic.saved_albums prefs;
        Generic.genre_preferences := Generic.genre_preferences prefs;
        Generic.listening_history := Generic.listening_history prefs |},
     Generic.answer_error 500 "Failed to save artist").
Proof.
  intros Hid Hname Hid_true Hname_true Hhash Hnew.
  unfold Generic.heart_artist.
  rewrite (dict_not_empty _ _ _ Hid), Hid, Hname. cbn [default from_option id].
  rewrite Hid_true, Hname_true, Hnew. cbn [negb orb].
  unfold Generic.set_add, Generic.set_contains.
  cbn [Generic.liked_artists]. by rewrite Hhash.
Qed.

End GenericFacts.

(** C9 fails on the code.  A like whose [artist_id] is truthy but cannot be
    hashed (a JSON list or object), sent to the stores as the module
    creates them: [heart_artist] appends the record, [set.add] raises, and
    the handler answers 500 with the record kept.  The state reached holds
    one liked record and no liked id: the id set and the data list are
    out of step. *)
Theorem liked_ids_out_of_step `{Generic.Str} {value : Type}
    `{!Generic.Value value} (liked_at timestamp : string)
    (entries : gmap string value) (artist_id artist_name : value) :
  entries !! "artist_id" = Some artist_id →
  entries !! "artist_name" = Some artist_name →
  Generic.py_bool artist_id = true →
  Generic.py_bool artist_name = true →
  Generic.py_hashable artist_id = false →
  let (prefs, answer) :=
    Generic.heart_artist liked_at timestamp (Generic.Dict entries)
      Generic.initial_preferences in
  Generic.answer_status answer = 500
  ∧ Generic.LikedArtist.artist_id <$> Generic.liked_artists_data prefs
    = [artist_id]
  ∧ Generic.liked_artists prefs = []
  ∧ Generic.in_step prefs = false.
Proof.
  intros Hid Hname Hid_true Hname_true Hhash.
  rewrite (heart_artist_unhashable liked_at timestamp entries artist_id
             artist_name Generic.initial_preferences) by done.
  done.
Qed.

(** The request [{"artist_id": ["x"], "artist_name": "Adele"}]. *)
Lemma liked_ids_out_of_step_witness :
  let entries : gmap string sample :=
    {[ "artist_id" := SList ["x"]; "artist_name" := SStr "Adele" ]} in
  let (prefs, answer) :=
    Generic.heart_artist "t1" "t2" (Generic.Dict entries)
      Generic.initial_preferences in
  Generic.answer_status answer = 500
  ∧ length (Generic.liked_artists_data prefs) = 1%nat
  ∧ length (Generic.liked_artists prefs) = 0%nat.
Proof.
  intros entries.
  pose proof (liked_ids_out_of_step "t1" "t2" entries (SList ["x"])
                (SStr "Adele") eq_refl eq_refl eq_refl eq_refl eq_refl) as H.
  destruct (Generic.heart_artist "t1" "t2" (Generic.Dict entries)
              Generic.initial_preferences) as [prefs answer].
  destruct H as (Hstatus & Hdata & Hids & _).
  split_and!; [exact Hstatus| |by rewrite Hids].
  by rewrite <- (length_fmap Generic.LikedArtist.artist_id), Hdata.
Defined.

(** Without a catalog client, with a body that is not a non-empty
    dictionary, with a query that is not a text, or with a text that is
    empty once stripped or longer than 100 characters, nothing is counted:
    every store stays as it was. *)
Lemma search_albums_uncounted `{Generic.Str} {value : Type}
    `{!Generic.Value value} (sp : option Catalog.Client)
    (md5_hexdigest : string -> string) (clock : Clock)
    (data : Generic.Json value) (g : Globals) :
  match sp, data with
  | Some _, Generic.Dict entries =>
      entries = ∅
      ∨ match Generic.query_text entries with
        | None => True
        | Some text =>
            Generic.py_strip text = ""
            ∨ (100 < Generic.py_len (Generic.py_strip text))%nat
        end
  | _, _ => True
  end →
  (Generic.search_albums sp md5_hexdigest clock data g).1 = g.
Proof.
  unfold Generic.search_albums.
  destruct sp as [sp|]; [|done].
  destruct data as [|[|]|entries]; [done..|].
  intros [->|Hquery]; [done|].
  case_bool_decide; [done|].
  destruct (Generic.query_text entries) as [text|]; [|done].
  cbv zeta. destruct Hquery as [Hq|Hq].
  - by rewrite Hq.
  - destruct (negb (truthy _)); [done|].
    apply Nat.ltb_lt in Hq. by rewrite Hq.
Qed.

(** C10: for every search request that passes the handler's input
    validation (the catalog client is set up, the body is a dictionary
    whose query is a text, and the stripped query is non-empty and at
    most 100 characters long), the count of the lowercased query is
    incremented, and the catalog lookup runs on the stores that already
    hold the incremented count.  So a search that then fails, with a
    catalog error (502, 500) or with no artist found (404), has still
    incremented the counter: the analytics store has changed although the
    request answers an error, and nothing else has.  Stripping,
    lowercasing and counting characters are Python's, whatever they do to
    the text. *)
Theorem search_counts_before_lookup `{Generic.Str} {value : Type}
    `{!Generic.Value value} (sp : Catalog.Client)
    (md5_hexdigest : string -> string) (clock : Clock)
    (entries : gmap string value) (given : value) (text : string)
    (g : Globals) :
  entries !! "query" = Some given →
  Generic.py_text given = Some text →
  let query := Generic.py_strip text in
  let key := Generic.py_lower query in
  let counted := with_analytics (increment key (search_analytics g)) g in
  query ≠ "" → (Generic.py_len query <= 100)%nat →
  let (g', response) :=
    Generic.search_albums (Some sp) md5_hexdigest clock
      (Generic.Dict entries) g in
  search_analytics g' !! key
  = Some (default 0 (search_analytics g !! key) + 1)
  ∧ search_analytics g' = increment key (search_analytics g)
  ∧ (g', response)
    = match search_lookup sp md5_hexdigest clock query counted with
      | inr answered => answered
      | inl SpotifyException =>
          (counted,
           error_response 502 "Music service error. Please try again.")
      | inl OtherException =>
          (counted, error_response 500 "Internal server error")
      end
  ∧ (Catalog.search sp query = inl SpotifyException →
     status response = 502 ∧ g' = counted)
  ∧ (Catalog.search sp query = inl OtherException →
     status response = 500 ∧ g' = counted)
  ∧ (Catalog.search sp query = inr [] →
     status response = 404 ∧ g' = counted)
  ∧ (status response ≠ 200 → g' = counted).
Proof.
  intros Hgiven Htext query key counted Hquery Hlen.
  unfold Generic.search_albums, Generic.query_text.
  rewrite (bool_decide_eq_false_2 (entries = ∅)), Hgiven, Htext
    by (intros ->; by rewrite lookup_empty in Hgiven).
  cbv zeta. fold query. fold key. fold counted.
  assert (truthy query = true) as -> by by destruct query.
  apply Nat.leb_le in Hlen. rewrite Nat.ltb_antisym, Hlen. cbn [negb].
  assert (search_analytics counted !! key
          = Some (default 0 (search_analytics g !! key) + 1))
    as Hcount by apply lookup_insert_eq.
  destruct (search_lookup sp md5_hexdigest clock query counted)
    as [[|]|[g' response]] eqn:Hlookup.
  - split_and!; try done; unfold search_lookup in Hlookup;
      intros Hsearch; by rewrite Hsearch in Hlookup.
  - split_and!; try done; unfold search_lookup in Hlookup;
      intros Hsearch; by rewrite Hsearch in Hlookup.
  - destruct (search_lookup_analytics _ _ _ _ _ _ _ Hlookup)
      as [Hsame Hfail].
    rewrite Hsame. split_and!; try done;
      unfold search_lookup in Hlookup; intros Hsearch;
      rewrite Hsearch in Hlookup; by simplify_eq.
Qed.

(** A search for " Drake " while the catalog is failing. *)
Lemma search_counts_before_lookup_witness :
  let seed := {| entropy := fun _ => 0; position := 0 |} in
  let sp :=
    {| Catalog.search := fun _ => inl SpotifyException;
       Catalog.artist_albums := fun _ => inl SpotifyException;
       Catalog.artist_top_tracks := fun _ => inl SpotifyException;
       Catalog.audio_features := fun _ => inl SpotifyException |} in
  let clock :=
    {| analysis_now := "t"; cache_today := "d"; cache_now := "t";
       search_now := "t" |} in
  let entries : gmap string sample := {[ "query" := SStr " Drake " ]} in
  let (g', response) :=
    Generic.search_albums (Some sp) (fun s => s) clock (Generic.Dict entries)
      (initial_globals seed) in
  search_analytics g' !! "drake" = Some 1 ∧ status response = 502.
Proof.
  intros seed sp clock entries.
  pose proof (search_counts_before_lookup sp (fun s => s) clock entries
                (SStr " Drake ") " Drake " (initial_globals seed)
                eq_refl eq_refl) as H.
  cbv zeta in H.
  assert (Generic.py_strip " Drake " ≠ "") as Hquery
    by (vm_compute; discriminate).
  assert (Generic.py_len (Generic.py_strip " Drake ") <= 100)%nat as Hlen
    by (vm_compute; lia).
  specialize (H Hquery Hlen).
  destruct (Generic.search_albums (Some sp) (fun s => s) clock
              (Generic.Dict entries) (initial_globals seed))
    as [g' response].
  destruct H as (Hcount & _ & _ & Hfail & _).
  split; [exact Hcount | exact (proj1 (Hfail eq_refl))].
Defined.

Section GenericCollection.
Context `{Generic.Str} {value : Type} `{!Generic.Value value}.

Lemma count_all_lookup (texts : list string) (k : string)
    (counts : gmap string Z) :
  default 0
    (foldl (fun counts text => increment (Generic.py_lower text) counts)
           counts texts !! k)
  = default 0 (counts !! k) + Z.of_nat (Generic.occurrences k texts).
Proof.
  revert counts. unfold Generic.occurrences.
  induction texts as [|text texts IH]; intros counts.
  - cbn. lia.
  - cbn [foldl List.filter]. rewrite IH, increment_lookup.
    case_bool_decide; cbn [length]; lia.
Qed.

(** The genre loop over texts alone comes to its end, having counted each
    of them under its lowercase form. *)
Lemma count_genres_texts (items : list value) (texts : list string)
    (counts : gmap string Z) :
  Forall2 (fun item text => Generic.py_text item = Some text) items texts →
  Generic.count_genres items counts
  = (foldl (fun counts text => increment (Generic.py_lower text) counts)
           counts texts, true).
Proof.
  intros Htexts. revert counts.
  induction Htexts as [|item text items texts Htext _ IH]; intros counts.
  - done.
  - cbn [Generic.count_genres foldl]. by rewrite Htext, IH.
Qed.


Lemma filter_none_equal {A : Type} (f : A -> bool) (l : list A) :
  existsb f l = false → List.filter (fun x => negb (f x)) l = l.
Proof.
  induction l as [|x l IH]; [done|]. cbn.
  intros [Hx Hl]%orb_false_elim. rewrite Hx. cbn. by rewrite IH.
Qed.

(** The stores and the answer of a like that gets as far as the id set:
    a truthy id and name, an id that can be hashed and is not yet liked. *)
Lemma heart_artist_stored (liked_at timestamp : string)
    (entries : gmap string value) (artist_id artist_name : value)
    (prefs : Generic.Preferences value) :
  entries !! "artist_id" = Some artist_id →
  entries !! "artist_name" = Some artist_name →
  Generic.py_bool artist_id = true →
  Generic.py_bool artist_name = true →
  Generic.py_hashable artist_id = true →
  existsb (fun a => Generic.py_eq (Generic.LikedArtist.artist_id a) artist_id)
          (Generic.liked_artists_data prefs) = false →
  let genres := default Generic.py_empty_list (entries !! "genres") in
  let artist_data :=
    {| Generic.LikedArtist.artist_id := artist_id;
       Generic.LikedArtist.artist_name := artist_name;
       Generic.LikedArtist.genres := genres;
       Generic.LikedArtist.image :=
         default Generic.py_none (entries !! "image");
       Generic.LikedArtist.liked_at := liked_at |} in
  let ids :=
    if existsb (fun w => Generic.py_eq w artist_id)
               (Generic.liked_artists prefs)
    then Generic.liked_artists prefs
    else Generic.liked_artists prefs ++ [artist_id] in
  let stored counts history :=
    {| Generic.liked_artists := ids;
       Generic.liked_artists_data :=
         Generic.liked_artists_data prefs ++ [artist_data];
       Generic.saved_albums := Generic.saved_albums prefs;
       Generic.genre_preferences := counts;
       Generic.listening_history := history |} in
  Generic.heart_artist liked_at timestamp (Generic.Dict entries) prefs
  = match Generic.py_iter genres with
    | None =>
        (stored (Generic.genre_preferences prefs)
                (Generic.listening_history prefs),
         Generic.answer_error 500 "Failed to save artist")
    | Some items =>
        let (counts, finished) :=
          Generic.count_genres items (Generic.genre_preferences prefs) in
        if finished then
          (stored counts
             (Generic.listening_history prefs
              ++ [{| Generic.HistoryEvent.artist_id := artist_id;
                     Generic.HistoryEvent.artist_name := artist_name;
                     Generic.HistoryEvent.genres := Some genres;
                     Generic.HistoryEvent.timestamp := timestamp;
                     Generic.HistoryEvent.action := "liked" |}]),
           {| Generic.answer_body := Generic.Liked artist_name (length ids);
              Generic.answer_status := 200 |})
        else
          (stored counts (Generic.listening_history prefs),
           Generic.answer_error 500 "Failed to save artist")
    end.
Proof.
  intros Hid Hname Hid_true Hname_true Hhash Hnew genres artist_data ids
    stored.
  unfold Generic.heart_artist.
  rewrite (dict_not_empty _ _ _ Hid), Hid, Hname. cbn [default from_option id].
  rewrite Hid_true, Hname_true, Hnew. cbn [negb orb].
  unfold Generic.set_add, Generic.set_contains.
  cbn [Generic.liked_artists]. rewrite Hhash.
  fold genres. subst stored ids.
  destruct (existsb _ (Generic.liked_artists prefs));
    (destruct (Generic.py_iter genres) as [items|]; [|done]);
    cbn [Generic.genre_preferences];
    by destruct (Generic.count_genres items _) as [counts [|]].
Qed.

End GenericCollection.

(** *** Liking *)





(** *** Liking and unliking *)

(** Liking a new artist and then unliking it restores the liked records
    and the id set, but not the rest: the genre counts stay raised and the
    history has grown by the two events.  The like is one that succeeds
    (truthy id and name, genres a list of texts); the id can be hashed,
    equals itself, and is neither the id of a liked record nor in the id
    set. *)
Theorem like_unlike_round_trip `{Generic.Str} {value : Type}
    `{!Generic.Value value} (liked_at timestamp1 timestamp2 : string)
    (like unlike : gmap string value) (artist_id artist_name : value)
    (items : list value) (texts : list string)
    (prefs : Generic.Preferences value) :
  like !! "artist_id" = Some artist_id →
  like !! "artist_name" = Some artist_name →
  unlike !! "artist_id" = Some artist_id →
  Generic.py_bool artist_id = true →
  Generic.py_bool artist_name = true →
  Generic.py_hashable artist_id = true →
  Generic.py_eq artist_id artist_id = true →
  existsb (fun a => Generic.py_eq (Generic.LikedArtist.artist_id a) artist_id)
          (Generic.liked_artists_data prefs) = false →
  existsb (fun w => Generic.py_eq w artist_id) (Generic.liked_artists prefs)
  = false →
  let genres := default Generic.py_empty_list (like !! "genres") in
  Generic.py_iter genres = Some items →
  Forall2 (fun item text => Generic.py_text item = Some text) items texts →
  let liked :=
    Generic.heart_artist liked_at timestamp1 (Generic.Dict like) prefs in
  let unliked :=
    Generic.unlike_artist timestamp2 (Generic.Dict unlike) liked.1 in
  let prefs' := unliked.1 in
  Generic.answer_status liked.2 = 200
  ∧ unliked.2
    = {| Generic.answer_body :=
           Generic.Unliked
             (default (Generic.py_of_str "Unknown Artist")
                      (unlike !! "artist_name"))
             (length (Generic.liked_artists prefs));
         Generic.answer_status := 200 |}
  ∧ Generic.liked_artists_data prefs' = Generic.liked_artists_data prefs
  ∧ Generic.liked_artists prefs' = Generic.liked_artists prefs
  ∧ Generic.saved_albums prefs' = Generic.saved_albums prefs
  ∧ (∀ key,
       default 0 (Generic.genre_preferences prefs' !! key)
       = default 0 (Generic.genre_preferences prefs !! key)
         + Z.of_nat (Generic.occurrences key texts))
  ∧ Generic.listening_history prefs'
    = Generic.listening_history prefs
      ++ [{| Generic.HistoryEvent.artist_id := artist_id;
             Generic.HistoryEvent.artist_name := artist_name;
             Generic.HistoryEvent.genres := Some genres;
             Generic.HistoryEvent.timestamp := timestamp1;
             Generic.HistoryEvent.action := "liked" |};
          {| Generic.HistoryEvent.artist_id := artist_id;
             Generic.HistoryEvent.artist_name :=
               default (Generic.py_of_str "Unknown Artist")
                       (unlike !! "artist_name");
             Generic.HistoryEvent.genres := None;
             Generic.HistoryEvent.timestamp := timestamp2;
             Generic.HistoryEvent.action := "unliked" |}].
Proof.
  intros Hid Hname Hid' Hid_true Hname_true Hhash Hrefl Hnew Hnot_in genres
    Hiter Htexts liked unliked prefs'.
  subst prefs' unliked liked.
  rewrite (heart_artist_stored liked_at timestamp1 like artist_id
             artist_name prefs) by done.
  cbv zeta. fold genres. rewrite Hiter, Hnot_in.
  rewrite (count_genres_texts items texts) by done.
  cbn [fst snd]. unfold Generic.unlike_artist.
  rewrite (dict_not_empty _ _ _ Hid'), Hid'. cbn [default from_option id].
  rewrite Hid_true. cbn [negb].
  cbn [Generic.liked_artists Generic.liked_artists_data
       Generic.saved_albums Generic.genre_preferences
       Generic.listening_history].
  rewrite List.filter_app. cbn [List.filter Generic.LikedArtist.artist_id].
  rewrite Hrefl. cbn [negb].
  rewrite (filter_none_equal
             (fun a => Generic.py_eq (Generic.LikedArtist.artist_id a)
                                     artist_id)) by done.
  rewrite app_nil_r.
  unfold Generic.set_contains, Generic.set_remove. rewrite Hhash.
  rewrite existsb_app. cbn [existsb]. rewrite Hrefl, orb_true_r.
  rewrite List.filter_app. cbn [List.filter]. rewrite Hrefl. cbn [negb].
  rewrite (filter_none_equal (fun w => Generic.py_eq w artist_id)) by done.
  rewrite app_nil_r.
  replace (length (Generic.liked_artists_data prefs)
           =? length (Generic.liked_artists_data prefs ++ [_]))%nat
    with false
    by (symmetry; apply Nat.eqb_neq; rewrite length_app; cbn; lia).
  cbn [fst snd Generic.liked_artists Generic.liked_artists_data
       Generic.saved_albums Generic.genre_preferences
       Generic.listening_history Generic.answer_status].
  split_and!; try done.
  - intros key. apply count_all_lookup.
  - by rewrite <- app_assoc.
Qed.

Lemma like_unlike_round_trip_witness :
  let like : gmap string sample :=
    {[ "artist_id" := SStr "A1"; "artist_name" := SStr "Adele";
       "genres" := SList ["Pop"] ]} in
  let unlike : gmap string sample := {[ "artist_id" := SStr "A1" ]} in
  let prefs' :=
    (Generic.unlike_artist "t3" (Generic.Dict unlike)
       (Generic.heart_artist "t1" "t2" (Generic.Dict like)
          Generic.initial_preferences).1).1 in
  Generic.liked_artists_data prefs' = []
  ∧ Generic.liked_artists prefs' = []
  ∧ default 0 (Generic.genre_preferences prefs' !! "pop") = 1
  ∧ length (Generic.listening_history prefs') = 2%nat.
Proof.
  intros like unlike prefs'.
  pose proof (like_unlike_round_trip "t1" "t2" "t3" like unlike (SStr "A1")
                (SStr "Adele") [SStr "Pop"] ["Pop"]
                Generic.initial_preferences
                eq_refl eq_refl eq_refl eq_refl eq_refl eq_refl eq_refl
                eq_refl eq_refl eq_refl) as H0.
  destruct H0 as (_ & _ & Hdata & Hids & _ & Hgenres & Hhistory).
  - repeat constructor.
  - fold prefs' in Hdata, Hids, Hgenres, Hhistory.
    split_and!; [exact Hdata|exact Hids|by rewrite Hgenres
                |by rewrite Hhistory].
Defined.

(** *** Saving an album *)

(** [save_album] on a dictionary: it answers 400 when the id or the name
    is missing or falsy, 409 when the id is already saved and 200
    otherwise; only in the last case does it change anything, appending
    one record that holds the entries of the request as they came, [None]
    for a missing one and 0 for a missing ['total_tracks'] (an entry that
    is present is stored as it is, [null] included), and answering the
    new number of saved albums.  On any other body it changes nothing and
    answers 400 (a falsy body) or 500. *)
Theorem save_album_contract {value : Type} `{!Generic.Value value}
    (saved_at : string)
    (prefs : Generic.Preferences value) :
  (∀ entries : gmap string value,
     let (prefs', answer) :=
       Generic.save_album saved_at (Generic.Dict entries) prefs in
     let entry key := default Generic.py_none (entries !! key) in
     let valid :=
       bool_decide (entries ≠ ∅)
       && Generic.py_bool (entry "album_id")
       && Generic.py_bool (entry "album_name") in
     let saved :=
       existsb (fun a => Generic.py_eq (Generic.SavedAlbum.album_id a)
                                       (entry "album_id"))
               (Generic.saved_albums prefs) in
     (valid = false → Generic.answer_status answer = 400 ∧ prefs' = prefs)
     ∧ (valid = true → saved = true →
        Generic.answer_status answer = 409 ∧ prefs' = prefs)
     ∧ (valid = true → saved = false →
        answer
        = {| Generic.answer_body :=
               Generic.Saved (entry "album_name")
                 (S (length (Generic.saved_albums prefs)));
             Generic.answer_status := 200 |}
        ∧ Generic.saved_albums prefs'
          = Generic.saved_albums prefs
            ++ [{| Generic.SavedAlbum.album_id := entry "album_id";
                   Generic.SavedAlbum.album_name := entry "album_name";
                   Generic.SavedAlbum.artist_name := entry "artist_name";
                   Generic.SavedAlbum.artist_id := entry "artist_id";
                   Generic.SavedAlbum.release_date := entry "release_date";
                   Generic.SavedAlbum.image := entry "image";
                   Generic.SavedAlbum.total_tracks :=
                     default (Generic.py_of_int 0)
                             (entries !! "total_tracks");
                   Generic.SavedAlbum.saved_at := saved_at |}]
        ∧ Generic.liked_artists_data prefs' = Generic.liked_artists_data prefs
        ∧ Generic.liked_artists prefs' = Generic.liked_artists prefs
        ∧ Generic.genre_preferences prefs' = Generic.genre_preferences prefs
        ∧ Generic.listening_history prefs'
          = Generic.listening_history prefs))
  ∧ Generic.save_album saved_at Generic.Raises prefs
    = (prefs, Generic.answer_error 500 "Failed to save album")
  ∧ Generic.save_album saved_at (Generic.NoDict true) prefs
    = (prefs, Generic.answer_error 500 "Failed to save album")
  ∧ Generic.save_album saved_at (Generic.NoDict false) prefs
    = (prefs, Generic.answer_error 400 "Invalid request data").
Proof.
  split; [|done]. intros entries. unfold Generic.save_album.
  case_bool_decide as Hempty.
  { rewrite bool_decide_false by (by intros Hne). by split_and!. }
  rewrite bool_decide_true by done. cbv zeta.
  cbn [Generic.SavedAlbum.album_id Generic.SavedAlbum.album_name andb].
  destruct (Generic.py_bool (default Generic.py_none (entries !! "album_id")));
    destruct (Generic.py_bool
                (default Generic.py_none (entries !! "album_name")));
    cbn [negb orb andb]; try by split_and!.
  destruct (existsb _ _); [by split_and!|].
  split_and!; try done. intros _ _.
  cbn [Generic.saved_albums]. rewrite length_app, Nat.add_1_r.
  by split_and!.
Qed.

(** The request [{"album_id": "B1", "album_name": "25",
    "total_tracks": null}]: the record holds [None], not 0. *)
Lemma save_album_contract_witness :
  let entries : gmap string sample :=
    {[ "album_id" := SStr "B1"; "album_name" := SStr "25";
       "total_tracks" := SNone ]} in
  let (prefs', answer) :=
    Generic.save_album "t1" (Generic.Dict entries)
      Generic.initial_preferences in
  Generic.answer_status answer = 200
  ∧ Generic.SavedAlbum.total_tracks <$> Generic.saved_albums prefs' = [SNone].
Proof.
  intros entries.
  pose proof (proj1 (save_album_contract "t1" Generic.initial_preferences)
                entries) as H0.
  destruct (Generic.save_album "t1" (Generic.Dict entries)
              Generic.initial_preferences) as [prefs' answer].
  destruct H0 as (_ & _ & Hnew).
  destruct (Hnew eq_refl eq_refl) as (Hanswer & Hsaved & _).
  split; [by rewrite Hanswer|by rewrite Hsaved].
Defined.

(** ** The classifier and the case of the artist name *)

(** Non-empty artist names with the same lowercase form, as [str.lower]
    gives it, are classified alike: same mood, same complexity, and the
    same persona when the artist-name tier answers. *)
Theorem classification_case_insensitive `{Generic.Str} (genre_str : string)
    (avg_popularity explicit_ratio : Q) (durations : list Z)
    (name1 name2 : string) :
  name1 ≠ "" → name2 ≠ "" →
  Generic.py_lower name1 = Generic.py_lower name2 →
  let r1 :=
    Generic._analyze_genre_characteristics genre_str avg_popularity
      explicit_ratio durations (Some name1) in
  let r2 :=
    Generic._analyze_genre_characteristics genre_str avg_popularity
      explicit_ratio durations (Some name2) in
  mood r1 = mood r2
  ∧ complexity r1 = complexity r2
  ∧ (is_Some (_get_artist_persona (Generic.py_lower name1) avg_popularity
                explicit_ratio)
     → r1 = r2).
Proof.
  intros Hname1 Hname2 Hlower.
  unfold Generic._analyze_genre_characteristics. cbv zeta.
  assert (truthy name1 = true) as -> by by destruct name1.
  assert (truthy name2 = true) as -> by by destruct name2.
  rewrite <- Hlower.
  destruct (_get_artist_persona _ _ _) as [persona|]; [done|].
  split_and!; [apply genre_tier_name_free..|]. by intros [? [=]].
Qed.

Lemma classification_case_insensitive_witness :
  let r1 :=
    Generic._analyze_genre_characteristics "indie rock" 40 0 []
      (Some "RADIOHEAD") in
  let r2 :=
    Generic._analyze_genre_characteristics "indie rock" 40 0 []
      (Some "radiohead") in
  mood r1 = mood r2 ∧ complexity r1 = complexity r2 ∧ r1 = r2.
Proof.
  intros r1 r2.
  destruct (classification_case_insensitive "indie rock" 40 0 []
              "RADIOHEAD" "radiohead")
    as (Hmood & Hcomplexity & Hsame); [discriminate..|reflexivity|].
  split_and!; [exact Hmood|exact Hcomplexity|].
  apply Hsame. vm_compute. by eexists.
Defined.

(** *** Requests the search turns away *)

(** What [search_albums] answers to a request it does not look up, and
    that it then leaves every store as it was: 503 without a catalog
    client; 500 when the body is not JSON, is not a dictionary or holds a
    query that is not a text ([null], a number, a list: [strip] is
    missing); 400 when the body is falsy, or the stripped query is empty
    or longer than 100 characters. *)
Theorem search_albums_rejections `{Generic.Str} {value : Type}
    `{!Generic.Value value} (sp : Catalog.Client)
    (md5_hexdigest : string -> string) (clock : Clock) (g : Globals) :
  let search := Generic.search_albums (Some sp) md5_hexdigest clock in
  (∀ data : Generic.Json value,
     Generic.search_albums None md5_hexdigest clock data g
     = (g, error_response 503 "Spotify service unavailable"))
  ∧ search (Generic.Raises (value := value)) g
    = (g, error_response 500 "Internal server error")
  ∧ search (Generic.NoDict (value := value) true) g
    = (g, error_response 500 "Internal server error")
  ∧ search (Generic.NoDict (value := value) false) g
    = (g, error_response 400 "Invalid request data")
  ∧ search (Generic.Dict (value := value) ∅) g
    = (g, error_response 400 "Invalid request data")
  ∧ (∀ (entries : gmap string value) given,
       entries !! "query" = Some given → Generic.py_text given = None →
       search (Generic.Dict entries) g
       = (g, error_response 500 "Internal server error"))
  ∧ (∀ (entries : gmap string value) text,
       entries ≠ ∅ → Generic.query_text entries = Some text →
       Generic.py_strip text = "" →
       search (Generic.Dict entries) g
       = (g, error_response 400 "Search query is required"))
  ∧ (∀ (entries : gmap string value) text,
       entries ≠ ∅ → Generic.query_text entries = Some text →
       Generic.py_strip text ≠ "" →
       (100 < Generic.py_len (Generic.py_strip text))%nat →
       search (Generic.Dict entries) g
       = (g, error_response 400 "Search query too long")).
Proof.
  intros search. subst search. unfold Generic.search_albums.
  split_and!; try done.
  - intros entries given Hgiven Htext.
    rewrite (dict_not_empty _ _ _ Hgiven). unfold Generic.query_text.
    by rewrite Hgiven, Htext.
  - intros entries text Hentries Htext Hempty.
    rewrite bool_decide_false, Htext by done. cbv zeta. by rewrite Hempty.
  - intros entries text Hentries Htext Hquery Hlong.
    rewrite bool_decide_false, Htext by done. cbv zeta.
    assert (truthy (Generic.py_strip text) = true) as ->
      by by destruct (Generic.py_strip text).
    apply Nat.ltb_lt in Hlong. by rewrite Hlong.
Qed.

(** *** The handlers on requests of texts *)

(** On a request whose query is a text, with the [str] methods on ASCII
    text, [Generic.search_albums] is [search_albums]. *)
Lemma search_albums_of_text (sp : option Catalog.Client)
    (md5_hexdigest : string -> string) (clock : Clock) (query : string)
    (g : Globals) :
  Generic.search_albums sp md5_hexdigest clock
    (Generic.Dict ({[ "query" := SStr query ]} : gmap string sample)) g
  = search_albums sp md5_hexdigest clock
      (Some {| SearchRequest.query := Some query |}) g.
Proof.
  unfold Generic.search_albums, search_albums, Generic.query_text.
  destruct sp as [sp|]; [|done].
  rewrite bool_decide_false by apply insert_non_empty.
  by rewrite lookup_singleton_eq.
Qed.

Lemma analyze_genre_characteristics_ascii (genre_str : string)
    (avg_popularity explicit_ratio : Q) (durations : list Z)
    (artist_name : option string) :
  Generic._analyze_genre_characteristics genre_str avg_popularity
    explicit_ratio durations artist_name
  = _analyze_genre_characteristics genre_str avg_popularity explicit_ratio
      durations artist_name.
Proof. done. Qed.

(** ** Instances of the rate-limiter properties *)

Lemma gate_isolates_clients_witness :
  RateLimiter.tracker_get
    (RateLimiter.rate_limit_gate 2 3600 "10.0.0.1" 10
       (RateLimiter.run 2 3600 [("10.0.0.2", 0); ("10.0.0.2", 5)] ∅)).1
    "10.0.0.2"
  = [0; 5].
Proof.
  rewrite (proj1 (gate_isolates_clients 2 3600 "10.0.0.1" "10.0.0.2" 10 20
                    (RateLimiter.run 2 3600
                       [("10.0.0.2", 0); ("10.0.0.2", 5)] ∅)
                    ltac:(discriminate))).
  reflexivity.
Defined.

Lemma gate_window_fresh_and_bounded_witness :
  Z.of_nat
    (length (RateLimiter.tracker_get
               (RateLimiter.rate_limit_gate 2 3600 "10.0.0.1" 4000
                  (RateLimiter.run 2 3600
                     [("10.0.0.1", 0); ("10.0.0.1", 500)] ∅)).1
               "10.0.0.1"))
  <= 2.
Proof.
  apply (proj1 (proj2 (gate_window_fresh_and_bounded 2 3600 "10.0.0.1" 4000
                         (RateLimiter.run 2 3600
                            [("10.0.0.1", 0); ("10.0.0.1", 500)] ∅)
                         ltac:(lia)))).
  reflexivity.
Defined.

Lemma run_windows_bounded_witness :
  Z.of_nat
    (length (RateLimiter.tracker_get
               (RateLimiter.run 2 3600
                  [("10.0.0.1", 0); ("10.0.0.1", 5); ("10.0.0.1", 9)] ∅)
               "10.0.0.1"))
  <= 2.
Proof.
  apply (run_windows_bounded 2 3600
           [("10.0.0.1", 0); ("10.0.0.1", 5); ("10.0.0.1", 9)] "10.0.0.1").
  lia.
Defined.

Lemma retry_after_expiry_admitted_witness :
  let tr :=
    RateLimiter.run 2 3600 [("10.0.0.1", 0); ("10.0.0.1", 50)] ∅ in
  (RateLimiter.rate_limit_gate 2 3600 "10.0.0.1" (100 + 3500)
     (RateLimiter.rate_limit_gate 2 3600 "10.0.0.1" 100 tr).1).2
  = RateLimiter.Allowed.
Proof.
  intros tr.
  apply (retry_after_expiry_admitted 2 3600 "10.0.0.1" 100 3500 tr).
  - lia.
  - reflexivity.
  - reflexivity.
Defined.

Lemma retry_before_expiry_rejected_witness :
  let tr :=
    RateLimiter.run 2 3600 [("10.0.0.1", 0); ("10.0.0.1", 50)] ∅ in
  (RateLimiter.rate_limit_gate 2 3600 "10.0.0.1" 1100
     (RateLimiter.rate_limit_gate 2 3600 "10.0.0.1" 100 tr).1).2
  = RateLimiter.Rejected (3500 - (1100 - 100)).
Proof.
  intros tr.
  apply (retry_before_expiry_rejected 2 3600 "10.0.0.1" 100 1100 3500 tr).
  - lia.
  - vm_compute. repeat constructor; discriminate.
  - reflexivity.
  - lia.
Defined.

Lemma rate_windows_shared_across_quotas_witness :
  ∃ retry_after,
    (RateLimiter.rate_limit_gate 10 3600 "10.0.0.1" 60
       (RateLimiter.run 30 3600
          [("10.0.0.1", 1); ("10.0.0.1", 2); ("10.0.0.1", 3);
           ("10.0.0.1", 4); ("10.0.0.1", 5); ("10.0.0.1", 6);
           ("10.0.0.1", 7); ("10.0.0.1", 8); ("10.0.0.1", 9);
           ("10.0.0.1", 10)] ∅)).2
    = RateLimiter.Rejected retry_after
    ∧ 0 < retry_after.
Proof.
  apply (rate_windows_shared_across_quotas 30 10 3600 "10.0.0.1" 60).
  - lia.
  - repeat constructor; cbn; lia.
  - vm_compute. discriminate.
Defined.
